(* ===================================================================== *)
(*  Four.Meme migration sniper: threshold detection and position         *)
(*  lifecycle, embedded from                                             *)
(*    core/src/migration-detector/MigrationDetector.ts                   *)
(*    core/src/transition-logic/TransitionLogic.ts                       *)
(*                                                                       *)
(*  Conventions of the embedding                                         *)
(*   - a JS `number` that holds a price, a market cap or a percentage is *)
(*     an exact rational (Q); where the source can divide by zero the    *)
(*     result type is [jsnum], which has the IEEE infinities and NaN;    *)
(*     the migration probability of [Ieee], the gas price and the        *)
(*     minimum output of an order are computed in doubles ([Float64]:    *)
(*     binary64 with the IEEE operations);                               *)
(*   - a `bigint` (wei amounts, gas) and a millisecond clock are Z;      *)
(*   - an awaited call to the chain, the router or the wallet is an      *)
(*     oracle argument: [None] (or a dedicated constructor) stands for   *)
(*     the call throwing; calls that overlap are followed from await to  *)
(*     await ([Detector.act], [InFlight], [InFlightTrades]);             *)
(*   - `logger` lines are dropped, except the one that announces an exit *)
(*     attempt, which is kept in the trace;                              *)
(*   - `emit` appends to a trace.                                        *)
(* ===================================================================== *)

From Stdlib Require Import ZArith QArith Qminmax Qround Lia Lqa Bool List Sorted.
From Stdlib Require Import Floats.
From stdpp Require Import gmap strings list fin_maps pretty.
Import ListNotations.

Local Open Scope Z_scope.

(* Decimal constants denote the nearest double, as in the source. *)
Set Warnings "-inexact-float".

(* --------------------------------------------------------------------- *)
(*  JS numbers                                                           *)
(* --------------------------------------------------------------------- *)

Module JS.

(** [a < b] on finite numbers, as a boolean. *)
Definition Qlt_bool (a b : Q) : bool := negb (Qle_bool b a).

(** The result of an arithmetic expression that may leave the finite
    numbers. *)
Inductive jsnum : Type :=
| Fin (q : Q)
| PInf
| NInf
| NaN.

(** [a / b] on finite operands: a zero divisor gives an infinity of the
    sign of the dividend, and [0 / 0] is NaN. *)
Definition jsdiv (a b : Q) : jsnum :=
  if Qeq_bool b 0%Q then
    if Qlt_bool 0%Q a then PInf
    else if Qlt_bool a 0%Q then NInf
    else NaN
  else Fin (a / b).

(** [Math.max(x, y)]. *)
Definition jsmax (x y : jsnum) : jsnum :=
  match x, y with
  | NaN, _ | _, NaN => NaN
  | PInf, _ | _, PInf => PInf
  | NInf, z | z, NInf => z
  | Fin a, Fin b => Fin (Qmax a b)
  end.

(** [x * k] for a finite factor. *)
Definition jsmul (x : jsnum) (k : Q) : jsnum :=
  match x with
  | Fin a => Fin (a * k)
  | PInf => if Qlt_bool 0%Q k then PInf
            else if Qlt_bool k 0%Q then NInf else NaN
  | NInf => if Qlt_bool 0%Q k then NInf
            else if Qlt_bool k 0%Q then PInf else NaN
  | NaN => NaN
  end.

(** [x < q] and [x >= q] where [x] may be `undefined`: `undefined`
    converts to NaN, and every comparison with NaN is false. *)
Definition num_lt (x : option jsnum) (q : Q) : bool :=
  match x with
  | Some (Fin a) => Qlt_bool a q
  | Some NInf => true
  | _ => false
  end.

Definition num_ge (x : option jsnum) (q : Q) : bool :=
  match x with
  | Some (Fin a) => Qle_bool q a
  | Some PInf => true
  | _ => false
  end.

(** [x <= y]; false as soon as a NaN is involved. *)
Definition jsle (x y : jsnum) : Prop :=
  match x, y with
  | NaN, _ | _, NaN => False
  | NInf, _ => True
  | _, PInf => True
  | Fin a, Fin b => (a <= b)%Q
  | _, _ => False
  end.

(** Equality of results, up to the representation of a rational. *)
Definition jseq (x y : jsnum) : Prop :=
  match x, y with
  | Fin a, Fin b => (a == b)%Q
  | PInf, PInf | NInf, NInf => True
  | _, _ => False
  end.

End JS.

(* --------------------------------------------------------------------- *)
(*  MigrationDetector: configuration and the prediction functions        *)
(* --------------------------------------------------------------------- *)

Module Detector.
Import JS.

Record MigrationDetectorConfig : Type := {
  migrationThreshold : Q;
  preMigrationBuffer : Q;
  checkInterval : Z;
  confirmationBlocks : Z;
  maxTokensToMonitor : Z;
  enablePredictiveAnalysis : bool
}.

(** [loadMigrationConfig] with no override in the environment. *)
Definition loadMigrationConfig : MigrationDetectorConfig := {|
  migrationThreshold := 18%Q;
  preMigrationBuffer := 0.5%Q;
  checkInterval := 1000;
  confirmationBlocks := 3;
  maxTokensToMonitor := 50;
  enablePredictiveAnalysis := true
|}.

(** [calculateMigrationProbability]. The division by the buffer is
    only reached when the buffer is positive, and the one by the
    threshold is exact for every threshold but 0; the body cannot
    throw, so the `catch` branch is dead. *)
Definition calculateMigrationProbability
    (cfg : MigrationDetectorConfig)
    (currentMarketCap bondingCurveProgress : Q) : Q :=
  let threshold := migrationThreshold cfg in
  let buffer := preMigrationBuffer cfg in
  if Qle_bool threshold currentMarketCap then 1%Q
  else if Qle_bool (threshold - buffer)%Q currentMarketCap then
    let progressInBuffer :=
      ((currentMarketCap - (threshold - buffer)) / buffer)%Q in
    (0.7 + progressInBuffer * 0.3)%Q
  else
    let progressFactor := bondingCurveProgress in
    let marketCapFactor := (currentMarketCap / threshold)%Q in
    Qmin (progressFactor * marketCapFactor)%Q 0.7%Q.

(** [estimateTimeToMigration]: the quotient is a JS division, so a
    zero progress rate gives [PInf]. *)
Definition estimateTimeToMigration
    (distanceToMigration bondingCurveProgress : Q) : jsnum :=
  if Qle_bool distanceToMigration 0%Q then Fin 0%Q
  else
    let progressRate := (bondingCurveProgress / 100)%Q in
    let estimatedTime := jsdiv distanceToMigration progressRate in
    jsmax estimatedTime (Fin 1000%Q).


(** The crossing probability in the words of the specification:
    1.0 if `marketCap >= threshold`; else if
    `marketCap >= threshold - buffer`, a linear ramp from 0.7 to 1.0
    across the buffer zone; else
    `min(0.7, bondingCurveProgress * (marketCap / threshold))`. *)
Definition crossingProbability_spec
    (threshold buffer marketCap bondingCurveProgress : Q) : Q :=
  if Qle_bool threshold marketCap then 1%Q
  else if Qle_bool (threshold - buffer)%Q marketCap then
    (0.7 + 0.3 * (marketCap - (threshold - buffer)) / buffer)%Q
  else Qmin 0.7%Q (bondingCurveProgress * (marketCap / threshold))%Q.

(** The estimate in the words of the specification:
    `max(minimumEstimate, distanceToThreshold / progressRate)`, with
    the minimum of one second and the rate that the code derives from
    the bonding curve progress. *)
Definition estimatedTimeToThreshold_spec
    (distanceToThreshold bondingCurveProgress : Q) : jsnum :=
  let minimumEstimate := 1000%Q in
  let progressRate := (bondingCurveProgress / 100)%Q in
  jsmax (Fin minimumEstimate) (jsdiv distanceToThreshold progressRate).

(* ------------------------------------------------------------------- *)
(*  Data                                                               *)
(* ------------------------------------------------------------------- *)

Record TokenData : Type := {
  address : string;
  name : string;
  symbol : string;
  decimals : Z;
  totalSupply : Z;
  bondingCurveAddress : string;
  pancakeSwapPairAddress : option string;
  isMigrated : bool;
  migrationBlock : option Z;
  migrationTxHash : option string
}.

Record MigrationStatus : Type := {
  ms_tokenAddress : string;
  currentMarketCap : Q;
  ms_migrationThreshold : Q;
  distanceToMigration : Q;
  migrationProbability : Q;
  estimatedTimeToMigration : jsnum;
  bondingCurveProgress : Q;
  liquidityBNB : Q;
  priceImpact : Q;
  lastUpdated : Z
}.

Record MigrationEvent : Type := {
  ev_tokenAddress : string;
  ev_tokenSymbol : string;
  ev_migrationStatus : MigrationStatus;
  ev_migrationTxHash : string;
  ev_migrationBlock : Z;
  ev_timestamp : Z;
  preMigrationMarketCap : Q;
  postMigrationMarketCap : Q;
  liquidityAdded : Q
}.

(** `confidence` is a square root of the variance of the factors and is
    not carried; no decision reads it. *)
Record PredictiveAnalysis : Type := {
  pa_tokenAddress : string;
  pa_migrationProbability : Q;
  pa_estimatedTimeToMigration : jsnum;
  pa_bondingCurveProgress : Q
}.

Inductive DetectorEvent : Type :=
| tokenAdded (tokenAddress : string)
| tokenRemoved (tokenAddress : string)
| statusUpdate (tokenAddress : string) (migrationStatus : MigrationStatus)
               (previousStatus : option MigrationStatus)
| migrationDetected (migrationEvent : MigrationEvent).

(* ------------------------------------------------------------------- *)
(*  What the chain answers                                             *)
(* ------------------------------------------------------------------- *)

(** The object returned by `getBondingCurveMarketCap` or
    `getPancakeSwapMarketCap`. *)
Record MarketData : Type := {
  marketCap : Q;
  md_liquidityBNB : Q;
  progress : Q
}.

(** What the ERC20 and factory contracts answer to `fetchTokenData`. *)
Record TokenMeta : Type := {
  meta_name : string;
  meta_symbol : string;
  meta_decimals : Z;
  meta_totalSupply : Z;
  meta_pair : option string
}.

(** One timer tick as seen by one token: the market read of
    `calculateMigrationStatus` ([None]: it throws), the clock at that
    moment, the successive answers of `provider.getBlockNumber()`
    during this call ([None]: the call throws; the list ending: the
    chain has not answered yet), and the clock when the event is
    built. *)
Record TickOracle : Type := {
  market : option MarketData;
  now : Z;
  polls : list (option Z);
  eventTime : Z
}.

Definition zeroAddress : string :=
  "0x0000000000000000000000000000000000000000".

(** `'0x' + '0'.repeat(64)`. *)
Definition placeholderTxHash : string :=
  "0x0000000000000000000000000000000000000000000000000000000000000000".

(* ------------------------------------------------------------------- *)
(*  Status of one token                                                *)
(* ------------------------------------------------------------------- *)

Definition fetchTokenData (tokenAddress : string) (meta : TokenMeta)
  : TokenData := {|
  address := tokenAddress;
  name := meta_name meta;
  symbol := meta_symbol meta;
  decimals := meta_decimals meta;
  totalSupply := meta_totalSupply meta;
  bondingCurveAddress := zeroAddress;
  pancakeSwapPairAddress := meta_pair meta;
  isMigrated := match meta_pair meta with Some _ => true | None => false end;
  migrationBlock := None;
  migrationTxHash := None
|}.

Definition calculateMigrationStatus (cfg : MigrationDetectorConfig)
    (tokenData : TokenData) (data : MarketData) (now : Z)
  : MigrationStatus :=
  let currentMarketCap := marketCap data in
  let liquidityBNB := md_liquidityBNB data in
  let bondingCurveProgress :=
    if isMigrated tokenData then 1%Q else progress data in
  let distanceToMigration :=
    Qmax 0%Q (migrationThreshold cfg - currentMarketCap)%Q in
  {| ms_tokenAddress := address tokenData;
     currentMarketCap := currentMarketCap;
     ms_migrationThreshold := migrationThreshold cfg;
     distanceToMigration := distanceToMigration;
     migrationProbability :=
       calculateMigrationProbability cfg currentMarketCap
                                     bondingCurveProgress;
     estimatedTimeToMigration :=
       estimateTimeToMigration distanceToMigration bondingCurveProgress;
     bondingCurveProgress := bondingCurveProgress;
     liquidityBNB := liquidityBNB;
     priceImpact := 0%Q;
     lastUpdated := now |}.

Definition performPredictiveAnalysis (tokenData : TokenData)
    (migrationStatus : MigrationStatus) : PredictiveAnalysis := {|
  pa_tokenAddress := address tokenData;
  pa_migrationProbability := migrationProbability migrationStatus;
  pa_estimatedTimeToMigration := estimatedTimeToMigration migrationStatus;
  pa_bondingCurveProgress := bondingCurveProgress migrationStatus
|}.

(* ------------------------------------------------------------------- *)
(*  Crossing detection                                                 *)
(* ------------------------------------------------------------------- *)

(** The guard of `checkTokenMigration`:
    `!tokenData.isMigrated && currentMarketCap >= migrationThreshold`. *)
Definition crossing (cfg : MigrationDetectorConfig)
    (tokenData : TokenData) (migrationStatus : MigrationStatus) : bool :=
  negb (isMigrated tokenData)
  && Qle_bool (migrationThreshold cfg) (currentMarketCap migrationStatus).

Definition setMigrated (tokenData : TokenData) (migrationBlock : Z)
    (migrationTxHash : string) : TokenData := {|
  address := address tokenData;
  name := name tokenData;
  symbol := symbol tokenData;
  decimals := decimals tokenData;
  totalSupply := totalSupply tokenData;
  bondingCurveAddress := bondingCurveAddress tokenData;
  pancakeSwapPairAddress := pancakeSwapPairAddress tokenData;
  isMigrated := true;
  migrationBlock := Some migrationBlock;
  migrationTxHash := Some migrationTxHash
|}.

(** The loop of `waitForConfirmation`: poll until the block number
    reaches the target. A throwing poll is caught by
    `waitForConfirmation` itself, which then returns. The result is
    what is left of the answers, or [None] while the call is still
    waiting. Market data is not read. *)
Fixpoint pollUntil (targetBlock : Z) (polls : list (option Z))
  : option (list (option Z)) :=
  match polls with
  | [] => None
  | None :: rest => Some rest
  | Some current :: rest =>
    if current <? targetBlock then pollUntil targetBlock rest
    else Some rest
  end.

Definition waitForConfirmation (cfg : MigrationDetectorConfig)
    (polls : list (option Z)) : option (list (option Z)) :=
  match polls with
  | [] => None
  | None :: rest => Some rest
  | Some currentBlock :: rest =>
    pollUntil (currentBlock + confirmationBlocks cfg) rest
  end.

(** `handleMigrationEvent` from the point where `waitForConfirmation`
    has returned: the block number is read once more; if that throws,
    the `catch` logs and nothing is set or emitted. The flag is set on
    the token object that the map holds (the handler was given a
    reference to it). *)
Definition finishMigrationEvent (tokenAddress : string)
    (tokenData : TokenData) (migrationStatus : MigrationStatus)
    (blockNumber : option Z) (eventTime : Z)
  : TokenData * list DetectorEvent :=
  match blockNumber with
  | None => (tokenData, [])
  | Some migrationBlock =>
    let migrationEvent := {|
      ev_tokenAddress := tokenAddress;
      ev_tokenSymbol := symbol tokenData;
      ev_migrationStatus := migrationStatus;
      ev_migrationTxHash := placeholderTxHash;
      ev_migrationBlock := migrationBlock;
      ev_timestamp := eventTime;
      preMigrationMarketCap := currentMarketCap migrationStatus;
      postMigrationMarketCap := currentMarketCap migrationStatus;
      liquidityAdded := liquidityBNB migrationStatus |} in
    (setMigrated tokenData migrationBlock placeholderTxHash,
     [migrationDetected migrationEvent])
  end.

(** `handleMigrationEvent`, awaited to its end. [None]: it has not
    returned (the chain has not produced the blocks yet). *)
Definition handleMigrationEvent (cfg : MigrationDetectorConfig)
    (tokenAddress : string) (tokenData : TokenData)
    (migrationStatus : MigrationStatus)
    (polls : list (option Z)) (eventTime : Z)
  : option (TokenData * list DetectorEvent) :=
  match waitForConfirmation cfg polls with
  | None => None
  | Some [] => None
  | Some (blockNumber :: _) =>
    Some (finishMigrationEvent tokenAddress tokenData migrationStatus
                               blockNumber eventTime)
  end.

(** How a call that is awaited ends. *)
Inductive Awaited (A : Type) : Type :=
| pending                 (* has not returned *)
| caught                  (* threw; the `catch` logged *)
| done_with (a : A).
Arguments pending {A}.
Arguments caught {A}.
Arguments done_with {A} a.

(** `checkTokenMigration` on the token object alone, each await run to
    its end before anything else happens: the new status, the token
    object after the call, and what was emitted. *)
Definition checkToken (cfg : MigrationDetectorConfig)
    (tokenAddress : string) (tokenData : TokenData)
    (previousStatus : option MigrationStatus) (o : TickOracle)
  : Awaited (MigrationStatus * TokenData * list DetectorEvent) :=
  match market o with
  | None => caught
  | Some data =>
    let migrationStatus :=
      calculateMigrationStatus cfg tokenData data (now o) in
    let handled :=
      if crossing cfg tokenData migrationStatus
      then handleMigrationEvent cfg tokenAddress tokenData
                                migrationStatus (polls o) (eventTime o)
      else Some (tokenData, []) in
    match handled with
    | None => pending
    | Some (tokenData', fired) =>
      done_with (migrationStatus, tokenData',
                 fired ++ [statusUpdate tokenAddress migrationStatus
                                        previousStatus])
    end
  end.

Definition is_migrationDetected (e : DetectorEvent) : bool :=
  match e with migrationDetected _ => true | _ => false end.

(** Number of `migrationDetected` emissions in a trace. *)
Definition detections (trace : list DetectorEvent) : nat :=
  length (List.filter is_migrationDetected trace).

(** A tick that reads a market cap below the threshold, or that cannot
    read it. *)
Definition below (cfg : MigrationDetectorConfig) (o : TickOracle) : Prop :=
  forall data, market o = Some data ->
               (marketCap data < migrationThreshold cfg)%Q.

(* ------------------------------------------------------------------- *)
(*  One token under successive ticks, each run to completion           *)
(* ------------------------------------------------------------------- *)

(** The token object and the trace after the given ticks, when no tick
    starts before the previous one has returned. A tick that does not
    return ends the run. *)
Fixpoint runTicks (cfg : MigrationDetectorConfig) (tokenAddress : string)
    (tokenData : TokenData) (previousStatus : option MigrationStatus)
    (ticks : list TickOracle) : TokenData * list DetectorEvent :=
  match ticks with
  | [] => (tokenData, [])
  | o :: rest =>
    match checkToken cfg tokenAddress tokenData previousStatus o with
    | pending => (tokenData, [])
    | caught => runTicks cfg tokenAddress tokenData previousStatus rest
    | done_with (migrationStatus, tokenData', fired) =>
      let '(final, later) :=
        runTicks cfg tokenAddress tokenData' (Some migrationStatus) rest in
      (final, fired ++ later)
    end
  end.

(** The ticks (numbered from [k]) during which `migrationDetected` is
    emitted. *)
Fixpoint firingTicks (cfg : MigrationDetectorConfig)
    (tokenAddress : string) (tokenData : TokenData)
    (previousStatus : option MigrationStatus) (k : nat)
    (ticks : list TickOracle) : list nat :=
  match ticks with
  | [] => []
  | o :: rest =>
    match checkToken cfg tokenAddress tokenData previousStatus o with
    | pending => []
    | caught =>
      firingTicks cfg tokenAddress tokenData previousStatus (S k) rest
    | done_with (migrationStatus, tokenData', fired) =>
      (if existsb is_migrationDetected fired then [k] else [])
      ++ firingTicks cfg tokenAddress tokenData' (Some migrationStatus)
                     (S k) rest
    end
  end.

(* ------------------------------------------------------------------- *)
(*  One token under the interval timer                                 *)
(* ------------------------------------------------------------------- *)

(** `setInterval` does not wait for the promise of the previous
    callback: while a handler is suspended in `waitForConfirmation`
    the timer starts the next `checkAllTokens`, which reads the same
    token object. [awaiting] holds the handlers that are suspended,
    oldest first, each with the status it was called with. Of the
    detector only the token object and the `migrationDetected`
    emissions are followed here. *)
Record Asset : Type := {
  token : TokenData;
  awaiting : list MigrationStatus;
  trace : list DetectorEvent
}.

Inductive Action : Type :=
| timerTick (data : option MarketData) (now : Z)
    (* the timer fires: `checkTokenMigration` runs up to the await
       inside `handleMigrationEvent`, if it gets there *)
| confirmed (blockNumber : option Z) (eventTime : Z).
    (* the oldest suspended handler is resumed after its wait *)

Definition act (cfg : MigrationDetectorConfig) (a : Asset)
    (action : Action) : Asset :=
  match action with
  | timerTick None _ => a
  | timerTick (Some data) now =>
    let migrationStatus :=
      calculateMigrationStatus cfg (token a) data now in
    if crossing cfg (token a) migrationStatus
    then {| token := token a;
            awaiting := awaiting a ++ [migrationStatus];
            trace := trace a |}
    else a
  | confirmed blockNumber eventTime =>
    match awaiting a with
    | [] => a
    | migrationStatus :: rest =>
      let '(tokenData', fired) :=
        finishMigrationEvent (address (token a)) (token a)
                             migrationStatus blockNumber eventTime in
      {| token := tokenData'; awaiting := rest;
         trace := trace a ++ fired |}
    end
  end.

Definition schedule (cfg : MigrationDetectorConfig) (a : Asset)
    (actions : list Action) : Asset :=
  fold_left (act cfg) actions a.

(* ------------------------------------------------------------------- *)
(*  The detector's maps: registration and the tick over all tokens     *)
(* ------------------------------------------------------------------- *)

Record State : Type := {
  monitoredTokens : gmap string TokenData;
  migrationStatuses : gmap string MigrationStatus;
  predictiveAnalyses : gmap string PredictiveAnalysis;
  emitted : list DetectorEvent
}.

Definition initial : State := {|
  monitoredTokens := ∅;
  migrationStatuses := ∅;
  predictiveAnalyses := ∅;
  emitted := []
|}.

Inductive AddError : Type :=
| MonitoringLimitReached (limit : Z)
    (* `Maximum monitoring limit reached: ${maxTokensToMonitor}` *)
| FetchFailed            (* `fetchTokenData` threw *)
| StatusFailed.          (* `calculateMigrationStatus` threw *)

Inductive Outcome : Type :=
| returned
| thrown (e : AddError).

(** `addToken`. The error caught at the end is rethrown, so what was
    written before the throw stays written. *)
Definition addToken (cfg : MigrationDetectorConfig) (st : State)
    (tokenAddress : string) (fetch : option TokenMeta)
    (data : option MarketData) (now : Z) : Outcome * State :=
  match monitoredTokens st !! tokenAddress with
  | Some _ => (returned, st)
  | None =>
    if maxTokensToMonitor cfg <=? Z.of_nat (size (monitoredTokens st))
    then (thrown (MonitoringLimitReached (maxTokensToMonitor cfg)), st)
    else
      match fetch with
      | None => (thrown FetchFailed, st)
      | Some meta =>
        let tokenData := fetchTokenData tokenAddress meta in
        let tokens := <[tokenAddress := tokenData]> (monitoredTokens st) in
        match data with
        | None =>
          (thrown StatusFailed,
           {| monitoredTokens := tokens;
              migrationStatuses := migrationStatuses st;
              predictiveAnalyses := predictiveAnalyses st;
              emitted := emitted st |})
        | Some data =>
          let migrationStatus :=
            calculateMigrationStatus cfg tokenData data now in
          (returned,
           {| monitoredTokens := tokens;
              migrationStatuses :=
                <[tokenAddress := migrationStatus]> (migrationStatuses st);
              predictiveAnalyses :=
                if enablePredictiveAnalysis cfg
                then <[tokenAddress :=
                         performPredictiveAnalysis tokenData migrationStatus]>
                       (predictiveAnalyses st)
                else predictiveAnalyses st;
              emitted := emitted st ++ [tokenAdded tokenAddress] |})
        end
      end
  end.

Definition removeToken (st : State) (tokenAddress : string) : State := {|
  monitoredTokens := delete tokenAddress (monitoredTokens st);
  migrationStatuses := delete tokenAddress (migrationStatuses st);
  predictiveAnalyses := delete tokenAddress (predictiveAnalyses st);
  emitted := emitted st ++ [tokenRemoved tokenAddress]
|}.

(** `checkTokenMigration` on the maps. [tokenData] is the object the
    map holds under [tokenAddress]; setting its flag is an update of
    that entry ([alter] adds no key). [None]: the call has not
    returned. *)
Definition checkTokenMigration (cfg : MigrationDetectorConfig)
    (st : State) (tokenAddress : string) (tokenData : TokenData)
    (o : TickOracle) : option State :=
  match checkToken cfg tokenAddress tokenData
                   (migrationStatuses st !! tokenAddress) o with
  | pending => None
  | caught => Some st
  | done_with (migrationStatus, tokenData', fired) =>
    Some {|
      monitoredTokens :=
        alter (fun _ => tokenData') tokenAddress (monitoredTokens st);
      migrationStatuses :=
        <[tokenAddress := migrationStatus]> (migrationStatuses st);
      predictiveAnalyses :=
        if enablePredictiveAnalysis cfg
        then <[tokenAddress :=
                 performPredictiveAnalysis tokenData' migrationStatus]>
               (predictiveAnalyses st)
        else predictiveAnalyses st;
      emitted := emitted st ++ fired |}
  end.

(** The loop of `checkAllTokens` over the entries of the map. *)
Fixpoint checkEach (cfg : MigrationDetectorConfig)
    (oracle : string -> TickOracle) (entries : list (string * TokenData))
    (st : State) : option State :=
  match entries with
  | [] => Some st
  | (tokenAddress, _) :: rest =>
    match monitoredTokens st !! tokenAddress with
    | None => checkEach cfg oracle rest st
    | Some tokenData =>
      match checkTokenMigration cfg st tokenAddress tokenData
                                (oracle tokenAddress) with
      | None => None
      | Some st' => checkEach cfg oracle rest st'
      end
    end
  end.

Definition checkAllTokens (cfg : MigrationDetectorConfig)
    (oracle : string -> TickOracle) (st : State) : option State :=
  checkEach cfg oracle (map_to_list (monitoredTokens st)) st.

(** What can happen to the detector, one call at a time. *)
Inductive Op : Type :=
| opAddToken (tokenAddress : string) (fetch : option TokenMeta)
             (data : option MarketData) (now : Z)
| opRemoveToken (tokenAddress : string)
| opTick (oracle : string -> TickOracle).

Definition apply (cfg : MigrationDetectorConfig) (st : State) (op : Op)
  : option State :=
  match op with
  | opAddToken tokenAddress fetch data now =>
    Some (snd (addToken cfg st tokenAddress fetch data now))
  | opRemoveToken tokenAddress => Some (removeToken st tokenAddress)
  | opTick oracle => checkAllTokens cfg oracle st
  end.

Fixpoint run (cfg : MigrationDetectorConfig) (st : State) (ops : list Op)
  : option State :=
  match ops with
  | [] => Some st
  | op :: rest =>
    match apply cfg st op with
    | None => None
    | Some st' => run cfg st' rest
    end
  end.

(** The monitored set holds no more than `maxTokensToMonitor`. *)
Definition withinCap (cfg : MigrationDetectorConfig) (st : State) : Prop :=
  Z.of_nat (size (monitoredTokens st)) <= maxTokensToMonitor cfg.

(** Number of entries of the map under a given key. *)
Definition entriesFor (tokenAddress : string)
    (tokens : gmap string TokenData) : nat :=
  length (filter (fun kv => fst kv = tokenAddress) (map_to_list tokens)).

End Detector.

(* --------------------------------------------------------------------- *)
(*  A JS `Map` with string keys: entries in insertion order              *)
(* --------------------------------------------------------------------- *)

Module JSMap.

Section WithValue.
Context {V : Type}.

Fixpoint get (m : list (string * V)) (k : string) : option V :=
  match m with
  | [] => None
  | (k', v) :: rest => if String.eqb k' k then Some v else get rest k
  end.

(** `set`: an existing key keeps its place. *)
Fixpoint set (m : list (string * V)) (k : string) (v : V)
  : list (string * V) :=
  match m with
  | [] => [(k, v)]
  | (k', v') :: rest =>
    if String.eqb k' k then (k, v) :: rest
    else (k', v') :: set rest k v
  end.

Fixpoint delete (m : list (string * V)) (k : string)
  : list (string * V) :=
  match m with
  | [] => []
  | (k', v') :: rest =>
    if String.eqb k' k then delete rest k
    else (k', v') :: delete rest k
  end.

(** A write to a property of the object stored under [k]: the
    entry changes, no entry is added. *)
Fixpoint update (m : list (string * V)) (k : string) (v : V)
  : list (string * V) :=
  match m with
  | [] => []
  | (k', v') :: rest =>
    if String.eqb k' k then (k', v) :: rest
    else (k', v') :: update rest k v
  end.

Definition size (m : list (string * V)) : Z := Z.of_nat (length m).

Definition values (m : list (string * V)) : list V := map snd m.

End WithValue.

End JSMap.

(* --------------------------------------------------------------------- *)
(*  TransitionLogic                                                      *)
(* --------------------------------------------------------------------- *)

Module Transition.
Import JS.

Record TransitionStrategy : Type := {
  s_name : string;
  buyAmount : Z;
  sellThreshold : Q;
  stopLossThreshold : Q;
  maxHoldTime : Z;
  enablePartialSells : bool;
  partialSellPercentages : list Q
}.

Record TransitionConfig : Type := {
  defaultStrategy : string;
  strategies : gmap string TransitionStrategy;
  maxConcurrentTrades : Z;
  maxTotalExposure : Z;
  enableRiskManagement : bool;
  enableProfitTaking : bool;
  enableStopLosses : bool;
  gasPriceBuffer : Q;
  slippageBuffer : Q
}.

Inductive Status : Type := ACTIVE | CLOSED | STOPPED.

Inductive ExitReason : Type :=
| StrategyNotFound
| StopLossTriggered
| ProfitThresholdReached
| MaxHoldTimeReached
| PartialSellAt (percentage : Q).

(** The text of a percentage: exact for the integers the strategies
    use; another rational is written as a fraction, where JS writes
    its decimal expansion. *)
Definition percentText (p : Q) : string :=
  if Pos.eqb (Qden p) 1 then pretty (Qnum p)
  else pretty (Qnum p) +:+ "/" +:+ pretty (Zpos (Qden p)).

Definition reasonText (r : ExitReason) : string :=
  match r with
  | StrategyNotFound => "Strategy not found"
  | StopLossTriggered => "Stop loss triggered"
  | ProfitThresholdReached => "Profit threshold reached"
  | MaxHoldTimeReached => "Max hold time reached"
  | PartialSellAt p => "Partial sell at " +:+ percentText p +:+ "% profit"
  end.

(** `TradePosition`, with the one property the code reads but the
    interface does not declare: `partialSells`. *)
Record TradePosition : Type := {
  id : string;
  tokenAddress : string;
  tokenSymbol : string;
  entryPrice : jsnum;
  entryAmount : Z;
  tokenAmount : Z;
  strategy : string;
  entryTime : Z;
  currentPrice : option Q;
  currentValue : option Z;
  profitLoss : option Q;
  profitLossPercent : option jsnum;
  status : Status;
  exitPrice : option Q;
  exitTime : option Z;
  exitReason : option ExitReason;
  gasUsed : option Z;
  partialSells : option (list Q)
}.

Inductive Event : Type :=
| transitionExecuted (positionId : string)
| positionClosed (position : TradePosition)
| exitAttempt (positionId : string) (reason : ExitReason).
    (* the line `Executing exit strategy for position ${id}: ${reason}`
       that opens `executeExitStrategy` *)

Record State : Type := {
  activePositions : list (string * TradePosition);
  completedPositions : list (string * TradePosition);
  positionCounter : Z;
  events : list Event
}.

Definition initial : State := {|
  activePositions := [];
  completedPositions := [];
  positionCounter := 0;
  events := []
|}.

(** 10^18: wei per BNB, `ethers.parseEther('1')`. *)
Definition ether : Z := 1000000000000000000.

Definition aggressive : TransitionStrategy := {|
  s_name := "aggressive";
  buyAmount := ether / 10;
  sellThreshold := 50%Q;
  stopLossThreshold := 20%Q;
  maxHoldTime := 3600000;
  enablePartialSells := true;
  partialSellPercentages := [25%Q; 50%Q; 75%Q]
|}.

Definition conservative : TransitionStrategy := {|
  s_name := "conservative";
  buyAmount := ether / 20;
  sellThreshold := 20%Q;
  stopLossThreshold := 10%Q;
  maxHoldTime := 1800000;
  enablePartialSells := false;
  partialSellPercentages := []
|}.

(** `loadTransitionConfig`; the arguments are the values that
    `ConfigManager.get` may override (the exposure already in wei). *)
Definition loadTransitionConfig (DEFAULT_STRATEGY : string)
    (MAX_CONCURRENT_TRADES MAX_TOTAL_EXPOSURE : Z) : TransitionConfig := {|
  defaultStrategy := DEFAULT_STRATEGY;
  strategies :=
    <["conservative" := conservative]> (<["aggressive" := aggressive]> ∅);
  maxConcurrentTrades := MAX_CONCURRENT_TRADES;
  maxTotalExposure := MAX_TOTAL_EXPOSURE;
  enableRiskManagement := true;
  enableProfitTaking := true;
  enableStopLosses := true;
  gasPriceBuffer := 1.2%Q;
  slippageBuffer := 0.05%Q
|}.

(** The configuration when the environment overrides nothing. *)
Definition defaultTransitionConfig : TransitionConfig :=
  loadTransitionConfig "aggressive" 5 ether.

(** How a swap through the router ends, as `executeBuyOrder` or
    `executeSellOrder` sees it: the wallet or the quote throws before
    the swap, the swap answers `success: false` (it catches its own
    errors, a timeout included), or it succeeds. *)
Inductive SwapOutcome : Type :=
| swapThrows
| swapFails
| swapSucceeds (amountOut : Z) (swapGasUsed : option Z).


(* ------------------------------------------------------------------- *)
(*  Opening a position                                                 *)
(* ------------------------------------------------------------------- *)

(** What the router answers while a migration event is handled:
    `liquidityBNB` of `getMigrationSwapData` ([None]: it throws), how
    the buy ends, and the clock when the position is created. *)
Record BuyOracle : Type := {
  swapData : option Q;
  buy : SwapOutcome;
  buyClock : Z
}.

Definition generatePositionId (clock counter : Z) : string :=
  "pos_" +:+ pretty clock +:+ "_" +:+ pretty counter.

Definition createPosition (migrationEvent : Detector.MigrationEvent)
    (amountIn amountOut : Z) (strategy : TransitionStrategy)
    (positionId : string) (clock : Z) : TradePosition := {|
  id := positionId;
  tokenAddress := Detector.ev_tokenAddress migrationEvent;
  tokenSymbol := Detector.ev_tokenSymbol migrationEvent;
  entryPrice :=
    jsmul (jsdiv (Detector.currentMarketCap
                    (Detector.ev_migrationStatus migrationEvent))
                 (inject_Z amountOut))
          (inject_Z ether);
  entryAmount := amountIn;
  tokenAmount := amountOut;
  strategy := s_name strategy;
  entryTime := clock;
  currentPrice := None;
  currentValue := None;
  profitLoss := None;
  profitLossPercent := None;
  status := ACTIVE;
  exitPrice := None;
  exitTime := None;
  exitReason := None;
  gasUsed := None;
  partialSells := None
|}.

(** `liquidityBNB < strategies.get('default')?.buyAmount || BigInt(0)`:
    the comparison binds first; with no strategy named `default` it
    compares with `undefined` and is false, and `false || 0n` is
    falsy. *)
Definition insufficientLiquidity (cfg : TransitionConfig)
    (liquidityBNB : Q) : bool :=
  match strategies cfg !! "default" with
  | Some s => Qlt_bool liquidityBNB (inject_Z (buyAmount s))
  | None => false
  end.

(** `executeTransitionStrategy`: a missing strategy, a throwing wallet
    or quote and a failed buy all end in the `catch`, which returns a
    result with `success: false`; nothing is stored. *)
Definition executeTransitionStrategy (cfg : TransitionConfig)
    (st : State) (migrationEvent : Detector.MigrationEvent)
    (o : BuyOracle) : State :=
  match strategies cfg !! defaultStrategy cfg with
  | None => st
  | Some strategy =>
    match buy o with
    | swapThrows | swapFails => st
    | swapSucceeds amountOut _ =>
      let counter := positionCounter st + 1 in
      let positionId := generatePositionId (buyClock o) counter in
      let position :=
        createPosition migrationEvent (buyAmount strategy) amountOut
                       strategy positionId (buyClock o) in
      {| activePositions :=
           JSMap.set (activePositions st) positionId position;
         completedPositions := completedPositions st;
         positionCounter := counter;
         events := events st ++ [transitionExecuted positionId] |}
    end
  end.

(** `handleMigrationEvent`, the listener of `migrationDetected`. *)
Definition handleMigrationEvent (cfg : TransitionConfig) (st : State)
    (migrationEvent : Detector.MigrationEvent) (o : BuyOracle) : State :=
  if maxConcurrentTrades cfg <=? JSMap.size (activePositions st) then st
  else
    match swapData o with
    | None => st
    | Some liquidityBNB =>
      if insufficientLiquidity cfg liquidityBNB then st
      else executeTransitionStrategy cfg st migrationEvent o
    end.

(** `sum(entryAmount)` over the positions whose status is ACTIVE. *)
Definition exposure (st : State) : Z :=
  fold_right Z.add 0
    (map (fun p => match status p with
                   | ACTIVE => entryAmount p
                   | _ => 0
                   end)
         (JSMap.values (activePositions st))).

(* ------------------------------------------------------------------- *)
(*  Monitoring a position                                              *)
(* ------------------------------------------------------------------- *)

(** One monitoring tick as seen by one position: the price returned by
    `getCurrentTokenPrice` (0 when the router call failed), the clock
    read by `checkExitConditions`, how the sell ends if one is tried,
    and the clock when the position is closed. *)
Record PositionTick : Type := {
  price : Q;
  clock : Z;
  sell : SwapOutcome;
  exitClock : Z
}.

Definition setStatus (position : TradePosition)
    (currentPrice : Q) (currentValue : Z) (profitLoss : Q)
    (profitLossPercent : jsnum) : TradePosition := {|
  id := id position;
  tokenAddress := tokenAddress position;
  tokenSymbol := tokenSymbol position;
  entryPrice := entryPrice position;
  entryAmount := entryAmount position;
  tokenAmount := tokenAmount position;
  strategy := strategy position;
  entryTime := entryTime position;
  currentPrice := Some currentPrice;
  currentValue := Some currentValue;
  profitLoss := Some profitLoss;
  profitLossPercent := Some profitLossPercent;
  status := status position;
  exitPrice := exitPrice position;
  exitTime := exitTime position;
  exitReason := exitReason position;
  gasUsed := gasUsed position;
  partialSells := partialSells position
|}.

(** `updatePositionStatus`, the position it stores. *)
Definition updatePositionStatus (position : TradePosition)
    (currentPrice : Q) : TradePosition :=
  let currentValue :=
    Qfloor (inject_Z (tokenAmount position) * currentPrice
            / inject_Z ether)%Q in
  let profitLoss :=
    (inject_Z currentValue - inject_Z (entryAmount position))%Q in
  let profitLossPercent :=
    jsmul (jsdiv profitLoss (inject_Z (entryAmount position))) 100%Q in
  setStatus position currentPrice currentValue profitLoss
            profitLossPercent.

(** `!position.partialSells?.includes(percentage)`. *)
Definition notSold (partialSells : option (list Q)) (percentage : Q)
  : bool :=
  match partialSells with
  | None => true
  | Some sold => negb (existsb (Qeq_bool percentage) sold)
  end.

(** The loop over `partialSellPercentages`. *)
Fixpoint partialSellRung (profitLossPercent : option jsnum)
    (partialSells : option (list Q)) (percentages : list Q)
  : option ExitReason :=
  match percentages with
  | [] => None
  | percentage :: rest =>
    if num_ge profitLossPercent percentage
       && notSold partialSells percentage
    then Some (PartialSellAt percentage)
    else partialSellRung profitLossPercent partialSells rest
  end.

(** `checkExitConditions`: [Some reason] is `{ exit: true, reason }`,
    [None] is `{ exit: false }`. *)
Definition checkExitConditions (cfg : TransitionConfig)
    (position : TradePosition) (clock : Z) : option ExitReason :=
  match strategies cfg !! strategy position with
  | None => Some StrategyNotFound
  | Some strategy =>
    if enableStopLosses cfg
       && num_lt (profitLossPercent position)
                 (- stopLossThreshold strategy)%Q
    then Some StopLossTriggered
    else if enableProfitTaking cfg
            && num_ge (profitLossPercent position)
                      (sellThreshold strategy)
    then Some ProfitThresholdReached
    else if maxHoldTime strategy <? clock - entryTime position
    then Some MaxHoldTimeReached
    else if enablePartialSells strategy
    then partialSellRung (profitLossPercent position)
                         (partialSells position)
                         (partialSellPercentages strategy)
    else None
  end.

Definition close (position : TradePosition) (reason : ExitReason)
    (exitClock : Z) (sellGas : option Z) : TradePosition := {|
  id := id position;
  tokenAddress := tokenAddress position;
  tokenSymbol := tokenSymbol position;
  entryPrice := entryPrice position;
  entryAmount := entryAmount position;
  tokenAmount := tokenAmount position;
  strategy := strategy position;
  entryTime := entryTime position;
  currentPrice := currentPrice position;
  currentValue := currentValue position;
  profitLoss := profitLoss position;
  profitLossPercent := profitLossPercent position;
  status := CLOSED;
  exitPrice := currentPrice position;
  exitTime := Some exitClock;
  exitReason := Some reason;
  gasUsed := Some (default 0 (gasUsed position) + default 0 sellGas);
  partialSells := partialSells position
|}.

Definition stop (position : TradePosition) : TradePosition := {|
  id := id position;
  tokenAddress := tokenAddress position;
  tokenSymbol := tokenSymbol position;
  entryPrice := entryPrice position;
  entryAmount := entryAmount position;
  tokenAmount := tokenAmount position;
  strategy := strategy position;
  entryTime := entryTime position;
  currentPrice := currentPrice position;
  currentValue := currentValue position;
  profitLoss := profitLoss position;
  profitLossPercent := profitLossPercent position;
  status := STOPPED;
  exitPrice := exitPrice position;
  exitTime := exitTime position;
  exitReason := exitReason position;
  gasUsed := gasUsed position;
  partialSells := partialSells position
|}.

(** `executeExitStrategy`. On success the position leaves the active
    map; on `success: false` only its `status` property is written. *)
Definition executeExitStrategy (st : State) (position : TradePosition)
    (reason : ExitReason) (sell : SwapOutcome) (exitClock : Z) : State :=
  let announced := events st ++ [exitAttempt (id position) reason] in
  match sell with
  | swapThrows =>
    {| activePositions := activePositions st;
       completedPositions := completedPositions st;
       positionCounter := positionCounter st;
       events := announced |}
  | swapSucceeds _ sellGas =>
    let closed := close position reason exitClock sellGas in
    {| activePositions := JSMap.delete (activePositions st) (id position);
       completedPositions :=
         JSMap.set (completedPositions st) (id position) closed;
       positionCounter := positionCounter st;
       events := announced ++ [positionClosed closed] |}
  | swapFails =>
    {| activePositions :=
         JSMap.update (activePositions st) (id position) (stop position);
       completedPositions := completedPositions st;
       positionCounter := positionCounter st;
       events := announced |}
  end.

(** The body of the loop of `monitorPositions`. *)
Definition monitorPosition (cfg : TransitionConfig) (st : State)
    (position : TradePosition) (o : PositionTick) : State :=
  let position := updatePositionStatus position (price o) in
  let st :=
    {| activePositions :=
         JSMap.set (activePositions st) (id position) position;
       completedPositions := completedPositions st;
       positionCounter := positionCounter st;
       events := events st |} in
  match checkExitConditions cfg position (clock o) with
  | Some reason =>
    executeExitStrategy st position reason (sell o) (exitClock o)
  | None => st
  end.

(** The loop of `monitorPositions` over the entries of the active map;
    no status is looked at. *)
Fixpoint monitorEach (cfg : TransitionConfig)
    (oracle : string -> PositionTick)
    (entries : list (string * TradePosition)) (st : State) : State :=
  match entries with
  | [] => st
  | (positionId, _) :: rest =>
    match JSMap.get (activePositions st) positionId with
    | None => monitorEach cfg oracle rest st
    | Some position =>
      monitorEach cfg oracle rest
        (monitorPosition cfg st position (oracle positionId))
    end
  end.

Definition monitorPositions (cfg : TransitionConfig)
    (oracle : string -> PositionTick) (st : State) : State :=
  monitorEach cfg oracle (activePositions st) st.

(** Successive monitoring ticks. *)
Definition monitorTicks (cfg : TransitionConfig)
    (oracles : list (string -> PositionTick)) (st : State) : State :=
  fold_left (fun st oracle => monitorPositions cfg oracle st) oracles st.

(** Number of exit attempts announced for a position. *)
Definition isExitAttempt (positionId : string) (e : Event) : bool :=
  match e with
  | exitAttempt i _ => String.eqb i positionId
  | _ => false
  end.

Definition exitAttempts (positionId : string) (trace : list Event)
  : nat :=
  length (List.filter (isExitAttempt positionId) trace).

(* ------------------------------------------------------------------- *)
(*  Statistics                                                         *)
(* ------------------------------------------------------------------- *)





(** The same configuration with another `maxTotalExposure`. *)
Definition withExposure (cfg : TransitionConfig) (cap : Z)
  : TransitionConfig := {|
  defaultStrategy := defaultStrategy cfg;
  strategies := strategies cfg;
  maxConcurrentTrades := maxConcurrentTrades cfg;
  maxTotalExposure := cap;
  enableRiskManagement := enableRiskManagement cfg;
  enableProfitTaking := enableProfitTaking cfg;
  enableStopLosses := enableStopLosses cfg;
  gasPriceBuffer := gasPriceBuffer cfg;
  slippageBuffer := slippageBuffer cfg
|}.

(** The state with another trace. *)
Definition withEvents (st : State) (trace : list Event) : State := {|
  activePositions := activePositions st;
  completedPositions := completedPositions st;
  positionCounter := positionCounter st;
  events := trace
|}.

(** No stored position has a `partialSells` property. *)
Definition unsold (kv : string * TradePosition) : Prop :=
  partialSells (snd kv) = None.

Definition nothingSold (st : State) : Prop :=
  List.Forall unsold (activePositions st ++ completedPositions st).

(* ------------------------------------------------------------------- *)
(*  The exit decision in the words of the specification                *)
(* ------------------------------------------------------------------- *)

(** A rung is a candidate when the profit has reached it and it has not
    fired. *)
Definition candidateRung (pnlPercent : Q) (firedLadderRungs : list Q)
    (rung : Q) : bool :=
  Qle_bool rung pnlPercent
  && negb (existsb (Qeq_bool rung) firedLadderRungs).

(** The smallest candidate of the ladder. *)
Fixpoint smallestUnfiredRung (pnlPercent : Q) (firedLadderRungs : list Q)
    (ladder : list Q) : option Q :=
  match ladder with
  | [] => None
  | rung :: rest =>
    let best := smallestUnfiredRung pnlPercent firedLadderRungs rest in
    if candidateRung pnlPercent firedLadderRungs rung then
      match best with
      | Some other => if Qle_bool rung other then Some rung else Some other
      | None => Some rung
      end
    else best
  end.

(** "Evaluate exit causes in this strict priority order (first match
    wins): 1. stop-loss: pnlPercent <= -stopLossThreshold; 2. profit
    target: pnlPercent >= sellThreshold; 3. max hold time:
    now - entryTime > maxHoldDuration; 4. partial-sell ladder: smallest
    unfired rung with pnlPercent >= rung." *)
Definition exitDecision_spec (s : TransitionStrategy) (pnlPercent : Q)
    (now entryTime : Z) (firedLadderRungs : list Q) : option ExitReason :=
  if Qle_bool pnlPercent (- stopLossThreshold s)%Q
  then Some StopLossTriggered
  else if Qle_bool (sellThreshold s) pnlPercent
  then Some ProfitThresholdReached
  else if maxHoldTime s <? now - entryTime
  then Some MaxHoldTimeReached
  else option_map PartialSellAt
         (smallestUnfiredRung pnlPercent firedLadderRungs
                              (partialSellPercentages s)).

(** A position as `monitorPositions` sees it after the price refresh:
    of the given strategy, entered at [entryTime], at the given profit
    percentage. *)
Definition positionAt (strategy : string) (entryTime : Z)
    (pnlPercent : Q) : TradePosition := {|
  id := "pos_0_1";
  tokenAddress := "0xT0";
  tokenSymbol := "TKN";
  entryPrice := Fin 0%Q;
  entryAmount := ether / 10;
  tokenAmount := 1000000;
  strategy := strategy;
  entryTime := entryTime;
  currentPrice := None;
  currentValue := None;
  profitLoss := None;
  profitLossPercent := Some (Fin pnlPercent);
  status := ACTIVE;
  exitPrice := None;
  exitTime := None;
  exitReason := None;
  gasUsed := None;
  partialSells := None
|}.

End Transition.

(* --------------------------------------------------------------------- *)
(*  Concrete inputs                                                      *)
(* --------------------------------------------------------------------- *)

Module Scenario.
Import Detector.

Definition tokenAddress : string := "0xT0".

(** What the contracts answer for a token that has no PancakeSwap pair
    yet. *)
Definition meta0 : TokenMeta :=
  {| meta_name := "Token"; meta_symbol := "TKN"; meta_decimals := 18;
     meta_totalSupply := 1000000000; meta_pair := None |}.

Definition token0 : TokenData := fetchTokenData tokenAddress meta0.

(** `MAX_TOKENS_TO_MONITOR=1`. *)
Definition singleSlotConfig : MigrationDetectorConfig := {|
  migrationThreshold := 18%Q;
  preMigrationBuffer := 0.5%Q;
  checkInterval := 1000;
  confirmationBlocks := 3;
  maxTokensToMonitor := 1;
  enablePredictiveAnalysis := true
|}.

Definition reading (cap : Q) : MarketData :=
  {| marketCap := cap; md_liquidityBNB := cap; progress := 0.86%Q |}.

(** A tick at clock [t] that reads the market cap [cap]; if a handler
    is started, the chain is at block 100, then 101, then 103, and
    the block read for the event is 103. *)
Definition tick (cap : Q) (t : Z) : TickOracle :=
  {| market := Some (reading cap); now := t;
     polls := [Some 100; Some 101; Some 103; Some 103];
     eventTime := t + 900 |}.

(** Scenario A of the specification: 17.6, 17.9, 18.2, 18.3, 18.4. *)
Definition scenarioA : list TickOracle :=
  [tick 17.6%Q 1000; tick 17.9%Q 2000; tick 18.2%Q 3000;
   tick 18.3%Q 4000; tick 18.4%Q 5000].

(** Scenario B: tick 4 regresses to 17.9. *)
Definition scenarioB : list TickOracle :=
  [tick 17.6%Q 1000; tick 17.9%Q 2000; tick 18.2%Q 3000;
   tick 17.9%Q 4000; tick 18.4%Q 5000].

Definition asset0 : Asset :=
  {| token := token0; awaiting := []; trace := [] |}.

(** The timer fires at 1000 ms and again at 2000 ms, both reading a
    market cap above the threshold; the three confirmation blocks of
    the first handler are only there at 10000 ms, those of the second
    at 11000 ms. *)
Definition overlappingTicks : list Action :=
  [timerTick (Some (reading 18.2%Q)) 1000;
   timerTick (Some (reading 18.3%Q)) 2000;
   confirmed (Some 103) 10000;
   confirmed (Some 104) 11000].

(** The event of Scenario A. *)
Definition crossed : MigrationEvent :=
  {| ev_tokenAddress := tokenAddress;
     ev_tokenSymbol := "TKN";
     ev_migrationStatus :=
       calculateMigrationStatus loadMigrationConfig token0
                                (reading 18.2%Q) 3000;
     ev_migrationTxHash := placeholderTxHash;
     ev_migrationBlock := 103;
     ev_timestamp := 3900;
     preMigrationMarketCap := 18.2%Q;
     postMigrationMarketCap := 18.2%Q;
     liquidityAdded := 18.2%Q |}.

Import Transition.

(** A buy of 0.1 BNB that succeeds and returns 10^6 token units. *)
Definition buyOk : BuyOracle :=
  {| swapData := Some 18.2%Q;
     buy := swapSucceeds 1000000 None;
     buyClock := 5000 |}.

(** `MAX_TOTAL_EXPOSURE=0.05`: a cap of 0.05 BNB. *)
Definition lowExposureConfig : TransitionConfig :=
  loadTransitionConfig "aggressive" 5 (ether / 20).

(** The aggressive position opened by [buyOk]. *)
Definition opened : Transition.State :=
  Transition.handleMigrationEvent defaultTransitionConfig
                                  Transition.initial crossed buyOk.

Definition positionId : string := "pos_5000_1".

(** The token price at which the 10^6 units of the position are worth
    [percent] per cent more than the 0.1 BNB paid. *)
Definition priceAt (percent : Q) : Q :=
  ((100 + percent) * 1000000000000000000000000000)%Q.

(** A monitoring tick at the given clock, with the given price and sell
    outcome, the same for every position. *)
Definition monitorTick (price : Q) (sell : SwapOutcome) (clock : Z)
  : string -> PositionTick :=
  fun _ => {| price := price; clock := clock; sell := sell;
              exitClock := clock + 1 |}.

(** The position is entered at clock 5000 and held for at most an hour. *)
Definition withinHold (clock : Z) : Prop :=
  clock - 5000 <= maxHoldTime aggressive.

End Scenario.

(* --------------------------------------------------------------------- *)
(*  JS numbers as the doubles they are                                   *)
(* --------------------------------------------------------------------- *)

(** Where the last bit of a result decides (a conversion to `BigInt`,
    a comparison at a boundary, an equation between two ways of
    computing), a JS `number` is a binary64 float and +, -, *, / are
    the IEEE operations, rounded to nearest, ties to even. *)
Module Float64.

(** `a >= b`. *)
Definition geb (a b : float) : bool := PrimFloat.leb b a.

(** `Math.min(a, b)`: NaN when either is NaN; of the two zeros, -0. *)
Definition min (a b : float) : float :=
  if is_nan a || is_nan b then nan
  else if PrimFloat.ltb a b then a
  else if PrimFloat.ltb b a then b
  else if get_sign a then a else b.

(** `Number(n)` for a bigint [n]: the nearest double, ties to even. *)
Definition ofZ (n : Z) : float :=
  SF2Prim (binary_normalize prec emax n 0 false).

(** The double that a decimal constant of the configuration denotes
    (the quotient of two integers below 2^53 is rounded once). *)
Definition ofQ (q : Q) : float :=
  PrimFloat.div (ofZ (Qnum q)) (ofZ (Zpos (Qden q))).

(** `Math.floor(x)`. *)
Definition floor (x : float) : float :=
  match Prim2SF x with
  | S754_finite s m e =>
    if 0 <=? e then x
    else ofZ (Z.shiftr (if s then Zneg m else Zpos m) (- e))
  | _ => x
  end.

(** `BigInt(x)`: a RangeError ([None]) for NaN, the infinities and a
    number that is not whole. *)
Definition toBigInt (x : float) : option Z :=
  match Prim2SF x with
  | S754_zero _ => Some 0
  | S754_finite s m e =>
    let n := if s then Zneg m else Zpos m in
    if 0 <=? e then Some (Z.shiftl n e)
    else if Z.land (Zpos m) (Z.ones (- e)) =? 0
         then Some (Z.shiftr n (- e))
         else None
  | _ => None
  end.

End Float64.

(* --------------------------------------------------------------------- *)
(*  More of JS arithmetic                                                *)
(* --------------------------------------------------------------------- *)

Module JSMore.
Import JS.

(** [Math.min(x, y)]. *)
Definition jsmin (x y : jsnum) : jsnum :=
  match x, y with
  | NaN, _ | _, NaN => NaN
  | NInf, _ | _, NInf => NInf
  | PInf, z | z, PInf => z
  | Fin a, Fin b => Fin (Qmin a b)
  end.

(** [x > q] for a finite [q]. *)
Definition num_gt (x : jsnum) (q : Q) : bool :=
  match x with
  | Fin a => Qlt_bool q a
  | PInf => true
  | _ => false
  end.

(** One character of `toLowerCase()`, for the ASCII letters that an
    address can hold. *)
Definition lowerChar (c : Ascii.ascii) : Ascii.ascii :=
  let n := Ascii.N_of_ascii c in
  if ((65 <=? n) && (n <=? 90))%N then Ascii.ascii_of_N (n + 32) else c.

Fixpoint toLowerCase (s : string) : string :=
  match s with
  | EmptyString => EmptyString
  | String c rest => String (lowerChar c) (toLowerCase rest)
  end.

End JSMore.

(* --------------------------------------------------------------------- *)
(*  PancakeSwapIntegration                                               *)
(* --------------------------------------------------------------------- *)

Module Pancake.
Import JS JSMore.

Record PancakeSwapConfig : Type := {
  routerAddress : string;
  factoryAddress : string;
  wbnbAddress : string;
  maxSlippage : Q;
  deadlineBuffer : Z;
  gasPriceMultiplier : Q;
  maxGasPrice : Q;
  minLiquidityThreshold : Q;
  enablePriceImpactProtection : bool;
  maxPriceImpact : Q
}.

Definition PANCAKESWAP_ROUTER : string :=
  "0x10ED43C718714eb63d5aA57B78B54704E256024E".
Definition PANCAKESWAP_FACTORY : string :=
  "0xcA143Ce0Fe65960E6Aa4D42C8d3cE161c2B6604f".
Definition WBNB_ADDRESS : string :=
  "0xbb4CdB9CBd36B01bD1cBaEBF2De08d9173bc095c".

(** `loadPancakeConfig` with no override in the environment. *)
Definition loadPancakeConfig : PancakeSwapConfig := {|
  routerAddress := PANCAKESWAP_ROUTER;
  factoryAddress := PANCAKESWAP_FACTORY;
  wbnbAddress := WBNB_ADDRESS;
  maxSlippage := 0.05%Q;
  deadlineBuffer := 300;
  gasPriceMultiplier := 1.2%Q;
  maxGasPrice := 20%Q;
  minLiquidityThreshold := 1%Q;
  enablePriceImpactProtection := true;
  maxPriceImpact := 0.1%Q
|}.

Record SwapParams : Type := {
  amountIn : Z;
  amountOutMin : Z;
  path : list string;
  deadline : Z;
  recipient : string
}.

Inductive SwapError : Type :=
| PriceImpactTooHigh      (* `Price impact too high: ...%` *)
| TransactionFailed       (* `Transaction failed`: receipt.status is not 1 *)
| CallFailed.             (* an awaited call threw *)

Record SwapResult : Type := {
  success : bool;
  txHash : option string;
  blockNumber : option Z;
  gasUsed : option Z;
  r_amountIn : Z;
  amountOut : Z;
  priceImpact : jsnum;
  slippage : Q;
  executionTime : Z;
  error : option SwapError
}.

Record LiquidityInfo : Type := {
  pairAddress : string;
  token0 : string;
  token1 : string;
  reserve0 : Z;
  reserve1 : Z;
  totalSupply : Z;
  liquidityBNB : Q;
  liquidityUSD : Q;
  price : jsnum;
  li_priceImpact : jsnum
}.

Record MigrationSwapData : Type := {
  sd_tokenAddress : string;
  sd_pairAddress : string;
  sd_liquidityBNB : Q;
  tokenPrice : jsnum;
  sd_priceImpact : jsnum;
  sd_slippage : Q;
  estimatedGasCost : Z;
  recommendedSlippage : Q
}.

(** What the pair contract answers: `getReserves`, `totalSupply`,
    `token0`, `token1`. *)
Record PairData : Type := {
  pd_reserve0 : Z;
  pd_reserve1 : Z;
  pd_totalSupply : Z;
  pd_token0 : string;
  pd_token1 : string
}.

Definition wei : Q := inject_Z 1000000000000000000.
Definition gwei : Z := 1000000000.

(** `calculatePriceImpactFromReserves`; nothing in the body throws. *)
Definition calculatePriceImpactFromReserves (wbnbReserve tokenReserve : Z)
  : jsnum :=
  let liquidityBNB := (inject_Z wbnbReserve / wei)%Q in
  let liquidityToken := (inject_Z tokenReserve / wei)%Q in
  let ratio := jsdiv liquidityBNB liquidityToken in
  jsmin (jsmul ratio 0.1%Q) (Fin 10%Q).

(** `calculateRecommendedSlippage`. *)
Definition calculateRecommendedSlippage (liquidityBNB : Q) : Q :=
  if Qlt_bool liquidityBNB 1%Q then 0.1%Q
  else if Qlt_bool liquidityBNB 5%Q then 0.05%Q
  else if Qlt_bool liquidityBNB 20%Q then 0.03%Q
  else 0.01%Q.

(** `calculateSlippage`, in per cent. *)
Definition calculateSlippage (expectedAmount actualAmount : Z) : Q :=
  if expectedAmount =? 0 then 0%Q
  else
    let slippage :=
      (inject_Z (expectedAmount - actualAmount) / inject_Z expectedAmount
       * 100)%Q in
    Qmax 0%Q slippage.

(** `calculateActualAmountOut`: a placeholder that returns `BigInt(0)`
    whatever the receipt. *)
Definition calculateActualAmountOut : Z := 0.

(** `findPairAddress`, given what `factory.getPair` answers ([None]: the
    call throws, and the `catch` returns `null`). *)
Definition findPairAddress (answer : option string) : option string :=
  match answer with
  | None => None
  | Some found =>
    if String.eqb found "0x0000000000000000000000000000000000000000"
    then None else Some found
  end.

(** `getLiquidityInfo`, given what the pair contract answers. *)
Definition getLiquidityInfo (pairAddress : string) (data : PairData)
  : LiquidityInfo :=
  let isToken0WBNB :=
    String.eqb (toLowerCase (pd_token0 data)) (toLowerCase WBNB_ADDRESS) in
  let wbnbReserve :=
    if isToken0WBNB then pd_reserve0 data else pd_reserve1 data in
  let tokenReserve :=
    if isToken0WBNB then pd_reserve1 data else pd_reserve0 data in
  let liquidityBNB := (inject_Z wbnbReserve / wei)%Q in
  {| pairAddress := pairAddress;
     token0 := pd_token0 data;
     token1 := pd_token1 data;
     reserve0 := pd_reserve0 data;
     reserve1 := pd_reserve1 data;
     totalSupply := pd_totalSupply data;
     liquidityBNB := liquidityBNB;
     liquidityUSD := (liquidityBNB * 300)%Q;
     price := jsdiv (inject_Z wbnbReserve) (inject_Z tokenReserve);
     li_priceImpact :=
       calculatePriceImpactFromReserves wbnbReserve tokenReserve |}.

(** `feeData.gasPrice || BigInt(5 * 1e9)`: a gas price of 0 is falsy
    and replaced like a missing one. *)
Definition baseGasPrice (gasPrice : option Z) : Z :=
  match gasPrice with
  | Some g => if g =? 0 then 5 * gwei else g
  | None => 5 * gwei
  end.

(** `getOptimalGasPrice`, given what `provider.getFeeData()` answers
    ([None]: it throws; [Some None]: no gas price). The product with the
    multiplier and the cap `maxGasPrice * 1e9` are doubles: `BigInt`
    throws on a product that is not finite and on a cap that is not a
    whole number, and every throw ends in the fallback of 10 gwei. *)
Definition getOptimalGasPrice (cfg : PancakeSwapConfig)
    (feeData : option (option Z)) : Z :=
  match feeData with
  | None => 10 * gwei
  | Some gasPrice =>
    let baseGasPrice := baseGasPrice gasPrice in
    match Float64.toBigInt
            (Float64.floor
               (Float64.ofZ baseGasPrice
                * Float64.ofQ (gasPriceMultiplier cfg))%float) with
    | None => 10 * gwei
    | Some optimalGasPrice =>
      match Float64.toBigInt
              (Float64.ofQ (maxGasPrice cfg) * 1e9)%float with
      | None => 10 * gwei
      | Some maxGasPrice =>
        if maxGasPrice <? optimalGasPrice then maxGasPrice
        else optimalGasPrice
      end
    end
  end.

(** `estimateGasCost`: the gas price cannot throw, so its `catch` is
    dead. *)
Definition estimateGasCost (cfg : PancakeSwapConfig)
    (feeData : option (option Z)) : Z :=
  getOptimalGasPrice cfg feeData * 200000.

(** What the chain answers while swap data or a swap is prepared. *)
Record ChainOracle : Type := {
  pairAnswer : option string;       (* `factory.getPair` *)
  pairData : option PairData;       (* the pair contract; [None]: throws *)
  feeData : option (option Z)       (* `provider.getFeeData` *)
}.

(** `getMigrationSwapData`; [None]: it throws (no pair, or the pair
    cannot be read). *)
Definition getMigrationSwapData (cfg : PancakeSwapConfig)
    (tokenAddress : string) (o : ChainOracle) : option MigrationSwapData :=
  match findPairAddress (pairAnswer o) with
  | None => None
  | Some found =>
    match pairData o with
    | None => None
    | Some data =>
      let liquidityInfo := getLiquidityInfo found data in
      let recommended :=
        calculateRecommendedSlippage (liquidityBNB liquidityInfo) in
      Some {| sd_tokenAddress := tokenAddress;
              sd_pairAddress := found;
              sd_liquidityBNB := liquidityBNB liquidityInfo;
              tokenPrice := price liquidityInfo;
              sd_priceImpact := li_priceImpact liquidityInfo;
              sd_slippage := recommended;
              estimatedGasCost := estimateGasCost cfg (feeData o);
              recommendedSlippage := recommended |}
    end
  end.

(** `calculatePriceImpact`, in per cent of the pool's BNB; 0 when the
    pair is not found or cannot be read (the `catch`). *)
Definition calculatePriceImpact (amountIn : Z) (o : ChainOracle) : jsnum :=
  match findPairAddress (pairAnswer o) with
  | None => Fin 0%Q
  | Some found =>
    match pairData o with
    | None => Fin 0%Q
    | Some data =>
      let liquidityInfo := getLiquidityInfo found data in
      let tradeSizeBNB := (inject_Z amountIn / wei)%Q in
      jsmul (jsdiv tradeSizeBNB (liquidityBNB liquidityInfo)) 100%Q
    end
  end.

(** What happens to the transaction of a swap. *)
Record TxOracle : Type := {
  chain : ChainOracle;
  populated : bool;               (* `populateTransaction` returns *)
  sent : option string;           (* the hash; [None]: `sendTransaction`
                                     throws *)
  receipt : option (Z * Z * Z);   (* status, block number, gas used;
                                     [None]: `tx.wait()` throws *)
  startTime : Z;
  endTime : Z
}.

Inductive Direction : Type := ETHForTokens | TokensForETH.

(** A transaction handed to `wallet.sendTransaction`. *)
Record Sent : Type := {
  direction : Direction;
  tx_value : Z;
  tx_gasPrice : Z;
  tx_params : SwapParams
}.

(** The object returned by the `catch` of a swap. *)
Definition failure (swapParams : SwapParams) (e : SwapError) : SwapResult := {|
  success := false;
  txHash := None;
  blockNumber := None;
  gasUsed := None;
  r_amountIn := amountIn swapParams;
  amountOut := 0;
  priceImpact := Fin 0%Q;
  slippage := 0%Q;
  executionTime := 0;
  error := Some e
|}.

(** The body shared by `swapExactETHForTokens` and
    `swapExactTokensForETH`: the result, and the transactions that were
    handed to the wallet. *)
Definition swap (d : Direction) (cfg : PancakeSwapConfig)
    (swapParams : SwapParams) (o : TxOracle) : SwapResult * list Sent :=
  let impact := calculatePriceImpact (amountIn swapParams) (chain o) in
  if enablePriceImpactProtection cfg && num_gt impact (maxPriceImpact cfg)
  then (failure swapParams PriceImpactTooHigh, [])
  else
    let gasPrice := getOptimalGasPrice cfg (feeData (chain o)) in
    if negb (populated o) then (failure swapParams CallFailed, [])
    else
      let transaction := {|
        direction := d;
        tx_value := match d with
                    | ETHForTokens => amountIn swapParams
                    | TokensForETH => 0
                    end;
        tx_gasPrice := gasPrice;
        tx_params := swapParams |} in
      match sent o with
      | None => (failure swapParams CallFailed, [])
      | Some hash =>
        match receipt o with
        | None => (failure swapParams CallFailed, [transaction])
        | Some (status, block, gas) =>
          if status =? 1 then
            let amountOut := calculateActualAmountOut in
            ({| success := true;
                txHash := Some hash;
                blockNumber := Some block;
                gasUsed := Some gas;
                r_amountIn := amountIn swapParams;
                amountOut := amountOut;
                priceImpact := impact;
                slippage :=
                  calculateSlippage (amountOutMin swapParams) amountOut;
                executionTime := endTime o - startTime o;
                error := None |},
             [transaction])
          else (failure swapParams TransactionFailed, [transaction])
        end
      end.

Definition swapExactETHForTokens := swap ETHForTokens.
Definition swapExactTokensForETH := swap TokensForETH.

End Pancake.

(* --------------------------------------------------------------------- *)
(*  MigrationDetector: start, stop, and what the maps hold               *)
(* --------------------------------------------------------------------- *)

Module DetectorMore.
Import JS JSMore.

(** The part of the detector that `start` and `stop` touch:
    `isRunning`, whether `checkInterval` holds a handle, and the number
    of interval timers that are alive. *)
Record Watch : Type := {
  isRunning : bool;
  checkInterval : bool;
  liveTimers : nat
}.

Definition stopped : Watch :=
  {| isRunning := false; checkInterval := false; liveTimers := 0 |}.

Definition start (w : Watch) : Watch :=
  if isRunning w then w
  else {| isRunning := true; checkInterval := true;
          liveTimers := S (liveTimers w) |}.

Definition stop (w : Watch) : Watch :=
  if isRunning w then
    {| isRunning := false;
       checkInterval := false;
       liveTimers := if checkInterval w then pred (liveTimers w)
                     else liveTimers w |}
  else w.

Inductive Call : Type := callStart | callStop.

Definition call (w : Watch) (c : Call) : Watch :=
  match c with callStart => start w | callStop => stop w end.

(** The detector after a sequence of calls on a fresh instance. *)
Definition after (calls : list Call) : Watch :=
  fold_left call calls stopped.

(** Only a monitored token has a status or a predictive analysis. *)
Definition consistent (st : Detector.State) : Prop :=
  forall tokenAddress,
    Detector.monitoredTokens st !! tokenAddress = None ->
    Detector.migrationStatuses st !! tokenAddress = None
    /\ Detector.predictiveAnalyses st !! tokenAddress = None.




End DetectorMore.

(* --------------------------------------------------------------------- *)
(*  TransitionLogic: orders through the router, start, stop, runs        *)
(* --------------------------------------------------------------------- *)

Module Orders.
Import JS JSMore Transition.

(** `BigInt(Math.floor(Number(amountsOut[1]) * (1 - slippageBuffer)))`,
    in doubles; [None]: `BigInt` throws (the product is not finite). *)
Definition minimumOut (cfg : TransitionConfig) (quoted : Z) : option Z :=
  Float64.toBigInt
    (Float64.floor
       (Float64.ofZ quoted * (1 - Float64.ofQ (slippageBuffer cfg)))%float).

(** `Math.floor(Date.now() / 1000) + 300`. *)
Definition deadlineAt (now : Z) : Z := now / 1000 + 300.

(** What the router and the wallet answer to an order: the address of
    the wallet of `createTradingWallet` ([None]: it throws), the answer
    of `getAmountsOut` ([None]: it throws), the clock, and the course
    of the swap. *)
Record OrderOracle : Type := {
  wallet : option string;
  amountsOut : option (list Z);
  orderClock : Z;
  tx : Pancake.TxOracle
}.

(** The parameters built by `executeBuyOrder` and `executeSellOrder`;
    [None]: the quote throws, has no second amount (`BigInt` of NaN
    throws), or gives no minimum. *)
Definition orderParams (cfg : TransitionConfig) (amountIn : Z)
    (path : list string) (recipient : string) (o : OrderOracle)
  : option Pancake.SwapParams :=
  match amountsOut o with
  | None => None
  | Some amounts =>
    match nth_error amounts 1 with
    | None => None
    | Some quoted =>
      match minimumOut cfg quoted with
      | None => None
      | Some amountOutMin =>
        Some {| Pancake.amountIn := amountIn;
                Pancake.amountOutMin := amountOutMin;
                Pancake.path := path;
                Pancake.deadline := deadlineAt (orderClock o);
                Pancake.recipient := recipient |}
      end
    end
  end.

(** `executeBuyOrder`: the result of the swap and what was handed to
    the wallet; [None]: it throws. *)
Definition executeBuyOrder (cfg : TransitionConfig)
    (pancake : Pancake.PancakeSwapConfig) (recipient tokenAddress : string)
    (strategy : TransitionStrategy) (o : OrderOracle)
  : option (Pancake.SwapResult * list Pancake.Sent) :=
  match orderParams cfg (buyAmount strategy)
                    [Pancake.WBNB_ADDRESS; tokenAddress] recipient o with
  | None => None
  | Some swapParams =>
    Some (Pancake.swapExactETHForTokens pancake swapParams (tx o))
  end.

(** `executeSellOrder`. *)
Definition executeSellOrder (cfg : TransitionConfig)
    (pancake : Pancake.PancakeSwapConfig) (recipient : string)
    (position : TradePosition) (o : OrderOracle)
  : option (Pancake.SwapResult * list Pancake.Sent) :=
  match orderParams cfg (tokenAmount position)
                    [tokenAddress position; Pancake.WBNB_ADDRESS]
                    recipient o with
  | None => None
  | Some swapParams =>
    Some (Pancake.swapExactTokensForETH pancake swapParams (tx o))
  end.

(** How an order ends for `executeTransitionStrategy` and
    `executeExitStrategy`, which read `success`, `amountOut` and
    `gasUsed` of the result. *)
Definition outcomeOf (order : option (Pancake.SwapResult * list Pancake.Sent))
  : SwapOutcome :=
  match order with
  | None => swapThrows
  | Some (result, _) =>
    if Pancake.success result
    then swapSucceeds (Pancake.amountOut result) (Pancake.gasUsed result)
    else swapFails
  end.

(** The buy of `executeTransitionStrategy`, wallet included. *)
Definition buyOutcome (cfg : TransitionConfig)
    (pancake : Pancake.PancakeSwapConfig) (tokenAddress : string)
    (strategy : TransitionStrategy) (o : OrderOracle) : SwapOutcome :=
  match wallet o with
  | None => swapThrows
  | Some recipient =>
    outcomeOf (executeBuyOrder cfg pancake recipient tokenAddress
                               strategy o)
  end.

(** The sell of `executeExitStrategy`, wallet included. *)
Definition sellOutcome (cfg : TransitionConfig)
    (pancake : Pancake.PancakeSwapConfig) (position : TradePosition)
    (o : OrderOracle) : SwapOutcome :=
  match wallet o with
  | None => swapThrows
  | Some recipient =>
    outcomeOf (executeSellOrder cfg pancake recipient position o)
  end.

(** `getCurrentTokenPrice`: the price of the swap data, or 0 when
    `getMigrationSwapData` throws. *)
Definition getCurrentTokenPrice (data : option Pancake.MigrationSwapData)
  : jsnum :=
  match data with
  | Some swapData => Pancake.tokenPrice swapData
  | None => Fin 0%Q
  end.

(** `updatePositionStatus` with the price just read: a price that is
    not finite makes `BigInt` throw, and the `catch` leaves the
    position as it is. *)
Definition refresh (position : TradePosition)
    (data : option Pancake.MigrationSwapData) : TradePosition :=
  match getCurrentTokenPrice data with
  | Fin currentPrice => updatePositionStatus position currentPrice
  | _ => position
  end.

(** The part of TransitionLogic that `start` and `stop` touch:
    `isRunning`, and the number of interval timers created by
    `startPositionMonitoring` (their handles are not kept). *)
Record Logic : Type := {
  isRunning : bool;
  monitors : nat
}.

Definition idle : Logic := {| isRunning := false; monitors := 0 |}.

Definition start (l : Logic) : Logic :=
  if isRunning l then l
  else {| isRunning := true; monitors := S (monitors l) |}.

Definition stop (l : Logic) : Logic :=
  if isRunning l then {| isRunning := false; monitors := monitors l |}
  else l.

Inductive Call : Type := callStart | callStop.

Definition call (l : Logic) (c : Call) : Logic :=
  match c with callStart => start l | callStop => stop l end.

(** The instance after a sequence of calls. *)
Definition after (l : Logic) (calls : list Call) : Logic :=
  fold_left call calls l.

(** What can happen to the positions, one call at a time: a migration
    event is handled, or a monitoring timer fires. *)
Inductive Op : Type :=
| opMigration (migrationEvent : Detector.MigrationEvent) (o : BuyOracle)
| opMonitor (oracle : string -> PositionTick).

Definition apply (cfg : TransitionConfig) (st : State) (op : Op) : State :=
  match op with
  | opMigration migrationEvent o =>
    handleMigrationEvent cfg st migrationEvent o
  | opMonitor oracle => monitorPositions cfg oracle st
  end.

Definition run (cfg : TransitionConfig) (st : State) (ops : list Op)
  : State :=
  fold_left (apply cfg) ops st.

(** Every position is stored under its own id. *)
Definition ownKey (kv : string * TradePosition) : Prop :=
  id (snd kv) = fst kv.

(** An entry of the active map: not closed, and no exit data. *)
Definition open (kv : string * TradePosition) : Prop :=
  status (snd kv) <> CLOSED
  /\ exitReason (snd kv) = None /\ exitTime (snd kv) = None.

(** An entry of the completed map: closed, with its exit data. *)
Definition closed (kv : string * TradePosition) : Prop :=
  status (snd kv) = CLOSED
  /\ is_Some (exitReason (snd kv)) /\ is_Some (exitTime (snd kv))
  /\ exitPrice (snd kv) = currentPrice (snd kv).

Definition wellFormed (st : State) : Prop :=
  List.Forall ownKey (activePositions st)
  /\ List.Forall ownKey (completedPositions st)
  /\ List.Forall open (activePositions st)
  /\ List.Forall closed (completedPositions st).

(** The active map holds no more than `maxConcurrentTrades` entries. *)
Definition bounded (cfg : TransitionConfig) (st : State) : Prop :=
  JSMap.size (activePositions st) <= Z.max 0 (maxConcurrentTrades cfg).

(** A position id that one of the two maps has. *)
Definition known (st : State) (positionId : string) : Prop :=
  is_Some (JSMap.get (activePositions st) positionId)
  \/ is_Some (JSMap.get (completedPositions st) positionId).

Definition isTransitionExecuted (e : Event) : bool :=
  match e with transitionExecuted _ => true | _ => false end.

(** Number of `transitionExecuted` events of a trace. *)
Definition executions (trace : list Event) : Z :=
  Z.of_nat (length (List.filter isTransitionExecuted trace)).

(** [n] times `start()` then `stop()`. *)
Definition cycles (n : nat) : list Call :=
  concat (repeat [callStart; callStop] n).

End Orders.

(* --------------------------------------------------------------------- *)
(*  More concrete inputs                                                 *)
(* --------------------------------------------------------------------- *)

Module ScenarioMore.
Import Pancake.

(** A pool of 18 BNB against 10^9 tokens (18 decimals), WBNB first. *)
Definition pool18 : PairData := {|
  pd_reserve0 := 18 * 1000000000000000000;
  pd_reserve1 := 1000000000 * 1000000000000000000;
  pd_totalSupply := 1000000;
  pd_token0 := WBNB_ADDRESS;
  pd_token1 := "0xT0"
|}.

Definition chain18 : ChainOracle := {|
  pairAnswer := Some "0xPA1R";
  pairData := Some pool18;
  feeData := Some (Some (3 * gwei))
|}.

(** A transaction that is built, sent and mined with status 1. *)
Definition mined (c : ChainOracle) : TxOracle := {|
  chain := c;
  populated := true;
  sent := Some "0xHA5H";
  receipt := Some (1, 104, 150000);
  startTime := 5000;
  endTime := 8000
|}.

(** A pool a hundred times deeper: 1800 BNB. *)
Definition pool1800 : PairData := {|
  pd_reserve0 := 1800 * 1000000000000000000;
  pd_reserve1 := 1000000000 * 1000000000000000000;
  pd_totalSupply := 1000000;
  pd_token0 := WBNB_ADDRESS;
  pd_token1 := "0xT0"
|}.

Definition chain1800 : ChainOracle := {|
  pairAnswer := Some "0xPA1R";
  pairData := Some pool1800;
  feeData := Some (Some (3 * gwei))
|}.

(** An order in the deep pool that is quoted, sent and mined. *)
Definition order1800 : Orders.OrderOracle := {|
  Orders.wallet := Some "0xWA11E7";
  Orders.amountsOut :=
    Some [Transition.ether / 10; 55000000000000000000000];
  Orders.orderClock := 5000;
  Orders.tx := mined chain1800
|}.

(** A migration event is handled, then two monitoring ticks: the sell
    of the first fails, that of the second succeeds. *)
Definition session : list Orders.Op :=
  [Orders.opMigration Scenario.crossed Scenario.buyOk;
   Orders.opMonitor
     (Scenario.monitorTick (Scenario.priceAt (-30)) Transition.swapFails
                           10000);
   Orders.opMonitor
     (Scenario.monitorTick (Scenario.priceAt (-30))
                           (Transition.swapSucceeds 1 None) 15000)].

(** `MAX_CONCURRENT_TRADES=1`. *)
Definition singleTradeConfig : Transition.TransitionConfig :=
  Transition.loadTransitionConfig "aggressive" 1 Transition.ether.

(** The position that a successful buy through the router opens. *)
Definition bought : Transition.TradePosition :=
  Transition.createPosition Scenario.crossed
    (Transition.buyAmount Transition.aggressive) 0 Transition.aggressive
    Scenario.positionId 5000.

(** The position of [Scenario.opened]. *)
Definition held : Transition.TradePosition :=
  Transition.createPosition Scenario.crossed
    (Transition.buyAmount Transition.aggressive) 1000000
    Transition.aggressive Scenario.positionId 5000.

End ScenarioMore.

(* --------------------------------------------------------------------- *)
(*  The migration probability as the doubles compute it                  *)
(* --------------------------------------------------------------------- *)

Module Ieee.
Import Float64.

(** The two numbers of `migrationConfig` that the probability reads. *)
Record MigrationDetectorConfig : Type := {
  migrationThreshold : float;
  preMigrationBuffer : float
}.

(** `MIGRATION_THRESHOLD` 18 and `PRE_MIGRATION_BUFFER` 0.5, the
    defaults. *)
Definition loadMigrationConfig : MigrationDetectorConfig := {|
  migrationThreshold := 18%float;
  preMigrationBuffer := 0.5%float
|}.

(** [calculateMigrationProbability], operation by operation. Nothing in
    the body throws, so the `catch` branch is dead. *)
Definition calculateMigrationProbability
    (cfg : MigrationDetectorConfig)
    (currentMarketCap bondingCurveProgress : float) : float :=
  let threshold := migrationThreshold cfg in
  let buffer := preMigrationBuffer cfg in
  if geb currentMarketCap threshold then 1%float
  else if geb currentMarketCap (threshold - buffer)%float then
    let progressInBuffer :=
      ((currentMarketCap - (threshold - buffer)) / buffer)%float in
    (0.7 + (progressInBuffer * 0.3))%float
  else
    let progressFactor := bondingCurveProgress in
    let marketCapFactor := (currentMarketCap / threshold)%float in
    min (progressFactor * marketCapFactor)%float 0.7%float.


End Ieee.

(* --------------------------------------------------------------------- *)
(*  What the handler of a crossing reads from the chain                  *)
(* --------------------------------------------------------------------- *)

Module Confirmation.
Import Detector.

(** Block numbers read while the target is not reached. *)
Definition belowTarget (cfg : MigrationDetectorConfig) (first : Z)
    (middle : list Z) : Prop :=
  List.Forall (fun b => b < first + confirmationBlocks cfg) middle.

(** The answers of `provider.getBlockNumber()` to one handler when the
    chain gets to the target: the first read, reads below the target, a
    read at or above it, and the read of the block of the event. *)
Definition reachedTarget (cfg : MigrationDetectorConfig)
    (polls : list (option Z)) : Prop :=
  exists first middle last block unread,
    polls = Some first :: map Some middle
            ++ Some last :: Some block :: unread
    /\ belowTarget cfg first middle
    /\ first + confirmationBlocks cfg <= last.

(** The answers when a read of the wait throws (the first one, or one
    below the target later) and the read of the block of the event
    succeeds. *)
Definition readFailed (cfg : MigrationDetectorConfig)
    (polls : list (option Z)) : Prop :=
  (exists block unread, polls = None :: Some block :: unread)
  \/ exists first middle block unread,
       polls = Some first :: map Some middle
               ++ None :: Some block :: unread
       /\ belowTarget cfg first middle.

(** The answers so far when the chain has not got to the target and no
    read has thrown. *)
Definition stillWaiting (cfg : MigrationDetectorConfig)
    (polls : list (option Z)) : Prop :=
  polls = []
  \/ exists first middle,
       polls = Some first :: map Some middle
       /\ belowTarget cfg first middle.

(** The tick emits `migrationDetected`, with the block it read last, and
    sets the flag of the token. *)
Definition fires (cfg : MigrationDetectorConfig) (tokenAddress : string)
    (tokenData : TokenData) (previousStatus : option MigrationStatus)
    (o : TickOracle) : Prop :=
  exists migrationStatus tokenData' migrationEvent,
    checkToken cfg tokenAddress tokenData previousStatus o
    = done_with (migrationStatus, tokenData',
                 [migrationDetected migrationEvent;
                  statusUpdate tokenAddress migrationStatus
                               previousStatus])
    /\ isMigrated tokenData' = true.

End Confirmation.

(* --------------------------------------------------------------------- *)
(*  MigrationDetector: calls in flight                                   *)
(* --------------------------------------------------------------------- *)

(** `addToken` and `checkTokenMigration` are async: each gives up
    control at its awaits, and another call can run in between. A call
    is followed here from await to await. A `checkTokenMigration` that
    enters `handleMigrationEvent` is followed up to that point (its
    wait is followed in [Detector.act]); no handler ends here, so no
    token object changes. *)
Module InFlight.
Import Detector.

Inductive Suspended : Type :=
| fetching (tokenAddress : string)
    (* `addToken` at `await this.fetchTokenData(tokenAddress)`, both
       guards passed *)
| initialising (tokenAddress : string) (tokenData : TokenData)
    (* `addToken` at `await this.calculateMigrationStatus(tokenData)` *)
| checking (tokenAddress : string) (tokenData : TokenData)
    (* `checkTokenMigration` at
       `await this.calculateMigrationStatus(tokenData)` *)
| confirming (tokenAddress : string) (tokenData : TokenData)
             (migrationStatus : MigrationStatus).
    (* `checkTokenMigration` inside `handleMigrationEvent` *)

(** The detector, the calls that are suspended (oldest first), and how
    the `addToken` calls that ended did end. *)
Record Running : Type := {
  maps : State;
  suspended : list Suspended;
  ended : list (string * Outcome)
}.

Definition quiet (st : State) : Running :=
  {| maps := st; suspended := []; ended := [] |}.

Inductive Step : Type :=
| addTokenCalled (tokenAddress : string)
| fetchReturned (tokenAddress : string) (fetch : option TokenMeta)
    (* the oldest `addToken` of the address that awaits its fetch
       resumes; [None]: the fetch throws *)
| statusReturned (tokenAddress : string) (data : option MarketData)
                 (now : Z)
    (* the oldest `addToken` of the address that awaits its status *)
| removeTokenCalled (tokenAddress : string)
| checkStarted (tokenAddress : string)
    (* a timer tick calls `checkTokenMigration` with the entry of the
       address *)
| checkReturned (tokenAddress : string) (data : option MarketData)
                (now : Z).
    (* the oldest `checkTokenMigration` of the address that awaits its
       status *)

Fixpoint takeFetching (tokenAddress : string) (calls : list Suspended)
  : option (list Suspended) :=
  match calls with
  | [] => None
  | fetching a :: rest =>
    if String.eqb a tokenAddress then Some rest
    else option_map (cons (fetching a)) (takeFetching tokenAddress rest)
  | call :: rest => option_map (cons call) (takeFetching tokenAddress rest)
  end.

Fixpoint takeInitialising (tokenAddress : string)
    (calls : list Suspended) : option (TokenData * list Suspended) :=
  match calls with
  | [] => None
  | initialising a tokenData :: rest =>
    if String.eqb a tokenAddress then Some (tokenData, rest)
    else option_map (fun r => (fst r, initialising a tokenData :: snd r))
                    (takeInitialising tokenAddress rest)
  | call :: rest =>
    option_map (fun r => (fst r, call :: snd r))
               (takeInitialising tokenAddress rest)
  end.

Fixpoint takeChecking (tokenAddress : string) (calls : list Suspended)
  : option (TokenData * list Suspended) :=
  match calls with
  | [] => None
  | checking a tokenData :: rest =>
    if String.eqb a tokenAddress then Some (tokenData, rest)
    else option_map (fun r => (fst r, checking a tokenData :: snd r))
                    (takeChecking tokenAddress rest)
  | call :: rest =>
    option_map (fun r => (fst r, call :: snd r))
               (takeChecking tokenAddress rest)
  end.

Definition withTokens (st : State) (tokens : gmap string TokenData)
  : State := {|
  monitoredTokens := tokens;
  migrationStatuses := migrationStatuses st;
  predictiveAnalyses := predictiveAnalyses st;
  emitted := emitted st
|}.

(** `migrationStatuses.set`, then `predictiveAnalyses.set` when the
    analysis is enabled, then one emission. *)
Definition withStatus (cfg : MigrationDetectorConfig) (st : State)
    (tokenAddress : string) (tokenData : TokenData)
    (migrationStatus : MigrationStatus) (e : DetectorEvent) : State := {|
  monitoredTokens := monitoredTokens st;
  migrationStatuses :=
    <[tokenAddress := migrationStatus]> (migrationStatuses st);
  predictiveAnalyses :=
    if enablePredictiveAnalysis cfg
    then <[tokenAddress :=
             performPredictiveAnalysis tokenData migrationStatus]>
           (predictiveAnalyses st)
    else predictiveAnalyses st;
  emitted := emitted st ++ [e]
|}.

(** `migrationStatuses.set` alone. *)
Definition withStatusOnly (st : State) (tokenAddress : string)
    (migrationStatus : MigrationStatus) : State := {|
  monitoredTokens := monitoredTokens st;
  migrationStatuses :=
    <[tokenAddress := migrationStatus]> (migrationStatuses st);
  predictiveAnalyses := predictiveAnalyses st;
  emitted := emitted st
|}.

Definition step (cfg : MigrationDetectorConfig) (r : Running) (s : Step)
  : Running :=
  match s with
  | addTokenCalled tokenAddress =>
    match monitoredTokens (maps r) !! tokenAddress with
    | Some _ =>
      {| maps := maps r; suspended := suspended r;
         ended := ended r ++ [(tokenAddress, returned)] |}
    | None =>
      if maxTokensToMonitor cfg
         <=? Z.of_nat (size (monitoredTokens (maps r)))
      then {| maps := maps r; suspended := suspended r;
              ended :=
                ended r
                ++ [(tokenAddress,
                     thrown (MonitoringLimitReached
                               (maxTokensToMonitor cfg)))] |}
      else {| maps := maps r;
              suspended := suspended r ++ [fetching tokenAddress];
              ended := ended r |}
    end
  | fetchReturned tokenAddress fetch =>
    match takeFetching tokenAddress (suspended r) with
    | None => r
    | Some rest =>
      match fetch with
      | None =>
        {| maps := maps r; suspended := rest;
           ended := ended r ++ [(tokenAddress, thrown FetchFailed)] |}
      | Some meta =>
        let tokenData := fetchTokenData tokenAddress meta in
        {| maps :=
             withTokens (maps r)
               (<[tokenAddress := tokenData]> (monitoredTokens (maps r)));
           suspended := rest ++ [initialising tokenAddress tokenData];
           ended := ended r |}
      end
    end
  | statusReturned tokenAddress data now =>
    match takeInitialising tokenAddress (suspended r) with
    | None => r
    | Some (tokenData, rest) =>
      match data with
      | None =>
        {| maps := maps r; suspended := rest;
           ended := ended r ++ [(tokenAddress, thrown StatusFailed)] |}
      | Some data =>
        let migrationStatus :=
          calculateMigrationStatus cfg tokenData data now in
        {| maps := withStatus cfg (maps r) tokenAddress tokenData
                              migrationStatus (tokenAdded tokenAddress);
           suspended := rest;
           ended := ended r ++ [(tokenAddress, returned)] |}
      end
    end
  | removeTokenCalled tokenAddress =>
    {| maps := removeToken (maps r) tokenAddress;
       suspended := suspended r; ended := ended r |}
  | checkStarted tokenAddress =>
    match monitoredTokens (maps r) !! tokenAddress with
    | None => r
    | Some tokenData =>
      {| maps := maps r;
         suspended := suspended r ++ [checking tokenAddress tokenData];
         ended := ended r |}
    end
  | checkReturned tokenAddress data now =>
    match takeChecking tokenAddress (suspended r) with
    | None => r
    | Some (tokenData, rest) =>
      match data with
      | None => {| maps := maps r; suspended := rest; ended := ended r |}
      | Some data =>
        let migrationStatus :=
          calculateMigrationStatus cfg tokenData data now in
        let previousStatus := migrationStatuses (maps r) !! tokenAddress in
        if crossing cfg tokenData migrationStatus
        then {| maps := withStatusOnly (maps r) tokenAddress
                                       migrationStatus;
                suspended :=
                  rest ++ [confirming tokenAddress tokenData
                                      migrationStatus];
                ended := ended r |}
        else {| maps := withStatus cfg (maps r) tokenAddress tokenData
                                   migrationStatus
                                   (statusUpdate tokenAddress
                                      migrationStatus previousStatus);
                suspended := rest;
                ended := ended r |}
      end
    end
  end.

Definition schedule (cfg : MigrationDetectorConfig) (r : Running)
    (steps : list Step) : Running :=
  fold_left (step cfg) steps r.

(** Two `addToken` calls that overlap: both are called before either
    fetch returns. *)
Definition overlapped (a b : string) (metaA metaB : TokenMeta)
    (dataA dataB : MarketData) (nowA nowB : Z) : list Step :=
  [addTokenCalled a; addTokenCalled b;
   fetchReturned a (Some metaA); fetchReturned b (Some metaB);
   statusReturned a (Some dataA) nowA; statusReturned b (Some dataB) nowB].

(** A token is removed while a tick awaits its status. *)
Definition removedDuringCheck (tokenAddress : string) (data : MarketData)
    (now : Z) : list Step :=
  [checkStarted tokenAddress; removeTokenCalled tokenAddress;
   checkReturned tokenAddress (Some data) now].

End InFlight.

(* --------------------------------------------------------------------- *)
(*  TransitionLogic: migration events in flight                          *)
(* --------------------------------------------------------------------- *)

(** `handleMigrationEvent` of TransitionLogic tests the number of
    active positions, then awaits the swap data and the buy before it
    stores the position. *)
Module InFlightTrades.
Import JS Transition.

Inductive Suspended : Type :=
| quoting (migrationEvent : Detector.MigrationEvent)
    (* at `await getMigrationSwapData(...)`, the size test passed *)
| buying (migrationEvent : Detector.MigrationEvent).
    (* inside `executeTransitionStrategy`, at the awaits of the wallet
       and the buy *)

Record Running : Type := {
  book : State;
  suspended : list Suspended
}.

Definition quiet (st : State) : Running :=
  {| book := st; suspended := [] |}.

Inductive Step : Type :=
| eventReceived (migrationEvent : Detector.MigrationEvent)
| swapDataReturned (liquidityBNB : option Q)
    (* the oldest handler that awaits its swap data resumes *)
| buyReturned (outcome : SwapOutcome) (clock : Z).
    (* the oldest handler that awaits its buy resumes *)

Fixpoint takeQuoting (calls : list Suspended)
  : option (Detector.MigrationEvent * list Suspended) :=
  match calls with
  | [] => None
  | quoting migrationEvent :: rest => Some (migrationEvent, rest)
  | call :: rest =>
    option_map (fun r => (fst r, call :: snd r)) (takeQuoting rest)
  end.

Fixpoint takeBuying (calls : list Suspended)
  : option (Detector.MigrationEvent * list Suspended) :=
  match calls with
  | [] => None
  | buying migrationEvent :: rest => Some (migrationEvent, rest)
  | call :: rest =>
    option_map (fun r => (fst r, call :: snd r)) (takeBuying rest)
  end.

Definition step (cfg : TransitionConfig) (r : Running) (s : Step)
  : Running :=
  match s with
  | eventReceived migrationEvent =>
    if maxConcurrentTrades cfg <=? JSMap.size (activePositions (book r))
    then r
    else {| book := book r;
            suspended := suspended r ++ [quoting migrationEvent] |}
  | swapDataReturned answer =>
    match takeQuoting (suspended r) with
    | None => r
    | Some (migrationEvent, rest) =>
      match answer with
      | None => {| book := book r; suspended := rest |}
      | Some liquidityBNB =>
        if insufficientLiquidity cfg liquidityBNB
        then {| book := book r; suspended := rest |}
        else
          match strategies cfg !! defaultStrategy cfg with
          | None => {| book := book r; suspended := rest |}
          | Some _ =>
            {| book := book r;
               suspended := rest ++ [buying migrationEvent] |}
          end
      end
    end
  | buyReturned outcome clock =>
    match takeBuying (suspended r) with
    | None => r
    | Some (migrationEvent, rest) =>
      {| book :=
           executeTransitionStrategy cfg (book r) migrationEvent
             {| swapData := None; buy := outcome; buyClock := clock |};
         suspended := rest |}
    end
  end.

Definition schedule (cfg : TransitionConfig) (r : Running)
    (steps : list Step) : Running :=
  fold_left (step cfg) steps r.

(** Two migration events that overlap: the second arrives before the
    swap data of the first. *)
Definition overlapped (first second : Detector.MigrationEvent)
    (liquidity1 liquidity2 : Q) (buy1 buy2 : SwapOutcome)
    (clock1 clock2 : Z) : list Step :=
  [eventReceived first; eventReceived second;
   swapDataReturned (Some liquidity1); swapDataReturned (Some liquidity2);
   buyReturned buy1 clock1; buyReturned buy2 clock2].

End InFlightTrades.

(* --------------------------------------------------------------------- *)
(*  Concrete inputs for the doubles and for calls in flight              *)
(* --------------------------------------------------------------------- *)

Module ScenarioRaces.



(** The detector with the one token of [Scenario] monitored. *)
Definition monitoring : Detector.State :=
  snd (Detector.addToken Detector.loadMigrationConfig Detector.initial
         Scenario.tokenAddress (Some Scenario.meta0)
         (Some (Scenario.reading 15.5)) 1000).

(** `MAX_GAS_PRICE=1.001`: a cap of 1.001 gwei. *)
Definition fractionalCap : Pancake.PancakeSwapConfig := {|
  Pancake.routerAddress := Pancake.PANCAKESWAP_ROUTER;
  Pancake.factoryAddress := Pancake.PANCAKESWAP_FACTORY;
  Pancake.wbnbAddress := Pancake.WBNB_ADDRESS;
  Pancake.maxSlippage := 0.05%Q;
  Pancake.deadlineBuffer := 300;
  Pancake.gasPriceMultiplier := 1.2%Q;
  Pancake.maxGasPrice := 1.001%Q;
  Pancake.minLiquidityThreshold := 1%Q;
  Pancake.enablePriceImpactProtection := true;
  Pancake.maxPriceImpact := 0.1%Q
|}.

End ScenarioRaces.

(* ===================================================================== *)
(*  Properties                                                           *)
(* ===================================================================== *)

Module JSFacts.
Import JS.

Lemma Qlt_bool_iff (a b : Q) : Qlt_bool a b = true <-> (a < b)%Q.
Proof.
  unfold Qlt_bool. rewrite negb_true_iff. split.
  - intros H. apply Qnot_le_lt. intros Hle.
    apply Qle_bool_iff in Hle. congruence.
  - intros H. destruct (Qle_bool b a) eqn:E; [|reflexivity].
    apply Qle_bool_iff in E. exfalso. exact (Qlt_not_le _ _ H E).
Qed.

Lemma Qle_bool_false (a b : Q) : Qle_bool a b = false <-> (b < a)%Q.
Proof.
  rewrite <- Qlt_bool_iff. unfold Qlt_bool.
  destruct (Qle_bool a b); simpl; intuition congruence.
Qed.

Lemma Qlt_bool_false (a b : Q) : Qlt_bool a b = false <-> (b <= a)%Q.
Proof.
  unfold Qlt_bool. rewrite negb_false_iff. apply Qle_bool_iff.
Qed.

Lemma Qeq_bool_false (a b : Q) : Qeq_bool a b = false -> ~ (a == b)%Q.
Proof.
  intros H E. apply Qeq_bool_iff in E. congruence.
Qed.

End JSFacts.

Module Prediction.
Import JS JSFacts Detector.

(** In exact arithmetic the ramp of `calculateMigrationProbability`,
    0.7 + ((cap - (threshold - buffer)) / buffer) * 0.3, is the ramp of
    the reference definition, 0.7 + 0.3 * (cap - (threshold - buffer))
    / buffer, and the two agree in every zone. (As doubles they need
    not: [ProbabilityInDoubles].) *)
Lemma calculateMigrationProbability_piecewise
    (cfg : MigrationDetectorConfig) (marketCap bondingCurveProgress : Q) :
  (0 <= marketCap)%Q ->
  (0 <= bondingCurveProgress)%Q -> (bondingCurveProgress <= 1)%Q ->
  (0 < migrationThreshold cfg)%Q -> (0 < preMigrationBuffer cfg)%Q ->
  (calculateMigrationProbability cfg marketCap bondingCurveProgress
   == crossingProbability_spec (migrationThreshold cfg)
        (preMigrationBuffer cfg) marketCap bondingCurveProgress)%Q.
Proof.
  intros _ _ _ _ Hbuffer.
  unfold calculateMigrationProbability, crossingProbability_spec.
  destruct (Qle_bool (migrationThreshold cfg) marketCap);
    [reflexivity|].
  destruct (Qle_bool (migrationThreshold cfg - preMigrationBuffer cfg)
                     marketCap).
  - cbv zeta. field. intros E. rewrite E in Hbuffer.
    exact (Qlt_irrefl _ Hbuffer).
  - cbv zeta. apply Q.min_comm.
Qed.

(** The estimate is 0 for a distance that is not positive, and never
    below one second (or infinite) for a positive one. *)
Lemma estimateTimeToMigration_reached (d p : Q) :
  (d <= 0)%Q -> estimateTimeToMigration d p = Fin 0%Q.
Proof.
  intros H. unfold estimateTimeToMigration.
  apply Qle_bool_iff in H. now rewrite H.
Qed.

Lemma estimateTimeToMigration_positive (d p : Q) :
  (0 < d)%Q -> (0 <= p)%Q ->
  estimateTimeToMigration d p
  = if Qeq_bool (p / 100) 0 then PInf
    else Fin (Qmax (d / (p / 100)) 1000).
Proof.
  intros Hd Hp. unfold estimateTimeToMigration.
  apply Qle_bool_false in Hd. rewrite Hd. cbv zeta. unfold jsdiv.
  destruct (Qeq_bool (p / 100) 0); [|reflexivity].
  apply Qle_bool_false, Qlt_bool_iff in Hd. now rewrite Hd.
Qed.

Lemma rate_positive (p : Q) :
  (0 <= p)%Q -> Qeq_bool (p / 100) 0 = false -> (0 < p / 100)%Q.
Proof.
  intros Hp Hne. apply Qeq_bool_false in Hne.
  assert (0 <= p / 100)%Q as Hle.
  { apply Qle_shift_div_l; [reflexivity|]. now rewrite Qmult_0_l. }
  apply Qle_lteq in Hle. destruct Hle as [Hlt|Heq]; [exact Hlt|].
  exfalso. apply Hne. symmetry. exact Heq.
Qed.

(** C9, as the code has it. With the bonding curve progress (hence
    the progress rate `progress / 100`, which is not negative) held
    fixed, the estimate for a distance d1 is at most the estimate for
    any distance d2 >= d1. For a positive distance the estimate is
    max(1000, distance / progressRate), where a zero rate makes the
    quotient, and the estimate, +Infinity; for a distance that is not
    positive the estimate is 0. *)
Theorem estimateTimeToMigration_monotone (p d1 d2 : Q) :
  (0 <= p)%Q -> (d1 <= d2)%Q ->
  jsle (estimateTimeToMigration d1 p) (estimateTimeToMigration d2 p)
  /\ (0 < d2 ->
      jseq (estimateTimeToMigration d2 p)
           (estimatedTimeToThreshold_spec d2 p))%Q
  /\ (d1 <= 0 -> estimateTimeToMigration d1 p = Fin 0)%Q.
Proof.
  intros Hp Hd. split; [|split].
  - destruct (Qlt_le_dec 0 d1) as [H1|H1].
    + assert (0 < d2)%Q as H2 by (eapply Qlt_le_trans; eassumption).
      rewrite !estimateTimeToMigration_positive by assumption.
      destruct (Qeq_bool (p / 100) 0) eqn:E; [exact I|].
      simpl. apply Q.max_le_compat_r.
      apply Qmult_le_compat_r; [exact Hd|].
      apply Qinv_le_0_compat, Qlt_le_weak, rate_positive; assumption.
    + rewrite (estimateTimeToMigration_reached d1 p H1).
      destruct (Qlt_le_dec 0 d2) as [H2|H2].
      * rewrite estimateTimeToMigration_positive by assumption.
        destruct (Qeq_bool (p / 100) 0); [exact I|].
        simpl. apply Qle_trans with 1000%Q; [discriminate|].
        apply Q.le_max_r.
      * rewrite (estimateTimeToMigration_reached d2 p H2).
        simpl. apply Qle_refl.
  - intros H2. rewrite estimateTimeToMigration_positive by assumption.
    unfold estimatedTimeToThreshold_spec, jsdiv. cbv zeta.
    destruct (Qeq_bool (p / 100) 0).
    + apply Qlt_bool_iff in H2. rewrite H2. exact I.
    + simpl. apply Q.max_comm.
  - apply estimateTimeToMigration_reached.
Qed.

Lemma estimateTimeToMigration_monotone_witness :
  jsle (estimateTimeToMigration 0.4 0.86) (estimateTimeToMigration 2.5 0.86)
  /\ (0 < 2.5 ->
      jseq (estimateTimeToMigration 2.5 0.86)
           (estimatedTimeToThreshold_spec 2.5 0.86))%Q
  /\ (0.4 <= 0 -> estimateTimeToMigration 0.4 0.86 = Fin 0)%Q.
Proof.
  apply (estimateTimeToMigration_monotone 0.86%Q 0.4%Q 2.5%Q);
    vm_compute; congruence.
Defined.

(** C9, as stated, fails: at distance 0 the code returns 0 where
    max(minimumEstimate, distance / progressRate) is the minimum of
    one second; and nothing keeps the rate away from zero: with no
    progress on the curve the quotient is +Infinity. *)
Lemma eta_formula_as_stated_fails :
  ~ jseq (estimateTimeToMigration 0 0.86)
         (estimatedTimeToThreshold_spec 0 0.86)
  /\ estimateTimeToMigration 0 0.86 = Fin 0%Q
  /\ jseq (estimatedTimeToThreshold_spec 0 0.86) (Fin 1000%Q)
  /\ estimateTimeToMigration 2.5 0 = PInf.
Proof.
  repeat split; vm_compute; congruence.
Qed.

End Prediction.

Module Statistics.
Import JS JSFacts Transition.





End Statistics.

Module ExitPriority.
Import JS JSFacts Transition.

Lemma default_strategies_aggressive :
  strategies defaultTransitionConfig !! "aggressive" = Some aggressive.
Proof. reflexivity. Qed.

(** On an ascending ladder the loop of `checkExitConditions` stops at
    the smallest rung that the profit has reached and that
    `partialSells` does not list. *)
Lemma partialSellRung_smallest (pnl : Q) (sold : option (list Q))
    (ladder : list Q) :
  StronglySorted Qle ladder ->
  match partialSellRung (Some (Fin pnl)) sold ladder with
  | Some (PartialSellAt rung) =>
    In rung ladder /\ (rung <= pnl)%Q /\ notSold sold rung = true
    /\ forall other, In other ladder -> (other <= pnl)%Q ->
                     notSold sold other = true -> (rung <= other)%Q
  | Some _ => False
  | None =>
    forall other, In other ladder ->
                  ~ ((other <= pnl)%Q /\ notSold sold other = true)
  end.
Proof.
  induction 1 as [|rung rest Hsorted IH Hall]; simpl.
  - intros other [].
  - destruct (Qle_bool rung pnl) eqn:Hreached; simpl.
    + destruct (notSold sold rung) eqn:Hsold; simpl.
      * apply Qle_bool_iff in Hreached.
        repeat split; auto.
        intros other [<-|Hin] _ _; [apply Qle_refl|].
        rewrite List.Forall_forall in Hall. now apply Hall.
      * destruct (partialSellRung (Some (Fin pnl)) sold rest)
          as [[| | | |r]|]; try contradiction.
        -- destruct IH as (Hin & Hle & Hns & Hmin).
           repeat split; auto.
           intros other [<-|Hother] Ho Hn; [congruence|].
           now apply Hmin.
        -- intros other [<-|Hother] [Ho Hn]; [congruence|].
           apply (IH other Hother). now split.
    + apply Qle_bool_false in Hreached.
      destruct (partialSellRung (Some (Fin pnl)) sold rest)
        as [[| | | |r]|]; try contradiction.
      * destruct IH as (Hin & Hle & Hns & Hmin).
        repeat split; auto.
        intros other [<-|Hother] Ho Hn.
        -- exfalso. exact (Qlt_not_le _ _ Hreached Ho).
        -- now apply Hmin.
      * intros other [<-|Hother] [Ho Hn].
        -- exact (Qlt_not_le _ _ Hreached Ho).
        -- apply (IH other Hother). now split.
Qed.

(** C3, as the code has it. For every position whose strategy is
    configured and whose profit percentage is known, with stop-losses
    and profit-taking enabled and an ascending ladder, the exit decision
    of a tick is the first match of: (1) stop-loss when
    pnlPercent < -stopLossThreshold (strictly); (2) profit target when
    pnlPercent >= sellThreshold; (3) max hold time when
    now - entryTime > maxHoldTime; (4) when partial sells are enabled,
    the smallest rung that pnlPercent has reached and that
    `partialSells` does not list; otherwise there is no exit. Under the
    aggressive strategy of the default configuration, at 50 per cent
    the profit target wins over the 50 rung and the reason is
    "Profit threshold reached". *)
Theorem checkExitConditions_priority
    (cfg : TransitionConfig) (position : TradePosition)
    (s : TransitionStrategy) (pnl : Q) (now : Z) :
  strategies cfg !! strategy position = Some s ->
  enableStopLosses cfg = true -> enableProfitTaking cfg = true ->
  profitLossPercent position = Some (Fin pnl) ->
  StronglySorted Qle (partialSellPercentages s) ->
  let decision := checkExitConditions cfg position now in
  ((pnl < - stopLossThreshold s)%Q -> decision = Some StopLossTriggered)
  /\ (~ (pnl < - stopLossThreshold s)%Q ->
      ((sellThreshold s <= pnl)%Q ->
       decision = Some ProfitThresholdReached)
      /\ (~ (sellThreshold s <= pnl)%Q ->
          (maxHoldTime s < now - entryTime position ->
           decision = Some MaxHoldTimeReached)
          /\ (~ maxHoldTime s < now - entryTime position ->
              (enablePartialSells s = false -> decision = None)
              /\ (enablePartialSells s = true ->
                  match decision with
                  | Some (PartialSellAt rung) =>
                    In rung (partialSellPercentages s)
                    /\ (rung <= pnl)%Q
                    /\ notSold (partialSells position) rung = true
                    /\ forall other,
                         In other (partialSellPercentages s) ->
                         (other <= pnl)%Q ->
                         notSold (partialSells position) other = true ->
                         (rung <= other)%Q
                  | Some _ => False
                  | None =>
                    forall other,
                      In other (partialSellPercentages s) ->
                      ~ ((other <= pnl)%Q
                         /\ notSold (partialSells position) other = true)
                  end))))
  /\ (forall entryTime clock,
        let aggressiveAt50 := positionAt "aggressive" entryTime 50 in
        checkExitConditions defaultTransitionConfig aggressiveAt50 clock
        = Some ProfitThresholdReached
        /\ candidateRung 50 [] 50 = true
        /\ reasonText ProfitThresholdReached = "Profit threshold reached").
Proof.
  intros Hs Hstop Hprofit Hpnl Hsorted decision. subst decision.
  unfold checkExitConditions. rewrite Hs, Hstop, Hprofit, Hpnl. simpl.
  split; [|split].
  - intros H. apply Qlt_bool_iff in H. now rewrite H.
  - intros H. assert (Qlt_bool pnl (- stopLossThreshold s) = false) as ->.
    { destruct (Qlt_bool pnl (- stopLossThreshold s)) eqn:E; auto.
      apply Qlt_bool_iff in E. contradiction. }
    split.
    + intros Hp. apply Qle_bool_iff in Hp. now rewrite Hp.
    + intros Hp. assert (Qle_bool (sellThreshold s) pnl = false) as ->.
      { destruct (Qle_bool (sellThreshold s) pnl) eqn:E; auto.
        apply Qle_bool_iff in E. contradiction. }
      split.
      * intros Hh. apply Z.ltb_lt in Hh. now rewrite Hh.
      * intros Hh. apply Z.ltb_nlt in Hh. rewrite Hh.
        split; intros ->; [reflexivity|].
        apply partialSellRung_smallest. exact Hsorted.
  - intros entryTime clock. repeat split.
Qed.

Lemma aggressive_ladder_ascending :
  StronglySorted Qle (partialSellPercentages aggressive).
Proof.
  repeat constructor; discriminate.
Qed.

Lemma checkExitConditions_priority_witness :
  checkExitConditions defaultTransitionConfig
                      (positionAt "aggressive" 5000 (-25)) 6000
  = Some StopLossTriggered.
Proof.
  refine (proj1 (checkExitConditions_priority defaultTransitionConfig
                   (positionAt "aggressive" 5000 (-25)) aggressive
                   (-25)%Q 6000 _ _ _ _ _) _).
  - reflexivity.
  - reflexivity.
  - reflexivity.
  - reflexivity.
  - exact aggressive_ladder_ascending.
  - reflexivity.
Defined.

(** C3, as stated, fails at the stop-loss boundary: an aggressive
    position (stop-loss 20) at exactly -20 per cent, one second after
    entry, is an exit by stop-loss in the words of the specification,
    and no exit at all for `checkExitConditions`. *)
Lemma exit_priority_as_stated_fails :
  let position := positionAt "aggressive" 5000 (-20) in
  exitDecision_spec aggressive (-20) 6000 5000 []
  = Some StopLossTriggered
  /\ checkExitConditions defaultTransitionConfig position 6000 = None
  /\ checkExitConditions defaultTransitionConfig position 6000
     <> exitDecision_spec aggressive (-20) 6000 5000 [].
Proof.
  cbv zeta. repeat split. discriminate.
Qed.

End ExitPriority.

Module Crossing.
Import JS JSFacts Detector.

Lemma detections_app (t1 t2 : list DetectorEvent) :
  detections (t1 ++ t2) = (detections t1 + detections t2)%nat.
Proof.
  unfold detections. now rewrite List.filter_app, length_app.
Qed.

Lemma crossing_migrated cfg tokenData migrationStatus :
  isMigrated tokenData = true ->
  crossing cfg tokenData migrationStatus = false.
Proof.
  intros H. unfold crossing. now rewrite H.
Qed.

(** A token whose flag is set is not evaluated for crossing: a tick
    returns it unchanged and emits only the status update. *)
Lemma checkToken_migrated cfg tokenAddress tokenData previousStatus o :
  isMigrated tokenData = true ->
  checkToken cfg tokenAddress tokenData previousStatus o = caught
  \/ exists migrationStatus,
       checkToken cfg tokenAddress tokenData previousStatus o
       = done_with (migrationStatus, tokenData,
                    [statusUpdate tokenAddress migrationStatus
                                  previousStatus]).
Proof.
  intros H. unfold checkToken. destruct (market o) as [data|]; [|now left].
  right. rewrite crossing_migrated by exact H. eauto.
Qed.

Lemma firingTicks_migrated cfg tokenAddress tokenData ticks :
  isMigrated tokenData = true ->
  forall previousStatus k,
    firingTicks cfg tokenAddress tokenData previousStatus k ticks = [].
Proof.
  intros H. induction ticks as [|o rest IH]; intros previousStatus k;
    [reflexivity|].
  simpl.
  destruct (checkToken_migrated cfg tokenAddress tokenData previousStatus
                                o H) as [->|[migrationStatus ->]].
  - apply IH.
  - simpl. apply IH.
Qed.

Lemma runTicks_migrated cfg tokenAddress tokenData ticks :
  isMigrated tokenData = true ->
  forall previousStatus,
    detections (snd (runTicks cfg tokenAddress tokenData previousStatus
                              ticks)) = 0%nat.
Proof.
  intros H. induction ticks as [|o rest IH]; intros previousStatus;
    [reflexivity|].
  simpl.
  destruct (checkToken_migrated cfg tokenAddress tokenData previousStatus
                                o H) as [->|[migrationStatus ->]].
  - apply IH.
  - specialize (IH (Some migrationStatus)).
    destruct (runTicks cfg tokenAddress tokenData (Some migrationStatus)
                       rest) as [final later].
    simpl in *. exact IH.
Qed.

(** What a handler that runs to its end leaves behind: either nothing,
    or the flag set and one event. *)
Lemma finishMigrationEvent_cases tokenAddress tokenData migrationStatus
    blockNumber eventTime :
  let '(tokenData', fired) :=
    finishMigrationEvent tokenAddress tokenData migrationStatus
                         blockNumber eventTime in
  (tokenData' = tokenData /\ fired = [])
  \/ (isMigrated tokenData' = true /\ detections fired = 1%nat).
Proof.
  destruct blockNumber; simpl; auto.
Qed.

(** When every tick returns before the next one starts, one token gives
    at most one `migrationDetected`, whatever the ticks read. *)
Lemma runTicks_at_most_once cfg tokenAddress ticks :
  forall tokenData previousStatus,
    (detections (snd (runTicks cfg tokenAddress tokenData previousStatus
                               ticks)) <= 1)%nat.
Proof.
  induction ticks as [|o rest IH]; intros tokenData previousStatus;
    [unfold detections; simpl; lia|].
  simpl. unfold checkToken.
  destruct (market o) as [data|]; [|apply IH].
  set (migrationStatus := calculateMigrationStatus cfg tokenData data (now o)).
  destruct (crossing cfg tokenData migrationStatus).
  - unfold handleMigrationEvent.
    destruct (waitForConfirmation cfg (polls o)) as [[|blockNumber left]|];
      try (unfold detections; simpl; lia).
    pose proof (finishMigrationEvent_cases tokenAddress tokenData
                  migrationStatus blockNumber (eventTime o)) as Hcases.
    destruct (finishMigrationEvent tokenAddress tokenData migrationStatus
                blockNumber (eventTime o)) as [tokenData' fired].
    destruct Hcases as [[-> ->]|[Hflag Hone]].
    + specialize (IH tokenData (Some migrationStatus)).
      destruct (runTicks cfg tokenAddress tokenData (Some migrationStatus)
                         rest) as [final later].
      simpl in *. exact IH.
    + pose proof (runTicks_migrated cfg tokenAddress tokenData' rest Hflag
                    (Some migrationStatus)) as Hlater.
      destruct (runTicks cfg tokenAddress tokenData'
                         (Some migrationStatus) rest) as [final later].
      simpl in *. rewrite !detections_app, Hone, Hlater. simpl. lia.
  - specialize (IH tokenData (Some migrationStatus)).
    destruct (runTicks cfg tokenAddress tokenData (Some migrationStatus)
                       rest) as [final later].
    simpl in *. exact IH.
Qed.

(** A tick that reads a market cap below the threshold, or cannot read
    it, leaves the token alone. *)
Lemma checkToken_below cfg tokenAddress tokenData previousStatus o :
  below cfg o ->
  checkToken cfg tokenAddress tokenData previousStatus o = caught
  \/ exists migrationStatus,
       checkToken cfg tokenAddress tokenData previousStatus o
       = done_with (migrationStatus, tokenData,
                    [statusUpdate tokenAddress migrationStatus
                                  previousStatus]).
Proof.
  intros H. unfold checkToken. destruct (market o) as [data|] eqn:E;
    [|now left].
  right. specialize (H data E). apply Qle_bool_false in H.
  unfold crossing. simpl. rewrite H, andb_false_r. eauto.
Qed.

(** C2, as stated, fails on both scenarios of the specification. With
    threshold 18 and three confirmations, the readings 17.6, 17.9,
    18.2, 18.3, 18.4 fire the event in tick 3, the first tick at or
    above 18, and not in tick 5; and when tick 4 regresses to 17.9 the
    event has fired in tick 3 all the same, although no three
    consecutive ticks were at or above 18. *)
Lemma confirmation_window_as_stated_fails :
  firingTicks loadMigrationConfig Scenario.tokenAddress Scenario.token0
              None 1 Scenario.scenarioA = [3%nat]
  /\ firingTicks loadMigrationConfig Scenario.tokenAddress Scenario.token0
                 None 1 Scenario.scenarioA <> [5%nat]
  /\ firingTicks loadMigrationConfig Scenario.tokenAddress Scenario.token0
                 None 1 Scenario.scenarioB = [3%nat].
Proof.
  repeat split. discriminate.
Qed.

(** The timer model agrees with `checkTokenMigration` when nothing
    overlaps: a tick on a token with no suspended handler, followed at
    once by the resumption of the handler it may have started, leaves
    the token and the emissions of `checkToken`. *)
Lemma tick_then_confirm_is_checkToken cfg (a : Asset) previousStatus
    (o : TickOracle) data blockNumber unread :
  awaiting a = [] ->
  market o = Some data ->
  waitForConfirmation cfg (polls o) = Some (blockNumber :: unread) ->
  let a' := schedule cfg a [timerTick (market o) (now o);
                            confirmed blockNumber (eventTime o)] in
  exists migrationStatus fired,
    checkToken cfg (address (token a)) (token a) previousStatus o
    = done_with (migrationStatus, token a',
                 fired ++ [statusUpdate (address (token a))
                                        migrationStatus previousStatus])
    /\ trace a' = trace a ++ fired
    /\ awaiting a' = [].
Proof.
  intros Hnone Hmarket Hwait. cbv zeta.
  unfold schedule, checkToken, handleMigrationEvent. simpl.
  rewrite Hmarket, Hwait.
  destruct (crossing cfg (token a)
              (calculateMigrationStatus cfg (token a) data (now o))) eqn:E.
  - simpl. rewrite Hnone. simpl.
    destruct (finishMigrationEvent (address (token a)) (token a)
                (calculateMigrationStatus cfg (token a) data (now o))
                blockNumber (eventTime o)) as [tokenData' fired] eqn:F.
    simpl. eexists _, fired. repeat split.
  - simpl. rewrite Hnone. eexists _, []. repeat split.
    + now rewrite app_nil_r.
    + exact Hnone.
Qed.

Lemma schedule_app cfg a actions1 actions2 :
  schedule cfg a (actions1 ++ actions2)
  = schedule cfg (schedule cfg a actions1) actions2.
Proof. unfold schedule. apply fold_left_app. Qed.

(** Ticks that read a market cap at or above the threshold while the
    flag is unset each start a handler, and leave the flag unset. *)
Lemma ticks_start_handlers cfg (readings : list (MarketData * Z)) :
  List.Forall
    (fun r => (migrationThreshold cfg <= marketCap (fst r))%Q) readings ->
  forall a,
    isMigrated (token a) = false ->
    let a' :=
      schedule cfg a
        (map (fun r => timerTick (Some (fst r)) (snd r)) readings) in
    token a' = token a
    /\ length (awaiting a')
       = (length (awaiting a) + length readings)%nat
    /\ trace a' = trace a.
Proof.
  induction 1 as [|[data now] readings Hcap Hrest IH]; intros a Hflag.
  - simpl. repeat split. lia.
  - cbv zeta. simpl map. unfold schedule. simpl fold_left.
    unfold crossing. rewrite Hflag. simpl in Hcap.
    apply Qle_bool_iff in Hcap. simpl currentMarketCap. rewrite Hcap.
    simpl negb. simpl andb.
    match goal with
    | |- context [fold_left (act cfg) _ ?a1] =>
      destruct (IH a1 Hflag) as (Htoken & Hawaiting & Htrace)
    end.
    unfold schedule in Htoken, Hawaiting, Htrace.
    rewrite Htoken, Hawaiting, Htrace. simpl. rewrite length_app. simpl.
    repeat split. lia.
Qed.

(** Each suspended handler that is resumed, and can read the block
    number, emits. *)
Lemma resumed_handlers_emit cfg (confirmations : list (Z * Z)) :
  forall a,
    (length confirmations <= length (awaiting a))%nat ->
    let a' :=
      schedule cfg a
        (map (fun c => confirmed (Some (fst c)) (snd c)) confirmations) in
    detections (trace a')
    = (detections (trace a) + length confirmations)%nat
    /\ (confirmations <> [] -> isMigrated (token a') = true).
Proof.
  induction confirmations as [|[block eventTime] confirmations IH];
    intros a Hlen.
  - simpl. split; [lia|congruence].
  - cbv zeta. simpl map. unfold schedule. simpl fold_left.
    destruct (awaiting a) as [|migrationStatus rest] eqn:E;
      [simpl in Hlen; lia|].
    simpl in Hlen.
    match goal with
    | |- context [fold_left (act cfg) _ ?a1] =>
      destruct (IH a1) as (Hcount & Hflag); [simpl; lia|]
    end.
    unfold schedule in Hcount, Hflag. rewrite Hcount. simpl trace.
    rewrite detections_app. split; [unfold detections at 2; simpl; lia|].
    intros _. destruct confirmations as [|c confirmations].
    + reflexivity.
    + apply Hflag. discriminate.
Qed.

(** C1 on the failing inputs: the timer fires n times, each tick
    reading a market cap at or above the threshold, before the
    confirmation blocks of the first handler are mined. Each tick finds
    the flag unset and starts a handler; each handler, once resumed,
    emits: `migrationDetected` is emitted n times for the one asset,
    all but the first with the flag already set. *)
Theorem migrationDetected_once_per_overlapping_tick
    (cfg : MigrationDetectorConfig) (a : Asset)
    (readings : list (MarketData * Z)) (confirmations : list (Z * Z)) :
  isMigrated (token a) = false ->
  awaiting a = [] ->
  List.Forall
    (fun r => (migrationThreshold cfg <= marketCap (fst r))%Q) readings ->
  length confirmations = length readings ->
  let ticks := map (fun r => timerTick (Some (fst r)) (snd r)) readings in
  let resumptions :=
    map (fun c => confirmed (Some (fst c)) (snd c)) confirmations in
  detections (trace (schedule cfg a (ticks ++ resumptions)))
  = (detections (trace a) + length readings)%nat.
Proof.
  intros Hflag Hnone Hcaps Hlen. cbv zeta. rewrite schedule_app.
  destruct (ticks_start_handlers cfg readings Hcaps a Hflag)
    as (Htoken & Hawaiting & Htrace).
  rewrite Hnone in Hawaiting. simpl in Hawaiting.
  match goal with
  | |- context [schedule cfg ?a1 (map _ confirmations)] =>
    destruct (resumed_handlers_emit cfg confirmations a1) as [Hcount _];
      [lia|]
  end.
  rewrite Hcount, Htrace. lia.
Qed.

Lemma migrationDetected_once_per_overlapping_tick_witness :
  detections (trace (schedule loadMigrationConfig Scenario.asset0
                              Scenario.overlappingTicks)) = 2%nat.
Proof.
  refine (migrationDetected_once_per_overlapping_tick loadMigrationConfig
            Scenario.asset0
            [(Scenario.reading 18.2, 1000); (Scenario.reading 18.3, 2000)]
            [(103, 10000); (104, 11000)] _ _ _ _).
  - reflexivity.
  - reflexivity.
  - repeat constructor; discriminate.
  - reflexivity.
Defined.

End Crossing.

Module Registration.
Import Detector.

(** A monitored address has exactly one entry. *)
Lemma entriesFor_monitored (tokens : gmap string TokenData)
    (tokenAddress : string) (tokenData : TokenData) :
  tokens !! tokenAddress = Some tokenData ->
  entriesFor tokenAddress tokens = 1%nat.
Proof.
  intros H. unfold entriesFor.
  rewrite <- (map_to_list_delete tokens tokenAddress tokenData H).
  rewrite filter_cons_True by reflexivity. simpl. f_equal.
  apply length_zero_iff_nil.
  destruct (filter (λ kv, kv.1 = tokenAddress)
                   (map_to_list (delete tokenAddress tokens)))
    as [|[k v] rest] eqn:E; [reflexivity|].
  exfalso.
  assert ((k, v) ∈ filter (λ kv : string * TokenData, kv.1 = tokenAddress)
                     (map_to_list (delete tokenAddress tokens))) as Hin
    by (rewrite E; left).
  apply list_elem_of_filter in Hin. destruct Hin as [Hk Hin]. simpl in Hk.
  subst k. apply elem_of_map_to_list in Hin.
  rewrite lookup_delete_eq in Hin. discriminate.
Qed.

Lemma entriesFor_unmonitored (tokens : gmap string TokenData)
    (tokenAddress : string) :
  tokens !! tokenAddress = None ->
  entriesFor tokenAddress tokens = 0%nat.
Proof.
  intros H. unfold entriesFor. apply length_zero_iff_nil.
  destruct (filter (λ kv, kv.1 = tokenAddress) (map_to_list tokens))
    as [|[k v] rest] eqn:E; [reflexivity|].
  exfalso.
  assert ((k, v) ∈ filter (λ kv : string * TokenData, kv.1 = tokenAddress)
                     (map_to_list tokens)) as Hin
    by (rewrite E; left).
  apply list_elem_of_filter in Hin. destruct Hin as [Hk Hin]. simpl in Hk.
  subst k. apply elem_of_map_to_list in Hin. congruence.
Qed.

(** Re-adding a monitored address returns at once and writes nothing. *)
Lemma addToken_monitored cfg st tokenAddress fetch data now :
  is_Some (monitoredTokens st !! tokenAddress) ->
  addToken cfg st tokenAddress fetch data now = (returned, st).
Proof.
  intros [tokenData H]. unfold addToken. now rewrite H.
Qed.

(** A call that returns leaves the address monitored. *)
Lemma addToken_returned cfg st tokenAddress fetch data now :
  fst (addToken cfg st tokenAddress fetch data now) = returned ->
  is_Some (monitoredTokens
             (snd (addToken cfg st tokenAddress fetch data now))
           !! tokenAddress).
Proof.
  unfold addToken.
  destruct (monitoredTokens st !! tokenAddress) as [tokenData|] eqn:E;
    simpl.
  - intros _. rewrite E. eauto.
  - destruct (maxTokensToMonitor cfg <=? _); simpl; [discriminate|].
    destruct fetch as [meta|]; simpl; [|discriminate].
    destruct data as [data|]; simpl; [|discriminate].
    intros _. rewrite lookup_insert_eq. eauto.
Qed.

(** At the cap, a new address is refused and nothing is written. *)
Lemma addToken_at_capacity cfg st tokenAddress fetch data now :
  monitoredTokens st !! tokenAddress = None ->
  maxTokensToMonitor cfg <= Z.of_nat (size (monitoredTokens st)) ->
  addToken cfg st tokenAddress fetch data now
  = (thrown (MonitoringLimitReached (maxTokensToMonitor cfg)), st).
Proof.
  intros Hnew Hfull. unfold addToken. rewrite Hnew.
  apply Z.leb_le in Hfull. now rewrite Hfull.
Qed.

Lemma addToken_withinCap cfg st tokenAddress fetch data now :
  withinCap cfg st ->
  withinCap cfg (snd (addToken cfg st tokenAddress fetch data now)).
Proof.
  unfold withinCap, addToken. intros H.
  destruct (monitoredTokens st !! tokenAddress) as [tokenData|] eqn:E;
    simpl; [exact H|].
  destruct (maxTokensToMonitor cfg <=? _) eqn:Hcap; simpl; [exact H|].
  apply Z.leb_gt in Hcap.
  destruct fetch as [meta|]; simpl; [|exact H].
  destruct data as [data|]; simpl;
    rewrite map_size_insert_None by exact E; lia.
Qed.

Lemma removeToken_withinCap cfg st tokenAddress :
  withinCap cfg st -> withinCap cfg (removeToken st tokenAddress).
Proof.
  unfold withinCap, removeToken. simpl. intros H.
  rewrite map_size_delete.
  destruct (monitoredTokens st !! tokenAddress); simpl; lia.
Qed.

Lemma alter_size (tokens : gmap string TokenData) f tokenAddress :
  size (alter f tokenAddress tokens) = size tokens.
Proof.
  rewrite <- !(size_dom (D := gset string)). now rewrite dom_alter_L.
Qed.

Lemma checkTokenMigration_withinCap cfg st tokenAddress tokenData o st' :
  checkTokenMigration cfg st tokenAddress tokenData o = Some st' ->
  withinCap cfg st -> withinCap cfg st'.
Proof.
  unfold checkTokenMigration, withinCap.
  destruct (checkToken cfg tokenAddress tokenData _ o)
    as [| |[[migrationStatus tokenData'] fired]]; [discriminate| |].
  - now intros [= <-].
  - intros [= <-]. simpl. now rewrite alter_size.
Qed.

Lemma checkEach_withinCap cfg oracle entries :
  forall st st', checkEach cfg oracle entries st = Some st' ->
                 withinCap cfg st -> withinCap cfg st'.
Proof.
  induction entries as [|[tokenAddress tokenData] rest IH];
    intros st st'; simpl.
  - now intros [= <-].
  - destruct (monitoredTokens st !! tokenAddress) as [current|];
      [|apply IH].
    destruct (checkTokenMigration cfg st tokenAddress current
                                  (oracle tokenAddress)) as [st1|] eqn:E;
      [|discriminate].
    intros Hrest Hcap. apply (IH st1 st' Hrest).
    eapply checkTokenMigration_withinCap; eassumption.
Qed.

Lemma apply_withinCap cfg st op st' :
  apply cfg st op = Some st' -> withinCap cfg st -> withinCap cfg st'.
Proof.
  destruct op as [tokenAddress fetch data now|tokenAddress|oracle]; simpl.
  - intros [= <-]. apply addToken_withinCap.
  - intros [= <-]. apply removeToken_withinCap.
  - apply checkEach_withinCap.
Qed.

(** Whatever is called, in whatever order, the monitored set stays
    within the cap. *)
Lemma run_withinCap cfg ops :
  forall st st', run cfg st ops = Some st' ->
                 withinCap cfg st -> withinCap cfg st'.
Proof.
  induction ops as [|op rest IH]; intros st st'; simpl.
  - now intros [= <-].
  - destruct (apply cfg st op) as [st1|] eqn:E; [|discriminate].
    intros Hrest Hcap. apply (IH st1 st' Hrest).
    eapply apply_withinCap; eassumption.
Qed.

(** Registration when every call runs to its end before the next one
    starts. A call of `addToken` that returns leaves exactly one
    monitored entry for the address, and any further `addToken` of that
    address returns without an error and leaves the state as it is. A
    call for a new address when the monitored set already holds
    `maxTokensToMonitor` entries throws the capacity error and leaves
    the state as it is. So, from a state within the cap, no such
    sequence of registrations, removals and ticks takes the number of
    monitored tokens above the cap. (Calls that overlap do:
    [RegistrationRaces].) *)
Lemma addToken_idempotent_and_capped
    (cfg : MigrationDetectorConfig) (st : State) (tokenAddress : string)
    (fetch : option TokenMeta) (data : option MarketData) (now : Z) :
  let first := addToken cfg st tokenAddress fetch data now in
  (fst first = returned ->
   entriesFor tokenAddress (monitoredTokens (snd first)) = 1%nat
   /\ forall fetch' data' now',
        addToken cfg (snd first) tokenAddress fetch' data' now'
        = (returned, snd first))
  /\ (monitoredTokens st !! tokenAddress = None ->
      maxTokensToMonitor cfg <= Z.of_nat (size (monitoredTokens st)) ->
      first = (thrown (MonitoringLimitReached (maxTokensToMonitor cfg)),
               st))
  /\ (Z.of_nat (size (monitoredTokens st)) <= maxTokensToMonitor cfg ->
      Z.of_nat (size (monitoredTokens (snd first)))
      <= maxTokensToMonitor cfg
      /\ forall ops st',
           run cfg st ops = Some st' ->
           Z.of_nat (size (monitoredTokens st')) <= maxTokensToMonitor cfg).
Proof.
  cbv zeta. split; [|split].
  - intros Hreturned.
    destruct (addToken_returned cfg st tokenAddress fetch data now
                                Hreturned) as [tokenData Hmonitored].
    split.
    + eapply entriesFor_monitored; eassumption.
    + intros fetch' data' now'. apply addToken_monitored. eauto.
  - apply addToken_at_capacity.
  - intros Hcap. split.
    + now apply addToken_withinCap.
    + intros ops st' Hrun. exact (run_withinCap cfg ops st st' Hrun Hcap).
Qed.

End Registration.

Module RiskCaps.
Import JS Transition.

(** The concurrency cap is enforced: with `maxConcurrentTrades` entries
    in the active map, a migration event changes nothing. *)
Lemma handleMigrationEvent_at_max cfg st migrationEvent o :
  maxConcurrentTrades cfg <= JSMap.size (activePositions st) ->
  handleMigrationEvent cfg st migrationEvent o = st.
Proof.
  intros H. unfold handleMigrationEvent. apply Z.leb_le in H.
  now rewrite H.
Qed.

(** `maxTotalExposure` is loaded and never read: the outcome of a
    migration event is the same whatever its value. *)
Lemma handleMigrationEvent_ignores_exposure cfg cap st migrationEvent o :
  handleMigrationEvent (withExposure cfg cap) st migrationEvent o
  = handleMigrationEvent cfg st migrationEvent o.
Proof. reflexivity. Qed.

Lemma get_set {V : Type} (m : list (string * V)) k v :
  JSMap.get (JSMap.set m k v) k = Some v.
Proof.
  induction m as [|[k' v'] rest IH]; simpl.
  - now rewrite String.eqb_refl.
  - destruct (String.eqb k' k) eqn:E; simpl.
    + now rewrite String.eqb_refl.
    + now rewrite E.
Qed.

(** C4 on the failing inputs: whenever the active map holds fewer than
    `maxConcurrentTrades` entries and the buy succeeds, a migration
    event opens an ACTIVE position of the strategy's buy amount, also
    when the exposure of the open positions plus that amount is above
    `maxTotalExposure`. *)
Theorem position_opened_beyond_exposure_cap
    (cfg : TransitionConfig) (st : State)
    (migrationEvent : Detector.MigrationEvent) (o : BuyOracle)
    (liquidityBNB : Q) (s : TransitionStrategy)
    (amountOut : Z) (swapGas : option Z) :
  maxTotalExposure cfg < exposure st + buyAmount s ->
  JSMap.size (activePositions st) < maxConcurrentTrades cfg ->
  swapData o = Some liquidityBNB ->
  insufficientLiquidity cfg liquidityBNB = false ->
  strategies cfg !! defaultStrategy cfg = Some s ->
  buy o = swapSucceeds amountOut swapGas ->
  let st' := handleMigrationEvent cfg st migrationEvent o in
  let positionId :=
    generatePositionId (buyClock o) (positionCounter st + 1) in
  exists position,
    JSMap.get (activePositions st') positionId = Some position
    /\ status position = ACTIVE
    /\ entryAmount position = buyAmount s
    /\ events st' = events st ++ [transitionExecuted positionId].
Proof.
  intros _ Hcount Hdata Hliquidity Hstrategy Hbuy. cbv zeta.
  unfold handleMigrationEvent, executeTransitionStrategy.
  apply Z.leb_gt in Hcount.
  rewrite Hcount, Hdata, Hliquidity, Hstrategy, Hbuy. simpl.
  rewrite get_set. eexists. repeat split.
Qed.

Lemma position_opened_beyond_exposure_cap_witness :
  let cfg := Scenario.lowExposureConfig in
  let st :=
    handleMigrationEvent cfg initial Scenario.crossed Scenario.buyOk in
  maxTotalExposure cfg < exposure initial + buyAmount aggressive
  /\ exists position,
       JSMap.get (activePositions st) Scenario.positionId = Some position
       /\ status position = ACTIVE
       /\ entryAmount position = buyAmount aggressive
       /\ events st = [transitionExecuted Scenario.positionId].
Proof.
  cbv zeta. split; [reflexivity|].
  refine (position_opened_beyond_exposure_cap Scenario.lowExposureConfig
            initial Scenario.crossed Scenario.buyOk 18.2%Q aggressive
            1000000 None _ _ _ _ _ _); reflexivity.
Defined.

End RiskCaps.

Module ExitRetries.
Import JS Transition.

Lemma exitAttempts_app positionId (t1 t2 : list Event) :
  exitAttempts positionId (t1 ++ t2)
  = (exitAttempts positionId t1 + exitAttempts positionId t2)%nat.
Proof.
  unfold exitAttempts. now rewrite List.filter_app, length_app.
Qed.

Lemma exitAttempts_repeat positionId reason n :
  exitAttempts positionId (repeat (exitAttempt positionId reason) n) = n.
Proof.
  unfold exitAttempts. induction n as [|n IH]; [reflexivity|].
  simpl. rewrite String.eqb_refl. simpl. now rewrite IH.
Qed.

(** When each of the given ticks leaves a state as it found it, apart
    from one more entry in the trace, so does their succession. *)
Lemma monitorTicks_stuck cfg (st : State) (e : Event)
    (oracles : list (string -> PositionTick)) :
  List.Forall
    (fun oracle =>
       forall trace,
         monitorPositions cfg oracle (withEvents st trace)
         = withEvents st (trace ++ [e])) oracles ->
  forall trace,
    monitorTicks cfg oracles (withEvents st trace)
    = withEvents st (trace ++ repeat e (length oracles)).
Proof.
  induction 1 as [|oracle rest Hstuck Hrest IH]; intros trace.
  - simpl. now rewrite app_nil_r.
  - change (monitorTicks cfg (oracle :: rest) (withEvents st trace))
      with (monitorTicks cfg rest
              (monitorPositions cfg oracle (withEvents st trace))).
    rewrite Hstuck, IH. simpl. now rewrite <- app_assoc.
Qed.

(** C5 on the failing input: an aggressive position at -50 per cent
    (below its stop-loss) whose sell answers `success: false` at every
    tick, the ticks being at any clocks. The first failure marks it
    STOPPED, but it stays in the active map and the loop looks at no
    status: after n ticks, n exits have been attempted, for every n;
    three failures do not end it. *)
Theorem failed_exit_retried_every_tick (clocks : list Z) :
  let failing :=
    Scenario.monitorTick (Scenario.priceAt (-50)) swapFails in
  let st :=
    monitorTicks defaultTransitionConfig (map failing clocks)
                 Scenario.opened in
  exitAttempts Scenario.positionId (events st) = length clocks
  /\ map fst (activePositions st) = [Scenario.positionId]
  /\ completedPositions st = []
  /\ (clocks <> [] ->
      map (fun kv => status (snd kv)) (activePositions st) = [STOPPED]).
Proof.
  cbv zeta. destruct clocks as [|c clocks]; [repeat split; congruence|].
  set (failing := Scenario.monitorTick (Scenario.priceAt (-50)) swapFails).
  set (stopped := monitorPositions defaultTransitionConfig (failing 0)
                                   Scenario.opened).
  change (monitorTicks defaultTransitionConfig (map failing (c :: clocks))
                       Scenario.opened)
    with (monitorTicks defaultTransitionConfig (map failing clocks)
            (monitorPositions defaultTransitionConfig (failing c)
                              Scenario.opened)).
  assert (monitorPositions defaultTransitionConfig (failing c)
                           Scenario.opened
          = withEvents stopped (events stopped)) as ->
    by (vm_compute; reflexivity).
  rewrite (monitorTicks_stuck defaultTransitionConfig stopped
             (exitAttempt Scenario.positionId StopLossTriggered)).
  - simpl. rewrite exitAttempts_app, exitAttempts_repeat, length_map.
    repeat split.
  - apply List.Forall_forall. intros oracle Hin.
    apply in_map_iff in Hin. destruct Hin as (c' & <- & _).
    intros trace. vm_compute. reflexivity.
Qed.

Lemma failed_exit_retried_every_tick_witness :
  let failing :=
    Scenario.monitorTick (Scenario.priceAt (-50)) swapFails in
  let st :=
    monitorTicks defaultTransitionConfig
                 [failing 10000; failing 15000; failing 20000;
                  failing 25000]
                 Scenario.opened in
  exitAttempts Scenario.positionId (events st) = 4%nat
  /\ map (fun kv => status (snd kv)) (activePositions st) = [STOPPED].
Proof.
  cbv zeta.
  destruct (failed_exit_retried_every_tick [10000; 15000; 20000; 25000])
    as (Hn & _ & _ & Hstatus).
  split; [exact Hn|]. apply Hstatus. discriminate.
Defined.

End ExitRetries.

Module LadderRungs.
Import JS Transition ExitRetries.

(** Nothing writes `partialSells`: the three ways a stored position is
    rewritten keep it, and a new position has none. *)
Lemma partialSells_kept position currentPrice reason exitClock sellGas :
  partialSells (updatePositionStatus position currentPrice)
  = partialSells position
  /\ partialSells (close position reason exitClock sellGas)
     = partialSells position
  /\ partialSells (stop position) = partialSells position.
Proof. repeat split. Qed.

Lemma partialSells_new migrationEvent amountIn amountOut strategy
    positionId clock :
  partialSells (createPosition migrationEvent amountIn amountOut strategy
                               positionId clock) = None.
Proof. reflexivity. Qed.

(** So no rung is ever held back: the test
    `!position.partialSells?.includes(percentage)` is true. *)
Lemma notSold_always percentage : notSold None percentage = true.
Proof. reflexivity. Qed.

Lemma unsold_set m k v :
  List.Forall unsold m -> partialSells v = None ->
  List.Forall unsold (JSMap.set m k v).
Proof.
  intros Hm Hv. induction Hm as [|[k' v'] rest Hhead Hrest IH]; simpl.
  - repeat constructor. exact Hv.
  - destruct (String.eqb k' k); constructor; auto.
Qed.

Lemma unsold_update m k v :
  List.Forall unsold m -> partialSells v = None ->
  List.Forall unsold (JSMap.update m k v).
Proof.
  intros Hm Hv. induction Hm as [|[k' v'] rest Hhead Hrest IH]; simpl.
  - constructor.
  - destruct (String.eqb k' k); constructor; auto.
Qed.

Lemma unsold_delete m k :
  List.Forall unsold m -> List.Forall unsold (JSMap.delete m k).
Proof.
  intros Hm. induction Hm as [|[k' v'] rest Hhead Hrest IH]; simpl.
  - constructor.
  - destruct (String.eqb k' k); [exact IH|]. constructor; auto.
Qed.

Lemma unsold_get m k v :
  List.Forall unsold m -> JSMap.get m k = Some v -> partialSells v = None.
Proof.
  intros Hm. induction Hm as [|[k' v'] rest Hhead Hrest IH]; simpl;
    [discriminate|].
  destruct (String.eqb k' k); [|exact IH]. now intros [= <-].
Qed.

Lemma nothingSold_parts st :
  nothingSold st
  <-> List.Forall unsold (activePositions st)
      /\ List.Forall unsold (completedPositions st).
Proof. unfold nothingSold. apply List.Forall_app. Qed.

Lemma handleMigrationEvent_nothingSold cfg st migrationEvent o :
  nothingSold st ->
  nothingSold (handleMigrationEvent cfg st migrationEvent o).
Proof.
  intros H. unfold handleMigrationEvent.
  destruct (maxConcurrentTrades cfg <=? _); [exact H|].
  destruct (swapData o) as [liquidityBNB|]; [|exact H].
  destruct (insufficientLiquidity cfg liquidityBNB); [exact H|].
  unfold executeTransitionStrategy.
  destruct (strategies cfg !! defaultStrategy cfg) as [strategy|];
    [|exact H].
  destruct (buy o) as [| |amountOut swapGas]; try exact H.
  apply nothingSold_parts in H. destruct H as [Ha Hc].
  apply nothingSold_parts. simpl. split; [|exact Hc].
  apply unsold_set; [exact Ha|reflexivity].
Qed.

Lemma monitorPosition_nothingSold cfg st position o :
  nothingSold st -> partialSells position = None ->
  nothingSold (monitorPosition cfg st position o).
Proof.
  intros H Hp. apply nothingSold_parts in H. destruct H as [Ha Hc].
  unfold monitorPosition.
  destruct (checkExitConditions cfg _ (clock o)) as [reason|].
  - unfold executeExitStrategy.
    destruct (sell o) as [| |amountOut sellGas];
      apply nothingSold_parts; simpl; split; auto.
    + now apply unsold_set.
    + apply unsold_update; [now apply unsold_set|exact Hp].
    + apply unsold_delete. now apply unsold_set.
    + apply unsold_set; [exact Hc|exact Hp].
  - apply nothingSold_parts; simpl; split; auto. now apply unsold_set.
Qed.

Lemma monitorEach_nothingSold cfg oracle entries :
  forall st, nothingSold st -> nothingSold (monitorEach cfg oracle entries st).
Proof.
  induction entries as [|[positionId stale] rest IH]; intros st H; simpl;
    [exact H|].
  destruct (JSMap.get (activePositions st) positionId) as [position|] eqn:E;
    [|now apply IH].
  apply IH. apply monitorPosition_nothingSold; [exact H|].
  apply nothingSold_parts in H. destruct H as [Ha _].
  eapply unsold_get; eassumption.
Qed.

(** Whatever events are handled and whatever ticks are run, starting
    with no position, no stored position ever has a `partialSells`
    property: the set of fired rungs does not exist, and does not
    grow. *)
Lemma partialSells_never_recorded cfg :
  nothingSold initial
  /\ (forall st migrationEvent o,
        nothingSold st ->
        nothingSold (handleMigrationEvent cfg st migrationEvent o))
  /\ (forall st oracle,
        nothingSold st -> nothingSold (monitorPositions cfg oracle st)).
Proof.
  split; [constructor|split].
  - intros st migrationEvent o. apply handleMigrationEvent_nothingSold.
  - intros st oracle. apply monitorEach_nothingSold.
Qed.

(** One tick, within the hold time, on a state that holds the one
    aggressive position of the scenario: the tactic computes both sides
    once the test on the hold time is decided. *)
Ltac decide_tick Hhold :=
  unfold monitorPositions, withEvents;
  cbn [activePositions monitorEach JSMap.get String.eqb Ascii.eqb
       Bool.eqb];
  unfold monitorPosition;
  cbn [price clock sell exitClock Scenario.monitorTick];
  unfold checkExitConditions;
  cbn [strategy updatePositionStatus setStatus entryTime
       profitLossPercent partialSells];
  change (strategies defaultTransitionConfig !! "aggressive")
    with (Some aggressive);
  cbn [enableStopLosses enableProfitTaking defaultTransitionConfig
       loadTransitionConfig stopLossThreshold sellThreshold aggressive
       maxHoldTime enablePartialSells partialSellPercentages];
  rewrite Hhold; vm_compute; reflexivity.

Lemma hold_test (c : Z) :
  Scenario.withinHold c -> (3600000 <? c - 5000) = false.
Proof.
  unfold Scenario.withinHold. simpl. intros H. apply Z.ltb_ge. exact H.
Qed.

(** C7 on the failing input: an aggressive position at +30 per cent,
    where the rung of 25 is the exit cause, and a sell that throws
    before the swap at every tick (the position stays ACTIVE), the
    ticks being at any clocks within the hold time. The rung of 25 is
    the cause of an exit attempt at every tick, n times in n ticks, and
    the position never gets a `partialSells` property. *)
Theorem rung_fires_again_after_failed_sell (clocks : list Z) :
  List.Forall Scenario.withinHold clocks ->
  let failing :=
    Scenario.monitorTick (Scenario.priceAt 30) swapThrows in
  let st :=
    monitorTicks defaultTransitionConfig (map failing clocks)
                 Scenario.opened in
  events st
  = events Scenario.opened
    ++ repeat (exitAttempt Scenario.positionId (PartialSellAt 25))
              (length clocks)
  /\ exitAttempts Scenario.positionId (events st) = length clocks
  /\ map (fun kv => (status (snd kv), partialSells (snd kv)))
         (activePositions st) = [(ACTIVE, None)].
Proof.
  intros Hclocks. cbv zeta.
  destruct Hclocks as [|c clocks Hc Hclocks]; [repeat split|].
  set (failing := Scenario.monitorTick (Scenario.priceAt 30) swapThrows).
  set (held := monitorPositions defaultTransitionConfig (failing 6000)
                                Scenario.opened).
  change (monitorTicks defaultTransitionConfig (map failing (c :: clocks))
                       Scenario.opened)
    with (monitorTicks defaultTransitionConfig (map failing clocks)
            (monitorPositions defaultTransitionConfig (failing c)
                              Scenario.opened)).
  apply hold_test in Hc.
  assert (monitorPositions defaultTransitionConfig (failing c)
                           Scenario.opened
          = withEvents held (events held)) as ->.
  { subst held failing.
    let v := eval vm_compute in Scenario.opened in
    change Scenario.opened with v.
    decide_tick Hc. }
  rewrite (monitorTicks_stuck defaultTransitionConfig held
             (exitAttempt Scenario.positionId (PartialSellAt 25))).
  - simpl. rewrite exitAttempts_app, exitAttempts_repeat, length_map.
    repeat split.
  - apply List.Forall_forall. intros oracle Hin.
    apply in_map_iff in Hin. destruct Hin as (c' & <- & Hin).
    rewrite List.Forall_forall in Hclocks.
    pose proof (hold_test c' (Hclocks c' Hin)) as Hc'.
    intros trace. subst held failing.
    let v := eval vm_compute in
        (monitorPositions defaultTransitionConfig
           (Scenario.monitorTick (Scenario.priceAt 30) swapThrows 6000)
           Scenario.opened) in
    change (monitorPositions defaultTransitionConfig
              (Scenario.monitorTick (Scenario.priceAt 30) swapThrows 6000)
              Scenario.opened) with v.
    decide_tick Hc'.
Qed.

Lemma rung_fires_again_after_failed_sell_witness :
  let failing :=
    Scenario.monitorTick (Scenario.priceAt 30) swapThrows in
  exitAttempts Scenario.positionId
    (events (monitorTicks defaultTransitionConfig
               [failing 10000; failing 15000; failing 20000]
               Scenario.opened)) = 3%nat.
Proof.
  cbv zeta.
  refine (proj1 (proj2 (rung_fires_again_after_failed_sell
                          [10000; 15000; 20000] _))).
  repeat constructor; discriminate.
Defined.

End LadderRungs.

(* ===================================================================== *)
(*  The doubles                                                          *)
(* ===================================================================== *)

Module Float64Facts.
Import Float64.

Lemma SFcompare_antisym (a b : spec_float) :
  SFcompare b a = option_map CompOpp (SFcompare a b).
Proof.
  destruct a as [sa|sa| |sa ma ea], b as [sb|sb| |sb mb eb]; simpl;
    try reflexivity;
    try (destruct sa; reflexivity);
    try (destruct sb; reflexivity);
    try (destruct sa, sb; reflexivity).
  destruct sa, sb; simpl; try reflexivity;
    rewrite (Z.compare_antisym ea eb);
    destruct (ea ?= eb); simpl; try reflexivity;
    change (Pos.compare_cont Eq mb ma) with (Pos.compare mb ma);
    change (Pos.compare_cont Eq ma mb) with (Pos.compare ma mb);
    rewrite (Pos.compare_antisym ma mb);
    destruct (Pos.compare ma mb); reflexivity.
Qed.

Lemma SFcompare_Eq (a b : spec_float) :
  SFcompare a b = Some Eq ->
  a = b \/ exists sa sb, a = S754_zero sa /\ b = S754_zero sb.
Proof.
  destruct a as [sa|sa| |sa ma ea], b as [sb|sb| |sb mb eb]; simpl;
    try discriminate;
    try (destruct sa; discriminate);
    try (destruct sb; discriminate).
  - intros _. right. eauto.
  - destruct sa, sb; try discriminate; auto.
  - destruct sa, sb; try discriminate;
      destruct (ea ?= eb) eqn:He; try discriminate;
      apply Z.compare_eq in He; subst eb; intros H;
      injection H as H.
    + change (Pos.compare_cont Eq ma mb) with (Pos.compare ma mb) in H.
      destruct (Pos.compare ma mb) eqn:Hm; try discriminate.
      apply Pos.compare_eq in Hm. subst. now left.
    + change (Pos.compare_cont Eq ma mb) with (Pos.compare ma mb) in H.
      apply Pos.compare_eq in H. subst. now left.
Qed.

Lemma SFcompare_refl (a : spec_float) :
  SFcompare a a = match a with S754_nan => None | _ => Some Eq end.
Proof.
  destruct a as [s|s| |s m e]; simpl; try reflexivity;
    try (destruct s; reflexivity).
  destruct s; rewrite Z.compare_refl;
    change (Pos.compare_cont Eq m m) with (Pos.compare m m);
    rewrite Pos.compare_refl; reflexivity.
Qed.

Lemma is_nan_spec (a : float) :
  is_nan a = match Prim2SF a with S754_nan => true | _ => false end.
Proof.
  unfold is_nan. rewrite FloatAxioms.eqb_spec. unfold SFeqb.
  rewrite SFcompare_refl. destruct (Prim2SF a); reflexivity.
Qed.


Lemma SFcompare_None (a b : spec_float) :
  SFcompare a b = None -> a = S754_nan \/ b = S754_nan.
Proof.
  destruct a, b; simpl; try discriminate; auto.
Qed.





Lemma zero_of_spec (a : float) (s : bool) :
  Prim2SF a = S754_zero s -> a = if s then neg_zero else zero.
Proof.
  intros H. apply Prim2SF_inj. rewrite H. destruct s; reflexivity.
Qed.

(** `Math.min` does not depend on the order of its arguments. *)
Lemma min_comm (a b : float) : min a b = min b a.
Proof.
  unfold min. rewrite (orb_comm (is_nan b)).
  destruct (is_nan a || is_nan b) eqn:Hnan; [reflexivity|].
  apply orb_false_elim in Hnan. destruct Hnan as [Ha Hb].
  rewrite is_nan_spec in Ha, Hb.
  rewrite !ltb_spec. unfold SFltb.
  rewrite (SFcompare_antisym (Prim2SF a) (Prim2SF b)).
  destruct (SFcompare (Prim2SF a) (Prim2SF b)) as [[| |]|] eqn:E; simpl;
    try reflexivity.
  - destruct (SFcompare_Eq _ _ E) as [H|(sa & sb & Hza & Hzb)].
    + apply Prim2SF_inj in H. subst b. destruct (get_sign a); reflexivity.
    + apply zero_of_spec in Hza, Hzb. subst a b.
      destruct sa, sb; reflexivity.
  - destruct (SFcompare_None _ _ E) as [H|H]; rewrite H in *; discriminate.
Qed.

End Float64Facts.

Module ProbabilityInDoubles.
Import Float64 Float64Facts Ieee.




End ProbabilityInDoubles.

(* ===================================================================== *)
(*  Further properties of the detector                                   *)
(* ===================================================================== *)

Module PredictionMore.
Import JS JSFacts Detector.

(** Where a market cap inside the buffer zone stands in it. *)
Lemma progressInBuffer_bounds (t b cap : Q) :
  (0 < b)%Q -> (t - b <= cap)%Q -> (cap < t)%Q ->
  (0 <= (cap - (t - b)) / b)%Q /\ ((cap - (t - b)) / b < 1)%Q.
Proof.
  intros Hb Hlow Hhigh. split.
  - apply Qle_shift_div_l; [exact Hb|]. lra.
  - apply Qlt_shift_div_r; [exact Hb|]. lra.
Qed.

Lemma branches (cfg : MigrationDetectorConfig) (cap p : Q) :
  (0 < preMigrationBuffer cfg)%Q ->
  let t := migrationThreshold cfg in
  let b := preMigrationBuffer cfg in
  let v := calculateMigrationProbability cfg cap p in
  ((t <= cap)%Q /\ v = 1%Q)
  \/ ((t - b <= cap)%Q /\ (cap < t)%Q
      /\ v = (0.7 + (cap - (t - b)) / b * 0.3)%Q
      /\ (0.7 <= v)%Q /\ (v < 1)%Q)
  \/ ((cap < t - b)%Q /\ v = Qmin (p * (cap / t)) 0.7 /\ (v <= 0.7)%Q).
Proof.
  intros Hb. cbv zeta. unfold calculateMigrationProbability.
  destruct (Qle_bool (migrationThreshold cfg) cap) eqn:E1.
  - left. apply Qle_bool_iff in E1. auto.
  - apply Qle_bool_false in E1.
    destruct (Qle_bool (migrationThreshold cfg - preMigrationBuffer cfg) cap)
      eqn:E2.
    + right; left. apply Qle_bool_iff in E2.
      destruct (progressInBuffer_bounds _ _ _ Hb E2 E1) as [H0 H1].
      repeat split; auto; cbv zeta; lra.
    + right; right. apply Qle_bool_false in E2.
      repeat split; auto. apply Q.le_min_r.
Qed.

(** X1. For a market cap >= 0, a progress in [0,1], a threshold > 0 and
    a buffer > 0, the migration probability lies in [0,1]. *)
Theorem probability_in_unit_interval
    (cfg : MigrationDetectorConfig) (cap p : Q) :
  (0 <= cap)%Q -> (0 <= p)%Q -> (p <= 1)%Q ->
  (0 < migrationThreshold cfg)%Q -> (0 < preMigrationBuffer cfg)%Q ->
  (0 <= calculateMigrationProbability cfg cap p)%Q
  /\ (calculateMigrationProbability cfg cap p <= 1)%Q.
Proof.
  intros Hcap Hp0 Hp1 Ht Hb.
  destruct (branches cfg cap p Hb)
    as [[_ ->]|[(_ & _ & _ & Hlow & Hhigh)|(_ & Hv & Hhigh)]].
  - split; discriminate.
  - split; lra.
  - split; [|lra]. rewrite Hv. apply Q.min_glb; [|discriminate].
    apply Qmult_le_0_compat; [exact Hp0|].
    apply Qle_shift_div_l; [exact Ht|]. lra.
Qed.

Lemma probability_in_unit_interval_witness :
  (0 <= calculateMigrationProbability loadMigrationConfig 15.5 0.86)%Q
  /\ (calculateMigrationProbability loadMigrationConfig 15.5 0.86 <= 1)%Q.
Proof.
  apply (probability_in_unit_interval loadMigrationConfig 15.5%Q 0.86%Q);
    vm_compute; congruence.
Defined.

(** X2. With the progress (>= 0), the threshold (> 0) and the buffer
    (> 0) fixed, the migration probability does not decrease when the
    market cap increases. *)
Theorem probability_monotone_in_market_cap
    (cfg : MigrationDetectorConfig) (cap1 cap2 p : Q) :
  (0 <= p)%Q ->
  (0 < migrationThreshold cfg)%Q -> (0 < preMigrationBuffer cfg)%Q ->
  (cap1 <= cap2)%Q ->
  (calculateMigrationProbability cfg cap1 p
   <= calculateMigrationProbability cfg cap2 p)%Q.
Proof.
  intros Hp Ht Hb Hcap.
  destruct (branches cfg cap1 p Hb)
    as [[H1 E1]|[(L1 & U1 & E1 & Hlow1 & Hhigh1)|(U1 & E1 & Hhigh1)]];
  destruct (branches cfg cap2 p Hb)
    as [[H2 E2]|[(L2 & U2 & E2 & Hlow2 & Hhigh2)|(U2 & E2 & Hhigh2)]];
    try lra.
  - rewrite E1, E2. apply Qle_refl.
  - rewrite E2. lra.
  - rewrite E1, E2.
    assert ((cap1 - (migrationThreshold cfg - preMigrationBuffer cfg))
            / preMigrationBuffer cfg
            <= (cap2 - (migrationThreshold cfg - preMigrationBuffer cfg))
               / preMigrationBuffer cfg)%Q as Hx.
    { apply Qmult_le_compat_r; [lra|].
      apply Qinv_le_0_compat. lra. }
    lra.
  - rewrite E2. lra.
  - rewrite E1, E2. apply Q.min_le_compat_r.
    rewrite !(Qmult_comm p). apply Qmult_le_compat_r; [|exact Hp].
    apply Qmult_le_compat_r; [exact Hcap|].
    apply Qinv_le_0_compat. lra.
Qed.

Lemma probability_monotone_in_market_cap_witness :
  (calculateMigrationProbability loadMigrationConfig 15.5 0.86
   <= calculateMigrationProbability loadMigrationConfig 17.8 0.86)%Q.
Proof.
  apply (probability_monotone_in_market_cap loadMigrationConfig
           15.5%Q 17.8%Q 0.86%Q); vm_compute; congruence.
Defined.


End PredictionMore.

Module ConfirmationWait.
Import Detector.

Lemma pollUntil_returns (target : Z) (polls rest : list (option Z)) :
  pollUntil target polls = Some rest
  <-> exists middle final,
        polls = map Some middle ++ final :: rest
        /\ List.Forall (fun b => b < target) middle
        /\ (final = None \/ exists last, final = Some last /\ target <= last).
Proof.
  split.
  - revert rest. induction polls as [|[b|] polls IH]; intros rest; simpl.
    + discriminate.
    + destruct (b <? target) eqn:E.
      * intros H. destruct (IH rest H) as (middle & final & -> & Hm & Hf).
        exists (b :: middle), final. repeat split; auto.
        constructor; [now apply Z.ltb_lt|exact Hm].
      * intros [= <-]. exists [], (Some b). repeat split; auto.
        right. exists b. split; [reflexivity|now apply Z.ltb_ge].
    + intros [= <-]. exists [], None. repeat split; auto.
  - intros (middle & final & -> & Hm & Hf).
    induction Hm as [|b middle Hb Hm IH]; simpl.
    + destruct Hf as [->|(last & -> & Hlast)]; [reflexivity|].
      apply Z.ltb_ge in Hlast. now rewrite Hlast.
    + apply Z.ltb_lt in Hb. now rewrite Hb.
Qed.

Lemma pollUntil_pending (target : Z) (polls : list (option Z)) :
  pollUntil target polls = None
  <-> exists middle,
        polls = map Some middle
        /\ List.Forall (fun b => b < target) middle.
Proof.
  split.
  - induction polls as [|[b|] polls IH]; simpl.
    + intros _. exists []. split; [reflexivity|constructor].
    + destruct (b <? target) eqn:E; [|discriminate].
      intros H. destruct (IH H) as (middle & -> & Hm).
      exists (b :: middle). split; [reflexivity|].
      constructor; [now apply Z.ltb_lt|exact Hm].
    + discriminate.
  - intros (middle & -> & Hm).
    induction Hm as [|b middle Hb Hm IH]; simpl; [reflexivity|].
    apply Z.ltb_lt in Hb. now rewrite Hb.
Qed.

(** X4. `waitForConfirmation` returns exactly when either a read of the
    block number has thrown, or a block number at or above the first
    one read plus `confirmationBlocks` has been read, every read in
    between having been below it; until then it keeps waiting. The
    reads it did not consume are left for the caller. *)
Theorem waitForConfirmation_returns
    (cfg : MigrationDetectorConfig) (polls : list (option Z)) :
  (forall rest,
     waitForConfirmation cfg polls = Some rest
     <-> (polls = None :: rest
          \/ exists first middle final,
               polls = Some first :: map Some middle ++ final :: rest
               /\ List.Forall
                    (fun b => b < first + confirmationBlocks cfg) middle
               /\ (final = None
                   \/ exists last,
                        final = Some last
                        /\ first + confirmationBlocks cfg <= last)))
  /\ (waitForConfirmation cfg polls = None
      <-> (polls = []
           \/ exists first middle,
                polls = Some first :: map Some middle
                /\ List.Forall
                     (fun b => b < first + confirmationBlocks cfg) middle)).
Proof.
  split.
  - intros rest. destruct polls as [|[first|] polls]; simpl.
    + split; [discriminate|].
      intros [H|(first & middle & final & H & _)]; discriminate.
    + rewrite pollUntil_returns. split.
      * intros (middle & final & -> & Hm & Hf). right.
        exists first, middle, final. auto.
      * intros [H|(first' & middle & final & H & Hm & Hf)];
          [discriminate|].
        injection H as <- ->. eauto.
    + split.
      * intros [= ->]. now left.
      * intros [[= ->]|(first & middle & final & H & _)];
          [reflexivity|discriminate].
  - destruct polls as [|[first|] polls]; simpl.
    + split; auto.
    + rewrite pollUntil_pending. split.
      * intros (middle & -> & Hm). right. eauto.
      * intros [H|(first' & middle & H & Hm)]; [discriminate|].
        injection H as <- ->. eauto.
    + split; [discriminate|].
      intros [H|(first & middle & H & _)]; discriminate.
Qed.

End ConfirmationWait.

Module CrossingConfirmed.
Import JS JSFacts Detector Confirmation Crossing ConfirmationWait.

(** When the wait of a handler ends with the block of the event read. *)
Lemma released_iff (cfg : MigrationDetectorConfig)
    (polls : list (option Z)) :
  (exists block unread,
     waitForConfirmation cfg polls = Some (Some block :: unread))
  <-> reachedTarget cfg polls \/ readFailed cfg polls.
Proof.
  unfold reachedTarget, readFailed, belowTarget. split.
  - intros (block & unread & H).
    destruct polls as [|[first|] polls]; simpl in H.
    + discriminate.
    + apply pollUntil_returns in H.
      destruct H as (middle & final & -> & Hm & [->|(last & -> & Hl)]).
      * right. right. exists first, middle, block, unread. auto.
      * left. exists first, middle, last, block, unread. auto.
    + injection H as ->. right. left. eauto.
  - intros [(first & middle & last & block & unread & -> & Hm & Hl)
           |[(block & unread & ->)
            |(first & middle & block & unread & -> & Hm)]];
      exists block, unread; simpl.
    + apply pollUntil_returns. exists middle, (Some last).
      repeat split; eauto.
    + reflexivity.
    + apply pollUntil_returns. exists middle, None.
      repeat split; auto.
Qed.

Lemma waiting_iff (cfg : MigrationDetectorConfig)
    (polls : list (option Z)) :
  waitForConfirmation cfg polls = None <-> stillWaiting cfg polls.
Proof.
  unfold stillWaiting, belowTarget.
  destruct polls as [|[first|] polls]; simpl.
  - split; auto.
  - rewrite pollUntil_pending. split.
    + intros (middle & -> & Hm). right. eauto.
    + intros [H|(first' & middle & H & Hm)]; [discriminate|].
      injection H as <- ->. eauto.
  - split; [discriminate|].
    intros [H|(first & middle & H & _)]; discriminate.
Qed.

(** The tick of a token that is not migrated and reads a market cap at
    or above the threshold: what it does is decided by the reads of the
    block number. *)
Lemma checkToken_crossing cfg tokenAddress tokenData previousStatus o
    data :
  isMigrated tokenData = false ->
  market o = Some data ->
  (migrationThreshold cfg <= marketCap data)%Q ->
  checkToken cfg tokenAddress tokenData previousStatus o
  = let migrationStatus :=
      calculateMigrationStatus cfg tokenData data (now o) in
    match handleMigrationEvent cfg tokenAddress tokenData migrationStatus
                               (polls o) (eventTime o) with
    | None => pending
    | Some (tokenData', fired) =>
      done_with (migrationStatus, tokenData',
                 fired ++ [statusUpdate tokenAddress migrationStatus
                                        previousStatus])
    end.
Proof.
  intros Hflag Hmarket Hcap. unfold checkToken. rewrite Hmarket.
  unfold crossing. simpl. rewrite Hflag.
  apply Qle_bool_iff in Hcap. rewrite Hcap. reflexivity.
Qed.

Lemma firingTicks_below cfg tokenAddress tokenData before rest :
  List.Forall (below cfg) before ->
  forall previousStatus k,
  exists previousStatus',
    firingTicks cfg tokenAddress tokenData previousStatus k
                (before ++ rest)
    = firingTicks cfg tokenAddress tokenData previousStatus'
                  (k + length before)%nat rest.
Proof.
  intros Hbefore.
  induction Hbefore as [|b before Hb Hbefore IH]; intros previousStatus k.
  - exists previousStatus. simpl. f_equal. lia.
  - simpl.
    destruct (checkToken_below cfg tokenAddress tokenData previousStatus
                               b Hb) as [->|[migrationStatus ->]].
    + destruct (IH previousStatus (S k)) as [p ->]. exists p.
      f_equal. lia.
    + simpl. destruct (IH (Some migrationStatus) (S k)) as [p ->].
      exists p. f_equal. lia.
Qed.

(** C2, as the code has it. For a token that is not migrated, no tick
    that reads a market cap below the threshold (or cannot read it)
    fires the crossing event, and the first tick that reads
    marketCap >= threshold starts the handler. The handler reads the
    block number, polls it until it reads one that is at least the
    first plus `confirmationBlocks` (the market cap is not read again
    and no count of ticks is kept), reads the block number once more
    and emits. The tick fires exactly when these reads get to the
    target, or when a read of the wait throws: the wait then ends at
    once and the event is emitted without the confirmation. While the
    chain has not got to the target and no read has thrown, nothing is
    emitted. *)
Theorem fires_at_first_crossing
    (cfg : MigrationDetectorConfig) (tokenAddress : string)
    (tokenData : TokenData) (before : list TickOracle)
    (o : TickOracle) (data : MarketData) :
  isMigrated tokenData = false ->
  List.Forall (below cfg) before ->
  market o = Some data ->
  (migrationThreshold cfg <= marketCap data)%Q ->
  forall previousStatus k,
    (fires cfg tokenAddress tokenData previousStatus o
     <-> reachedTarget cfg (polls o) \/ readFailed cfg (polls o))
    /\ (reachedTarget cfg (polls o) \/ readFailed cfg (polls o) ->
        firingTicks cfg tokenAddress tokenData previousStatus k
                    (before ++ [o])
        = [(k + length before)%nat])
    /\ (stillWaiting cfg (polls o) ->
        checkToken cfg tokenAddress tokenData previousStatus o = pending
        /\ firingTicks cfg tokenAddress tokenData previousStatus k
                       (before ++ [o])
           = []).
Proof.
  intros Hflag Hbefore Hmarket Hcap previousStatus k.
  assert (forall previous,
            reachedTarget cfg (polls o) \/ readFailed cfg (polls o) ->
            exists migrationStatus tokenData' migrationEvent,
              checkToken cfg tokenAddress tokenData previous o
              = done_with (migrationStatus, tokenData',
                           [migrationDetected migrationEvent;
                            statusUpdate tokenAddress migrationStatus
                                         previous])
              /\ isMigrated tokenData' = true) as Hfires.
  { intros previous Hreleased.
    apply released_iff in Hreleased.
    destruct Hreleased as (block & unread & Hwait).
    rewrite (checkToken_crossing cfg tokenAddress tokenData previous o
               data Hflag Hmarket Hcap).
    cbv zeta. unfold handleMigrationEvent. rewrite Hwait. simpl.
    eexists _, _, _. split; reflexivity. }
  assert (forall previous,
            stillWaiting cfg (polls o) ->
            checkToken cfg tokenAddress tokenData previous o = pending)
    as Hwaits.
  { intros previous Hwaiting. apply waiting_iff in Hwaiting.
    rewrite (checkToken_crossing cfg tokenAddress tokenData previous o
               data Hflag Hmarket Hcap).
    cbv zeta. unfold handleMigrationEvent. now rewrite Hwaiting. }
  split; [|split].
  - split; [|apply Hfires].
    intros (migrationStatus & tokenData' & migrationEvent & Hcheck & _).
    apply released_iff.
    rewrite (checkToken_crossing cfg tokenAddress tokenData
               previousStatus o data Hflag Hmarket Hcap) in Hcheck.
    cbv zeta in Hcheck. unfold handleMigrationEvent in Hcheck.
    destruct (waitForConfirmation cfg (polls o))
      as [[|[block|] unread]|]; try discriminate.
    eauto.
  - intros Hreleased.
    destruct (firingTicks_below cfg tokenAddress tokenData before [o]
                Hbefore previousStatus k) as [previous ->].
    destruct (Hfires previous Hreleased)
      as (migrationStatus & tokenData' & migrationEvent & Hcheck & _).
    simpl. rewrite Hcheck. reflexivity.
  - intros Hwaiting. split; [now apply Hwaits|].
    destruct (firingTicks_below cfg tokenAddress tokenData before [o]
                Hbefore previousStatus k) as [previous ->].
    simpl. now rewrite (Hwaits previous Hwaiting).
Qed.

Lemma fires_at_first_crossing_witness :
  reachedTarget loadMigrationConfig (polls (Scenario.tick 18.2 3000))
  /\ firingTicks loadMigrationConfig Scenario.tokenAddress Scenario.token0
                 None 1
                 [Scenario.tick 17.6 1000; Scenario.tick 17.9 2000;
                  Scenario.tick 18.2 3000]
     = [3%nat].
Proof.
  assert (reachedTarget loadMigrationConfig
            (polls (Scenario.tick 18.2 3000))) as Hreached.
  { exists 100, [101], 103, 103, []. repeat split.
    - repeat constructor.
    - discriminate. }
  split; [exact Hreached|].
  refine (proj1 (proj2
            (fires_at_first_crossing loadMigrationConfig
               Scenario.tokenAddress Scenario.token0
               [Scenario.tick 17.6 1000; Scenario.tick 17.9 2000]
               (Scenario.tick 18.2 3000) (Scenario.reading 18.2)
               _ _ _ _ None 1%nat)) (or_introl Hreached)).
  - reflexivity.
  - repeat constructor; intros data [= <-]; reflexivity.
  - reflexivity.
  - discriminate.
Defined.

End CrossingConfirmed.


Module RegistrationMore.
Import Detector DetectorMore.

Lemma addToken_consistent cfg st tokenAddress fetch data now :
  consistent st ->
  consistent (snd (addToken cfg st tokenAddress fetch data now)).
Proof.
  intros H. unfold addToken.
  destruct (monitoredTokens st !! tokenAddress) eqn:E; simpl; [exact H|].
  destruct (maxTokensToMonitor cfg <=? _); simpl; [exact H|].
  destruct fetch as [meta|]; simpl; [|exact H].
  destruct data as [data|]; simpl; intros other; simpl.
  - rewrite lookup_insert_None. intros [Hother Hne].
    destruct (H other Hother) as [Hs Ha].
    rewrite lookup_insert_ne by exact Hne. split; [exact Hs|].
    destruct (enablePredictiveAnalysis cfg); [|exact Ha].
    now rewrite lookup_insert_ne.
  - rewrite lookup_insert_None. intros [Hother Hne]. exact (H other Hother).
Qed.

Lemma removeToken_consistent st tokenAddress :
  consistent st -> consistent (removeToken st tokenAddress).
Proof.
  intros H other. unfold removeToken. simpl.
  destruct (decide (tokenAddress = other)) as [->|Hne].
  - intros _. now rewrite !lookup_delete_eq.
  - rewrite !lookup_delete_ne by exact Hne. apply H.
Qed.

Lemma checkTokenMigration_consistent cfg st tokenAddress tokenData o st' :
  is_Some (monitoredTokens st !! tokenAddress) ->
  checkTokenMigration cfg st tokenAddress tokenData o = Some st' ->
  consistent st -> consistent st'.
Proof.
  intros Hmonitored. unfold checkTokenMigration.
  destruct (checkToken cfg tokenAddress tokenData _ o)
    as [| |[[migrationStatus tokenData'] fired]]; [discriminate| |].
  - now intros [= <-].
  - intros [= <-] H other. simpl. rewrite lookup_alter_None.
    intros Hother.
    assert (tokenAddress <> other) as Hne.
    { intros ->. rewrite Hother in Hmonitored.
      destruct Hmonitored as [? [=]]. }
    destruct (H other Hother) as [Hs Ha].
    rewrite lookup_insert_ne by exact Hne. split; [exact Hs|].
    destruct (enablePredictiveAnalysis cfg); [|exact Ha].
    now rewrite lookup_insert_ne.
Qed.

Lemma checkEach_consistent cfg oracle entries :
  forall st st', checkEach cfg oracle entries st = Some st' ->
                 consistent st -> consistent st'.
Proof.
  induction entries as [|[tokenAddress stale] rest IH];
    intros st st'; simpl.
  - now intros [= <-].
  - destruct (monitoredTokens st !! tokenAddress) as [current|] eqn:E;
      [|apply IH].
    destruct (checkTokenMigration cfg st tokenAddress current
                                  (oracle tokenAddress)) as [st1|] eqn:E1;
      [|discriminate].
    intros Hrest Hc. apply (IH st1 st' Hrest).
    eapply checkTokenMigration_consistent; [|exact E1|exact Hc].
    rewrite E. eauto.
Qed.

(** When every call runs to its end before the next one starts, only
    monitored tokens have a migration status or a predictive analysis
    in the states reached from the empty detector: `removeToken` leaves
    nothing behind, and nothing is computed for an address that is not
    monitored. (A removal during a tick does leave a status:
    [RegistrationRaces].) *)
Lemma statuses_only_for_monitored
    (cfg : MigrationDetectorConfig) (ops : list Op) (st : State) :
  run cfg initial ops = Some st ->
  forall tokenAddress,
    monitoredTokens st !! tokenAddress = None ->
    migrationStatuses st !! tokenAddress = None
    /\ predictiveAnalyses st !! tokenAddress = None.
Proof.
  assert (forall from to,
             run cfg from ops = Some to -> consistent from -> consistent to)
    as Hrun.
  { induction ops as [|op rest IH]; intros from to; simpl.
    - now intros [= <-].
    - destruct (apply cfg from op) as [st1|] eqn:E; [|discriminate].
      intros Hrest Hc. apply (IH st1 to Hrest).
      destruct op as [tokenAddress fetch data now|tokenAddress|oracle];
        simpl in E.
      + injection E as <-. now apply addToken_consistent.
      + injection E as <-. now apply removeToken_consistent.
      + eapply checkEach_consistent; eassumption. }
  intros H. apply (Hrun initial st H).
  intros tokenAddress _. split; apply lookup_empty.
Qed.














End RegistrationMore.

(* ===================================================================== *)
(*  Properties of the router integration                                 *)
(* ===================================================================== *)

Module PancakeFacts.
Import JS JSMore JSFacts Pancake.

Ltac split_tests :=
  repeat match goal with
         | |- context [Qlt_bool ?a ?b] =>
           let E := fresh "E" in
           destruct (Qlt_bool a b) eqn:E;
           [apply Qlt_bool_iff in E|apply Qlt_bool_false in E]
         end.

(** X9. The recommended slippage is one of 10, 5, 3 and 1 per cent, and
    never increases with the liquidity of the pool. *)
Theorem recommendedSlippage_antitone (liquidity1 liquidity2 : Q) :
  (liquidity1 <= liquidity2)%Q ->
  (calculateRecommendedSlippage liquidity2
   <= calculateRecommendedSlippage liquidity1)%Q
  /\ (0.01 <= calculateRecommendedSlippage liquidity1)%Q
  /\ (calculateRecommendedSlippage liquidity1 <= 0.1)%Q.
Proof.
  intros H. unfold calculateRecommendedSlippage.
  split_tests; repeat split; lra.
Qed.

Lemma recommendedSlippage_antitone_witness :
  (calculateRecommendedSlippage 18
   <= calculateRecommendedSlippage 0.5)%Q.
Proof.
  refine (proj1 (recommendedSlippage_antitone 0.5 18 _)). discriminate.
Defined.




(** X11. The gas price of a swap, in doubles. When the fee data can be
    read and both conversions to `BigInt` succeed (the product of the
    base price and the multiplier is finite, and `maxGasPrice * 1e9` is
    a whole number), the price is the smaller of the floor of that
    product and the cap, so never above the cap; the base price is
    5 gwei when the node reports none, or 0. When the fee data cannot
    be read, or either conversion throws, the price is the fixed
    10 gwei, whatever the cap. *)
Theorem getOptimalGasPrice_capped
    (cfg : PancakeSwapConfig) (reported : option Z) :
  let product :=
    Float64.toBigInt
      (Float64.floor
         (Float64.ofZ (baseGasPrice reported)
          * Float64.ofQ (gasPriceMultiplier cfg))%float) in
  let limit :=
    Float64.toBigInt (Float64.ofQ (maxGasPrice cfg) * 1e9)%float in
  (forall optimal cap,
     product = Some optimal -> limit = Some cap ->
     getOptimalGasPrice cfg (Some reported) = Z.min cap optimal
     /\ getOptimalGasPrice cfg (Some reported) <= cap)
  /\ (product = None \/ limit = None ->
      getOptimalGasPrice cfg (Some reported) = 10 * gwei)
  /\ getOptimalGasPrice cfg None = 10 * gwei
  /\ getOptimalGasPrice cfg (Some (Some 0))
     = getOptimalGasPrice cfg (Some None).
Proof.
  cbv zeta. unfold getOptimalGasPrice.
  split; [|split; [|split; reflexivity]].
  - intros optimal cap -> ->.
    assert ((if cap <? optimal then cap else optimal) = Z.min cap optimal)
      as ->.
    { destruct (cap <? optimal) eqn:E;
        [apply Z.ltb_lt in E|apply Z.ltb_ge in E]; lia. }
    split; [reflexivity|lia].
  - intros [->| ->]; [reflexivity|].
    now destruct (Float64.toBigInt _).
Qed.

Lemma getOptimalGasPrice_capped_witness :
  getOptimalGasPrice loadPancakeConfig (Some (Some (50 * gwei)))
  = 20 * gwei
  /\ getOptimalGasPrice ScenarioRaces.fractionalCap
       (Some (Some (3 * gwei)))
     = 10 * gwei.
Proof.
  split.
  - refine (proj1 (proj1 (getOptimalGasPrice_capped loadPancakeConfig
                            (Some (50 * gwei)))
                         (60 * gwei) (20 * gwei) _ _));
      vm_compute; reflexivity.
  - refine (proj1 (proj2 (getOptimalGasPrice_capped
                            ScenarioRaces.fractionalCap
                            (Some (3 * gwei)))) _).
    right. vm_compute. reflexivity.
Defined.

(** Whatever happens, the output amount of the result is 0. *)
Lemma swap_zero d cfg swapParams o :
  amountOut (fst (swap d cfg swapParams o)) = 0.
Proof.
  unfold swap.
  destruct (enablePriceImpactProtection cfg && _); [reflexivity|].
  destruct (populated o); [|reflexivity]. simpl.
  destruct (sent o); [|reflexivity].
  destruct (receipt o) as [[[status block] gas]|]; [|reflexivity].
  destruct (status =? 1); reflexivity.
Qed.


(** X14. The swap data of a token does not depend on which slot of the
    pair holds WBNB: with the two tokens and their reserves exchanged,
    `getMigrationSwapData` returns the same liquidity, price, price
    impact, slippage and gas cost. *)
Theorem getMigrationSwapData_symmetric
    (cfg : PancakeSwapConfig) (tokenAddress : string)
    (answer : option string) (fee : option (option Z))
    (wbnb token : string) (wbnbReserve tokenReserve supply : Z) :
  toLowerCase wbnb = toLowerCase WBNB_ADDRESS ->
  toLowerCase token <> toLowerCase WBNB_ADDRESS ->
  getMigrationSwapData cfg tokenAddress
    {| pairAnswer := answer;
       pairData := Some {| pd_reserve0 := wbnbReserve;
                           pd_reserve1 := tokenReserve;
                           pd_totalSupply := supply;
                           pd_token0 := wbnb; pd_token1 := token |};
       feeData := fee |}
  = getMigrationSwapData cfg tokenAddress
      {| pairAnswer := answer;
         pairData := Some {| pd_reserve0 := tokenReserve;
                             pd_reserve1 := wbnbReserve;
                             pd_totalSupply := supply;
                             pd_token0 := token; pd_token1 := wbnb |};
         feeData := fee |}.
Proof.
  intros Hwbnb Htoken. unfold getMigrationSwapData.
  cbn [pairAnswer pairData feeData].
  destruct (findPairAddress answer) as [found|]; [|reflexivity].
  unfold getLiquidityInfo.
  cbn [pd_token0 pd_token1 pd_reserve0 pd_reserve1 pd_totalSupply].
  apply String.eqb_eq in Hwbnb. apply String.eqb_neq in Htoken.
  rewrite Hwbnb, Htoken. reflexivity.
Qed.

Lemma getMigrationSwapData_symmetric_witness :
  getMigrationSwapData loadPancakeConfig "0xT0" ScenarioMore.chain18
  = getMigrationSwapData loadPancakeConfig "0xT0"
      {| pairAnswer := Some "0xPA1R";
         pairData :=
           Some {| pd_reserve0 := 1000000000 * 1000000000000000000;
                   pd_reserve1 := 18 * 1000000000000000000;
                   pd_totalSupply := 1000000;
                   pd_token0 := "0xT0"; pd_token1 := WBNB_ADDRESS |};
         feeData := Some (Some (3 * gwei)) |}.
Proof.
  apply (getMigrationSwapData_symmetric loadPancakeConfig "0xT0"
           (Some "0xPA1R") (Some (Some (3 * gwei))) WBNB_ADDRESS "0xT0").
  - reflexivity.
  - discriminate.
Defined.

End PancakeFacts.


(* ===================================================================== *)
(*  Further properties of the position lifecycle                         *)
(* ===================================================================== *)

Module MapFacts.

Section WithValue.
Context {V : Type} (P : string * V -> Prop).

Lemma Forall_set (m : list (string * V)) k v :
  List.Forall P m -> P (k, v) -> List.Forall P (JSMap.set m k v).
Proof.
  intros Hm Hv. induction Hm as [|[k' v'] rest Hhead Hrest IH]; simpl.
  - repeat constructor. exact Hv.
  - destruct (String.eqb k' k); constructor; auto.
Qed.

Lemma Forall_update (m : list (string * V)) k v :
  List.Forall P m -> P (k, v) -> List.Forall P (JSMap.update m k v).
Proof.
  intros Hm Hv. induction Hm as [|[k' v'] rest Hhead Hrest IH]; simpl.
  - constructor.
  - destruct (String.eqb k' k) eqn:E; constructor; auto.
    apply String.eqb_eq in E. now subst k'.
Qed.

Lemma Forall_delete (m : list (string * V)) k :
  List.Forall P m -> List.Forall P (JSMap.delete m k).
Proof.
  intros Hm. induction Hm as [|[k' v'] rest Hhead Hrest IH]; simpl.
  - constructor.
  - destruct (String.eqb k' k); [exact IH|]. constructor; auto.
Qed.

Lemma Forall_get (m : list (string * V)) k v :
  List.Forall P m -> JSMap.get m k = Some v -> P (k, v).
Proof.
  intros Hm. induction Hm as [|[k' v'] rest Hhead Hrest IH]; simpl;
    [discriminate|].
  destruct (String.eqb k' k) eqn:E; [|exact IH].
  apply String.eqb_eq in E. subst k'. now intros [= <-].
Qed.

End WithValue.

Section Lookup.
Context {V : Type}.

Lemma get_set_eq (m : list (string * V)) k v :
  JSMap.get (JSMap.set m k v) k = Some v.
Proof.
  induction m as [|[k' v'] rest IH]; simpl.
  - now rewrite String.eqb_refl.
  - destruct (String.eqb k' k) eqn:E; simpl.
    + now rewrite String.eqb_refl.
    + now rewrite E.
Qed.

Lemma get_set_ne (m : list (string * V)) k k' v :
  k <> k' -> JSMap.get (JSMap.set m k v) k' = JSMap.get m k'.
Proof.
  intros Hne. apply String.eqb_neq in Hne.
  induction m as [|[k0 v0] rest IH]; simpl.
  - now rewrite Hne.
  - destruct (String.eqb k0 k) eqn:E; simpl.
    + apply String.eqb_eq in E. subst k0. now rewrite Hne.
    + destruct (String.eqb k0 k'); [reflexivity|exact IH].
Qed.

Lemma get_delete_eq (m : list (string * V)) k :
  JSMap.get (JSMap.delete m k) k = None.
Proof.
  induction m as [|[k' v'] rest IH]; simpl; [reflexivity|].
  destruct (String.eqb k' k) eqn:E; simpl; [exact IH|]. now rewrite E.
Qed.

Lemma get_delete_ne (m : list (string * V)) k k' :
  k <> k' -> JSMap.get (JSMap.delete m k) k' = JSMap.get m k'.
Proof.
  intros Hne. apply String.eqb_neq in Hne.
  induction m as [|[k0 v0] rest IH]; simpl; [reflexivity|].
  destruct (String.eqb k0 k) eqn:E; simpl.
  - apply String.eqb_eq in E. subst k0. now rewrite Hne.
  - destruct (String.eqb k0 k'); [reflexivity|exact IH].
Qed.

Lemma get_update_ne (m : list (string * V)) k k' v :
  k <> k' -> JSMap.get (JSMap.update m k v) k' = JSMap.get m k'.
Proof.
  intros Hne. apply String.eqb_neq in Hne.
  induction m as [|[k0 v0] rest IH]; simpl; [reflexivity|].
  destruct (String.eqb k0 k) eqn:E; simpl.
  - apply String.eqb_eq in E. subst k0. now rewrite Hne.
  - destruct (String.eqb k0 k'); [reflexivity|exact IH].
Qed.

Lemma length_set_present (m : list (string * V)) k v old :
  JSMap.get m k = Some old -> length (JSMap.set m k v) = length m.
Proof.
  induction m as [|[k' v'] rest IH]; simpl; [discriminate|].
  destruct (String.eqb k' k); simpl; [reflexivity|].
  intros H. now rewrite IH.
Qed.

Lemma length_set_le (m : list (string * V)) k v :
  (length (JSMap.set m k v) <= S (length m))%nat.
Proof.
  induction m as [|[k' v'] rest IH]; simpl; [lia|].
  destruct (String.eqb k' k); simpl; lia.
Qed.

Lemma length_update (m : list (string * V)) k v :
  length (JSMap.update m k v) = length m.
Proof.
  induction m as [|[k' v'] rest IH]; simpl; [reflexivity|].
  destruct (String.eqb k' k); simpl; [reflexivity|now rewrite IH].
Qed.

Lemma length_delete_le (m : list (string * V)) k :
  (length (JSMap.delete m k) <= length m)%nat.
Proof.
  induction m as [|[k' v'] rest IH]; simpl; [lia|].
  destruct (String.eqb k' k); simpl; lia.
Qed.

End Lookup.

End MapFacts.


Module PositionFacts.
Import JS JSMore JSFacts Transition Orders MapFacts.

(** X17. The liquidity check of `handleMigrationEvent` looks up a
    strategy named `default`; `loadTransitionConfig` defines only
    `aggressive` and `conservative`, so under every configuration it
    produces the check refuses nothing, and the outcome of a migration
    event does not depend on the liquidity of the pool. *)
Theorem liquidity_check_never_refuses
    (DEFAULT_STRATEGY : string)
    (MAX_CONCURRENT_TRADES MAX_TOTAL_EXPOSURE : Z)
    (st : State) (migrationEvent : Detector.MigrationEvent)
    (o : BuyOracle) (liquidityBNB liquidityBNB' : Q) :
  insufficientLiquidity
    (loadTransitionConfig DEFAULT_STRATEGY MAX_CONCURRENT_TRADES
                          MAX_TOTAL_EXPOSURE) liquidityBNB = false
  /\ handleMigrationEvent
       (loadTransitionConfig DEFAULT_STRATEGY MAX_CONCURRENT_TRADES
                             MAX_TOTAL_EXPOSURE) st migrationEvent
       {| swapData := Some liquidityBNB; buy := buy o;
          buyClock := buyClock o |}
     = handleMigrationEvent
         (loadTransitionConfig DEFAULT_STRATEGY MAX_CONCURRENT_TRADES
                               MAX_TOTAL_EXPOSURE) st migrationEvent
         {| swapData := Some liquidityBNB'; buy := buy o;
            buyClock := buyClock o |}.
Proof.
  split; reflexivity.
Qed.

(** A position whose tokens are worth nothing is at -100 per cent. *)
Lemma worthless_position (position : TradePosition) (currentPrice : Q) :
  0 < entryAmount position ->
  Qfloor (inject_Z (tokenAmount position) * currentPrice
          / inject_Z ether) = 0 ->
  exists pnl,
    profitLossPercent (updatePositionStatus position currentPrice)
    = Some (Fin pnl)
    /\ (pnl == -100)%Q.
Proof.
  intros Hentry Hvalue. unfold updatePositionStatus. cbv zeta.
  rewrite Hvalue. unfold setStatus, jsdiv. cbn [profitLossPercent].
  assert (~ (inject_Z (entryAmount position) == 0)%Q) as Hne.
  { intros E. unfold Qeq in E. simpl in E. lia. }
  destruct (Qeq_bool (inject_Z (entryAmount position)) 0) eqn:E.
  { apply Qeq_bool_iff in E. contradiction. }
  simpl. eexists. split; [reflexivity|].
  change (inject_Z 0) with 0%Q. field. exact Hne.
Qed.

Lemma worthless_position_stopped (cfg : TransitionConfig)
    (position : TradePosition) (s : TransitionStrategy)
    (currentPrice : Q) (clock : Z) :
  strategies cfg !! strategy position = Some s ->
  enableStopLosses cfg = true ->
  (stopLossThreshold s < 100)%Q ->
  0 < entryAmount position ->
  Qfloor (inject_Z (tokenAmount position) * currentPrice
          / inject_Z ether) = 0 ->
  checkExitConditions cfg (updatePositionStatus position currentPrice)
                      clock
  = Some StopLossTriggered.
Proof.
  intros Hs Hstop Hthreshold Hentry Hvalue.
  destruct (worthless_position position currentPrice Hentry Hvalue)
    as (pnl & Hpnl & Heq).
  unfold checkExitConditions.
  change (strategy (updatePositionStatus position currentPrice))
    with (strategy position).
  rewrite Hs, Hstop, Hpnl. simpl.
  assert (Qlt_bool pnl (- stopLossThreshold s) = true) as ->;
    [|reflexivity].
  apply Qlt_bool_iff. rewrite Heq. lra.
Qed.

(** X18. Every buy that the router integration reports as successful
    reports 0 tokens received (the receipt is not parsed). The position
    created from it therefore holds 0 tokens: whatever price is read at
    a monitoring tick, its value is 0 and its profit -100 per cent, and
    with stop-losses enabled and a threshold below 100 the tick decides
    an exit by stop-loss. *)
Theorem bought_position_is_stopped_out
    (cfg : TransitionConfig) (pancake : Pancake.PancakeSwapConfig)
    (migrationEvent : Detector.MigrationEvent) (s : TransitionStrategy)
    (o : OrderOracle) (received : Z) (swapGas : option Z)
    (positionId : string) (entryClock : Z) (currentPrice : Q)
    (clock : Z) :
  buyOutcome cfg pancake (Detector.ev_tokenAddress migrationEvent) s o
  = swapSucceeds received swapGas ->
  strategies cfg !! s_name s = Some s ->
  enableStopLosses cfg = true ->
  (stopLossThreshold s < 100)%Q ->
  0 < buyAmount s ->
  received = 0
  /\ checkExitConditions cfg
       (updatePositionStatus
          (createPosition migrationEvent (buyAmount s) received s
                          positionId entryClock)
          currentPrice) clock
     = Some StopLossTriggered.
Proof.
  intros Hbuy Hs Hstop Hthreshold Hamount.
  assert (received = 0) as ->.
  { unfold buyOutcome in Hbuy.
    destruct (wallet o) as [recipient|]; [|discriminate].
    unfold outcomeOf, executeBuyOrder in Hbuy.
    destruct (orderParams cfg _ _ recipient o) as [swapParams|];
      [|discriminate].
    destruct (Pancake.swapExactETHForTokens pancake swapParams (tx o))
      as [result handed] eqn:E.
    destruct (Pancake.success result); [|discriminate].
    injection Hbuy as <- _.
    pose proof (PancakeFacts.swap_zero Pancake.ETHForTokens pancake
                  swapParams (tx o)) as Hzero.
    unfold Pancake.swapExactETHForTokens in E. rewrite E in Hzero.
    exact Hzero. }
  split; [reflexivity|].
  apply (worthless_position_stopped cfg _ s); auto.
Qed.

Lemma bought_position_is_stopped_out_witness :
  buyOutcome defaultTransitionConfig Pancake.loadPancakeConfig
             Scenario.tokenAddress aggressive ScenarioMore.order1800
  = swapSucceeds 0 (Some 150000)
  /\ checkExitConditions defaultTransitionConfig
       (updatePositionStatus ScenarioMore.bought (Scenario.priceAt 400))
       6000
     = Some StopLossTriggered.
Proof.
  assert (buyOutcome defaultTransitionConfig Pancake.loadPancakeConfig
            (Detector.ev_tokenAddress Scenario.crossed) aggressive
            ScenarioMore.order1800
          = swapSucceeds 0 (Some 150000)) as Hbuy.
  { vm_compute. reflexivity. }
  split; [exact Hbuy|].
  refine (proj2 (bought_position_is_stopped_out defaultTransitionConfig
                   Pancake.loadPancakeConfig Scenario.crossed aggressive
                   ScenarioMore.order1800 0 (Some 150000)
                   Scenario.positionId 5000 (Scenario.priceAt 400) 6000
                   Hbuy _ _ _ _));
    vm_compute; reflexivity.
Defined.

(** X19. When the price of the token cannot be read at a monitoring
    tick, `getCurrentTokenPrice` answers 0: the position is valued at
    0, at -100 per cent, and with stop-losses enabled and a threshold
    below 100 the tick decides an exit by stop-loss. *)
Theorem unread_price_stops_out
    (cfg : TransitionConfig) (position : TradePosition)
    (s : TransitionStrategy) (clock : Z) :
  strategies cfg !! strategy position = Some s ->
  enableStopLosses cfg = true ->
  (stopLossThreshold s < 100)%Q ->
  0 < entryAmount position ->
  getCurrentTokenPrice None = Fin 0
  /\ currentValue (refresh position None) = Some 0
  /\ checkExitConditions cfg (refresh position None) clock
     = Some StopLossTriggered.
Proof.
  intros Hs Hstop Hthreshold Hentry. split; [reflexivity|].
  assert (Qfloor (inject_Z (tokenAmount position) * 0 / inject_Z ether)
          = 0) as Hvalue.
  { rewrite Qmult_0_r. reflexivity. }
  split.
  - unfold refresh, getCurrentTokenPrice, updatePositionStatus.
    cbv zeta. now rewrite Hvalue.
  - unfold refresh, getCurrentTokenPrice.
    now apply (worthless_position_stopped cfg position s).
Qed.

Lemma unread_price_stops_out_witness :
  strategies defaultTransitionConfig !! strategy ScenarioMore.held
  = Some aggressive
  /\ currentValue (refresh ScenarioMore.held None) = Some 0
  /\ checkExitConditions defaultTransitionConfig
       (refresh ScenarioMore.held None) 6000
     = Some StopLossTriggered.
Proof.
  assert (strategies defaultTransitionConfig !! strategy ScenarioMore.held
          = Some aggressive) as Hs.
  { vm_compute. reflexivity. }
  split; [exact Hs|].
  refine (proj2 (unread_price_stops_out defaultTransitionConfig
                   ScenarioMore.held aggressive 6000 Hs _ _ _));
    vm_compute; reflexivity.
Defined.

End PositionFacts.

Module PositionInvariants.
Import JS Transition Orders MapFacts.

Lemma get_update_is_Some {V : Type} (m : list (string * V)) k k' v :
  is_Some (JSMap.get (JSMap.update m k v) k')
  <-> is_Some (JSMap.get m k').
Proof.
  induction m as [|[k0 v0] m IH]; simpl; [tauto|].
  destruct (String.eqb k0 k) eqn:E; simpl.
  - destruct (String.eqb k0 k'); [|tauto].
    split; intros _; eexists; reflexivity.
  - destruct (String.eqb k0 k'); [tauto|exact IH].
Qed.

(** The loop of `monitorPositions` keeps whatever its body keeps. *)
Lemma monitorEach_invariant (I : State -> Prop) cfg oracle :
  (forall st positionId position,
     I st ->
     JSMap.get (activePositions st) positionId = Some position ->
     I (monitorPosition cfg st position (oracle positionId))) ->
  forall entries st, I st -> I (monitorEach cfg oracle entries st).
Proof.
  intros Hbody entries.
  induction entries as [|[positionId p] rest IH]; intros st HI; simpl;
    [exact HI|].
  destruct (JSMap.get (activePositions st) positionId) as [position|]
    eqn:E; [|now apply IH].
  apply IH. now apply Hbody.
Qed.

Lemma run_invariant (I : State -> Prop) cfg :
  (forall st op, I st -> I (apply cfg st op)) ->
  forall ops st, I st -> I (run cfg st ops).
Proof.
  intros Hstep ops. unfold run.
  induction ops as [|op ops IH]; intros st HI; simpl; [exact HI|].
  apply IH. now apply Hstep.
Qed.

Lemma handleMigrationEvent_cases cfg st migrationEvent o :
  handleMigrationEvent cfg st migrationEvent o = st
  \/ exists s received sellGas,
       strategies cfg !! defaultStrategy cfg = Some s
       /\ buy o = swapSucceeds received sellGas
       /\ JSMap.size (activePositions st) < maxConcurrentTrades cfg
       /\ handleMigrationEvent cfg st migrationEvent o
          = let counter := positionCounter st + 1 in
            let positionId := generatePositionId (buyClock o) counter in
            {| activePositions :=
                 JSMap.set (activePositions st) positionId
                   (createPosition migrationEvent (buyAmount s) received
                                   s positionId (buyClock o));
               completedPositions := completedPositions st;
               positionCounter := counter;
               events := events st ++ [transitionExecuted positionId] |}.
Proof.
  unfold handleMigrationEvent.
  destruct (maxConcurrentTrades cfg <=? JSMap.size (activePositions st))
    eqn:Hcap; [now left|].
  apply Z.leb_gt in Hcap.
  destruct (swapData o) as [liquidityBNB|]; [|now left].
  destruct (insufficientLiquidity cfg liquidityBNB); [now left|].
  unfold executeTransitionStrategy.
  destruct (strategies cfg !! defaultStrategy cfg) as [s|] eqn:Hs;
    [|now left].
  destruct (buy o) as [| |received sellGas] eqn:Hbuy;
    [now left|now left|].
  right. exists s, received, sellGas. repeat split; auto.
Qed.

Lemma handleMigrationEvent_wellFormed cfg bound st migrationEvent o :
  maxConcurrentTrades cfg <= bound ->
  wellFormed st /\ JSMap.size (activePositions st) <= bound ->
  wellFormed (handleMigrationEvent cfg st migrationEvent o)
  /\ JSMap.size (activePositions
                   (handleMigrationEvent cfg st migrationEvent o))
     <= bound.
Proof.
  intros Hmax [(Hown & Hown' & Hopen & Hclosed) Hbound].
  destruct (handleMigrationEvent_cases cfg st migrationEvent o)
    as [->|(s & received & sellGas & _ & _ & Hcap & ->)].
  { repeat split; assumption. }
  cbv zeta. unfold wellFormed.
  cbn [activePositions completedPositions].
  split; [repeat split|].
  - apply Forall_set; [exact Hown|reflexivity].
  - exact Hown'.
  - apply Forall_set; [exact Hopen|].
    repeat split; simpl; auto; discriminate.
  - exact Hclosed.
  - unfold JSMap.size in *.
    pose proof (length_set_le (activePositions st)
                  (generatePositionId (buyClock o) (positionCounter st + 1))
                  (createPosition migrationEvent (buyAmount s) received s
                     (generatePositionId (buyClock o)
                                         (positionCounter st + 1))
                     (buyClock o))).
    lia.
Qed.

Lemma monitorPosition_wellFormed cfg bound st positionId position o :
  wellFormed st /\ JSMap.size (activePositions st) <= bound ->
  JSMap.get (activePositions st) positionId = Some position ->
  wellFormed (monitorPosition cfg st position o)
  /\ JSMap.size (activePositions (monitorPosition cfg st position o))
     <= bound.
Proof.
  intros [(Hown & Hown' & Hopen & Hclosed) Hbound] Hget.
  pose proof (Forall_get ownKey _ _ _ Hown Hget) as Hid.
  pose proof (Forall_get open _ _ _ Hopen Hget) as (Hstatus & Hr & Ht).
  unfold ownKey in Hid. simpl in Hid, Hstatus, Hr, Ht. subst positionId.
  unfold monitorPosition. cbv zeta.
  set (position' := updatePositionStatus position (price o)).
  change (id position') with (id position).
  set (active' := JSMap.set (activePositions st) (id position) position').
  assert (List.Forall ownKey active') as Hown1.
  { apply Forall_set; [exact Hown|reflexivity]. }
  assert (List.Forall open active') as Hopen1.
  { apply Forall_set; [exact Hopen|]. repeat split; assumption. }
  assert (length active' = length (activePositions st)) as Hlen.
  { exact (length_set_present _ _ _ _ Hget). }
  assert (JSMap.size active' <= bound) as Hbound1.
  { unfold JSMap.size in *. lia. }
  destruct (checkExitConditions cfg position' (clock o)) as [reason|].
  2: { repeat split; assumption. }
  unfold executeExitStrategy. cbv zeta.
  change (id position') with (id position).
  destruct (sell o) as [| |received sellGas];
    unfold wellFormed;
    cbn [activePositions completedPositions].
  - repeat split; assumption.
  - split; [repeat split|]; auto.
    + apply Forall_update; [exact Hown1|reflexivity].
    + apply Forall_update; [exact Hopen1|].
      repeat split; simpl; auto; discriminate.
    + unfold JSMap.size in *. rewrite length_update. exact Hbound1.
  - split; [repeat split|].
    + now apply Forall_delete.
    + apply Forall_set; [exact Hown'|reflexivity].
    + now apply Forall_delete.
    + apply Forall_set; [exact Hclosed|].
      repeat split; simpl; eauto.
    + unfold JSMap.size in *.
      pose proof (length_delete_le active' (id position)). lia.
Qed.

Lemma apply_wellFormed cfg bound st op :
  maxConcurrentTrades cfg <= bound ->
  wellFormed st /\ JSMap.size (activePositions st) <= bound ->
  wellFormed (apply cfg st op)
  /\ JSMap.size (activePositions (apply cfg st op)) <= bound.
Proof.
  intros Hmax H. destruct op as [migrationEvent o|oracle]; simpl.
  - now apply handleMigrationEvent_wellFormed.
  - unfold monitorPositions.
    apply (monitorEach_invariant
             (fun st => wellFormed st
                        /\ JSMap.size (activePositions st) <= bound));
      [|exact H].
    intros st' positionId position H' Hget.
    now apply (monitorPosition_wellFormed cfg bound st' positionId).
Qed.

Lemma run_wellFormed cfg bound st ops :
  maxConcurrentTrades cfg <= bound ->
  wellFormed st /\ JSMap.size (activePositions st) <= bound ->
  wellFormed (run cfg st ops)
  /\ JSMap.size (activePositions (run cfg st ops)) <= bound.
Proof.
  intros Hmax.
  apply (run_invariant
           (fun st => wellFormed st
                      /\ JSMap.size (activePositions st) <= bound)).
  intros st' op. now apply apply_wellFormed.
Qed.

(** When every handler and every tick runs to its end before the next
    one starts, `maxConcurrentTrades` is enforced: once the active map
    holds no more positions than the cap, no such sequence of migration
    events and monitoring ticks makes it hold more. (Handlers that
    overlap do: [TradeRaces].) *)
Lemma concurrent_trades_capped
    (cfg : TransitionConfig) (st : State) (ops : list Op) :
  wellFormed st -> bounded cfg st -> bounded cfg (run cfg st ops).
Proof.
  intros Hwf Hbound. unfold bounded in *.
  apply (run_wellFormed cfg (Z.max 0 (maxConcurrentTrades cfg))).
  - lia.
  - split; assumption.
Qed.

Lemma known_set_active st st' k k' v :
  activePositions st' = JSMap.set (activePositions st) k' v ->
  completedPositions st' = completedPositions st ->
  known st k -> known st' k.
Proof.
  intros Ha Hc [H|H]; [left|right].
  - rewrite Ha. destruct (String.eqb_spec k' k) as [->|Hne].
    + rewrite get_set_eq. eexists. reflexivity.
    + now rewrite get_set_ne.
  - now rewrite Hc.
Qed.

Lemma monitorPosition_known cfg st position o k :
  known st k -> known (monitorPosition cfg st position o) k.
Proof.
  intros Hk. unfold monitorPosition. cbv zeta.
  set (position' := updatePositionStatus position (price o)).
  set (st1 := {| activePositions :=
                   JSMap.set (activePositions st) (id position') position';
                 completedPositions := completedPositions st;
                 positionCounter := positionCounter st;
                 events := events st |}).
  assert (known st1 k) as Hk1.
  { now apply (known_set_active st st1 k (id position') position'). }
  destruct (checkExitConditions cfg position' (clock o)) as [reason|];
    [|exact Hk1].
  unfold executeExitStrategy. cbv zeta.
  destruct (sell o) as [| |received sellGas].
  - exact Hk1.
  - destruct Hk1 as [H|H]; [left|right]; cbn [activePositions
                                               completedPositions] in *.
    + now apply get_update_is_Some.
    + exact H.
  - cbn [activePositions completedPositions] in *.
    destruct (String.eqb_spec (id position') k) as [->|Hne].
    + right. cbn [completedPositions]. rewrite get_set_eq.
      eexists. reflexivity.
    + destruct Hk1 as [H|H]; [left|right];
        cbn [activePositions completedPositions] in *.
      * now rewrite get_delete_ne.
      * now rewrite get_set_ne.
Qed.

(** X22. No position is ever lost: a position id that the active or the
    completed map has is still in one of the two after any sequence of
    migration events and monitoring ticks. *)
Theorem positions_never_vanish
    (cfg : TransitionConfig) (st : State) (ops : list Op)
    (positionId : string) :
  known st positionId -> known (run cfg st ops) positionId.
Proof.
  apply (run_invariant (fun st => known st positionId)).
  intros st' [migrationEvent o|oracle] Hk; simpl.
  - destruct (handleMigrationEvent_cases cfg st' migrationEvent o)
      as [->|(s & received & sellGas & _ & _ & _ & ->)]; [exact Hk|].
    cbv zeta. eapply known_set_active; [reflexivity|reflexivity|exact Hk].
  - unfold monitorPositions.
    apply (monitorEach_invariant (fun st => known st positionId));
      [|exact Hk].
    intros st2 k position Hk2 _. now apply monitorPosition_known.
Qed.

Lemma positions_never_vanish_witness :
  known Scenario.opened Scenario.positionId
  /\ known (run defaultTransitionConfig Scenario.opened
                (tl ScenarioMore.session))
           Scenario.positionId.
Proof.
  assert (known Scenario.opened Scenario.positionId) as Hk.
  { left. vm_compute. eexists. reflexivity. }
  split; [exact Hk|].
  exact (positions_never_vanish defaultTransitionConfig Scenario.opened
           (tl ScenarioMore.session) Scenario.positionId Hk).
Defined.

Lemma executions_app trace trace' :
  executions (trace ++ trace') = executions trace + executions trace'.
Proof.
  unfold executions. rewrite List.filter_app, length_app. lia.
Qed.

Lemma monitorPosition_counter cfg st position o :
  positionCounter (monitorPosition cfg st position o) = positionCounter st
  /\ executions (events (monitorPosition cfg st position o))
     = executions (events st).
Proof.
  unfold monitorPosition. cbv zeta.
  destruct (checkExitConditions cfg _ (clock o)) as [reason|];
    [|split; reflexivity].
  unfold executeExitStrategy. cbv zeta.
  destruct (sell o); cbn [positionCounter events];
    rewrite ?executions_app; split; try reflexivity;
    unfold executions; simpl; lia.
Qed.

(** X23. The position counter counts the positions opened: after any
    sequence of migration events and monitoring ticks it has grown by
    the number of `transitionExecuted` events emitted, and monitoring
    emits none. *)
Theorem counter_counts_executions
    (cfg : TransitionConfig) (st : State) (ops : list Op) :
  positionCounter (run cfg st ops) - positionCounter st
  = executions (events (run cfg st ops)) - executions (events st).
Proof.
  apply (run_invariant
           (fun st' => positionCounter st' - positionCounter st
                       = executions (events st')
                         - executions (events st))); [|lia].
  intros st' [migrationEvent o|oracle] Hinv; simpl.
  - destruct (handleMigrationEvent_cases cfg st' migrationEvent o)
      as [->|(s & received & sellGas & _ & _ & _ & ->)]; [exact Hinv|].
    cbv zeta. cbn [positionCounter events]. rewrite executions_app.
    unfold executions at 2. simpl. lia.
  - unfold monitorPositions.
    apply (monitorEach_invariant
             (fun st2 => positionCounter st2 - positionCounter st
                         = executions (events st2)
                           - executions (events st))); [|exact Hinv].
    intros st2 k position Hinv2 _.
    destruct (monitorPosition_counter cfg st2 position (oracle k))
      as [-> ->].
    exact Hinv2.
Qed.

End PositionInvariants.

Module LifecycleFacts.

Lemma detector_call_invariant (w : DetectorMore.Watch)
    (c : DetectorMore.Call) :
  DetectorMore.checkInterval w = DetectorMore.isRunning w
  /\ DetectorMore.liveTimers w
     = (if DetectorMore.isRunning w then 1 else 0)%nat ->
  DetectorMore.checkInterval (DetectorMore.call w c)
  = DetectorMore.isRunning (DetectorMore.call w c)
  /\ DetectorMore.liveTimers (DetectorMore.call w c)
     = (if DetectorMore.isRunning (DetectorMore.call w c) then 1
        else 0)%nat.
Proof.
  destruct w as [running handle timers]. simpl. intros [-> ->].
  destruct c, running; simpl; split; reflexivity.
Qed.

(** X24. The migration detector keeps at most one monitoring timer:
    after any sequence of `start()` and `stop()` calls on a fresh
    instance, `checkInterval` holds a handle exactly when the detector
    is running, and the number of live interval timers is 1 when it is
    running and 0 when it is not. *)
Theorem detector_keeps_one_timer (calls : list DetectorMore.Call) :
  DetectorMore.checkInterval (DetectorMore.after calls)
  = DetectorMore.isRunning (DetectorMore.after calls)
  /\ DetectorMore.liveTimers (DetectorMore.after calls)
     = (if DetectorMore.isRunning (DetectorMore.after calls) then 1
        else 0)%nat.
Proof.
  unfold DetectorMore.after.
  assert (forall w,
            DetectorMore.checkInterval w = DetectorMore.isRunning w
            /\ DetectorMore.liveTimers w
               = (if DetectorMore.isRunning w then 1 else 0)%nat ->
            let w' := fold_left DetectorMore.call calls w in
            DetectorMore.checkInterval w' = DetectorMore.isRunning w'
            /\ DetectorMore.liveTimers w'
               = (if DetectorMore.isRunning w' then 1 else 0)%nat)
    as Hall.
  { induction calls as [|c calls IH]; intros w Hw; simpl; [exact Hw|].
    apply IH. now apply detector_call_invariant. }
  apply Hall. split; reflexivity.
Qed.

Lemma cycle_adds_a_timer (n : nat) (l : Orders.Logic) :
  Orders.isRunning l = false ->
  Orders.after l (Orders.cycles n)
  = {| Orders.isRunning := false;
       Orders.monitors := (Orders.monitors l + n)%nat |}.
Proof.
  revert l. unfold Orders.after, Orders.cycles.
  induction n as [|n IH]; intros [running timers] Hstopped;
    simpl in Hstopped; subst running.
  - simpl. f_equal. lia.
  - cbn [repeat concat app fold_left Orders.call Orders.start
         Orders.stop Orders.isRunning Orders.monitors].
    rewrite IH by reflexivity. simpl. f_equal. lia.
Qed.

(** X25. The transition logic never clears its position-monitoring
    timer: no sequence of `start()` and `stop()` calls lowers the
    number of live timers, and a stopped instance that is started and
    stopped n times ends stopped with n more timers still firing. *)
Theorem monitoring_timers_accumulate
    (l : Orders.Logic) (calls : list Orders.Call) (n : nat) :
  Orders.isRunning l = false ->
  (Orders.monitors l <= Orders.monitors (Orders.after l calls))%nat
  /\ Orders.isRunning (Orders.after l (Orders.cycles n)) = false
  /\ Orders.monitors (Orders.after l (Orders.cycles n))
     = (Orders.monitors l + n)%nat.
Proof.
  intros Hstopped. split.
  - clear Hstopped. revert l. unfold Orders.after.
    induction calls as [|c calls IH]; intros l; simpl; [lia|].
    apply Nat.le_trans with (Orders.monitors (Orders.call l c));
      [|apply IH].
    destruct l as [running timers], c, running; simpl; lia.
  - rewrite (cycle_adds_a_timer n l Hstopped).
    split; reflexivity.
Qed.

Lemma monitoring_timers_accumulate_witness :
  Orders.isRunning Orders.idle = false
  /\ Orders.monitors (Orders.after Orders.idle (Orders.cycles 3)) = 3%nat.
Proof.
  split; [reflexivity|].
  exact (proj2 (proj2 (monitoring_timers_accumulate Orders.idle [] 3
                         eq_refl))).
Defined.

End LifecycleFacts.

(* ===================================================================== *)
(*  Calls in flight                                                      *)
(* ===================================================================== *)

Module RegistrationRaces.
Import Detector InFlight.

(** A call of `addToken` for an address that is not monitored, below
    the cap, is suspended at its fetch. *)
Lemma addTokenCalled_passes cfg r tokenAddress :
  monitoredTokens (maps r) !! tokenAddress = None ->
  Z.of_nat (size (monitoredTokens (maps r))) < maxTokensToMonitor cfg ->
  step cfg r (addTokenCalled tokenAddress)
  = {| maps := maps r;
       suspended := suspended r ++ [fetching tokenAddress];
       ended := ended r |}.
Proof.
  intros Hnew Hroom. simpl. rewrite Hnew.
  apply Z.leb_gt in Hroom. now rewrite Hroom.
Qed.

Lemma fetchReturned_oldest cfg r tokenAddress meta rest :
  suspended r = fetching tokenAddress :: rest ->
  step cfg r (fetchReturned tokenAddress (Some meta))
  = {| maps :=
         withTokens (maps r)
           (<[tokenAddress := fetchTokenData tokenAddress meta]>
              (monitoredTokens (maps r)));
       suspended :=
         rest ++ [initialising tokenAddress
                               (fetchTokenData tokenAddress meta)];
       ended := ended r |}.
Proof.
  intros Hcalls. simpl. rewrite Hcalls. simpl.
  now rewrite String.eqb_refl.
Qed.

Lemma statusReturned_oldest cfg r tokenAddress tokenData data now rest :
  suspended r = initialising tokenAddress tokenData :: rest ->
  step cfg r (statusReturned tokenAddress (Some data) now)
  = {| maps :=
         withStatus cfg (maps r) tokenAddress tokenData
           (calculateMigrationStatus cfg tokenData data now)
           (tokenAdded tokenAddress);
       suspended := rest;
       ended := ended r ++ [(tokenAddress, returned)] |}.
Proof.
  intros Hcalls. simpl. rewrite Hcalls. simpl.
  now rewrite String.eqb_refl.
Qed.

(** A call that is not overlapped does what [addToken] does. *)
Lemma alone_is_addToken cfg st tokenAddress fetch data now :
  let r := schedule cfg (quiet st)
             [addTokenCalled tokenAddress;
              fetchReturned tokenAddress fetch;
              statusReturned tokenAddress data now] in
  maps r = snd (addToken cfg st tokenAddress fetch data now)
  /\ ended r
     = [(tokenAddress, fst (addToken cfg st tokenAddress fetch data now))]
  /\ suspended r = [].
Proof.
  cbv zeta. unfold schedule, addToken. simpl.
  destruct (monitoredTokens st !! tokenAddress) eqn:Hnew; simpl;
    [auto|].
  destruct (maxTokensToMonitor cfg <=? _) eqn:Hcap; simpl; [auto|].
  rewrite String.eqb_refl.
  destruct fetch as [meta|]; simpl; [|auto].
  rewrite String.eqb_refl.
  destruct data as [data|]; simpl; auto.
Qed.

(** C8, as the code has it when two calls overlap. With one free slot
    under `maxTokensToMonitor` and two addresses that are not
    monitored, two calls of `addToken` that are both started before
    either fetch has returned both pass the two guards, both write
    their token and both return without an error: for two different
    addresses the monitored set ends one above the cap, where the same
    two calls one after the other end with the second throwing the
    capacity error; for the same address twice, the second call is not
    a no-op: it overwrites the entry and `tokenAdded` is emitted
    twice. *)
Theorem addToken_in_flight_exceeds_cap
    (cfg : MigrationDetectorConfig) (st : State) (a b : string)
    (metaA metaB : TokenMeta) (dataA dataB : MarketData)
    (nowA nowB : Z) :
  monitoredTokens st !! a = None ->
  monitoredTokens st !! b = None ->
  Z.of_nat (size (monitoredTokens st)) + 1 = maxTokensToMonitor cfg ->
  let r := schedule cfg (quiet st)
             (overlapped a b metaA metaB dataA dataB nowA nowB) in
  ended r = [(a, returned); (b, returned)]
  /\ suspended r = []
  /\ emitted (maps r) = emitted st ++ [tokenAdded a; tokenAdded b]
  /\ monitoredTokens (maps r) !! b = Some (fetchTokenData b metaB)
  /\ (a <> b ->
      Z.of_nat (size (monitoredTokens (maps r)))
      = maxTokensToMonitor cfg + 1
      /\ fst (addToken cfg
                (snd (addToken cfg st a (Some metaA) (Some dataA) nowA))
                b (Some metaB) (Some dataB) nowB)
         = thrown (MonitoringLimitReached (maxTokensToMonitor cfg))).
Proof.
  intros Ha Hb Hslot. cbv zeta. unfold schedule, overlapped.
  cbn [fold_left].
  set (tokenA := fetchTokenData a metaA).
  set (tokenB := fetchTokenData b metaB).
  rewrite (addTokenCalled_passes cfg (quiet st) a) by (simpl; auto; lia).
  rewrite addTokenCalled_passes by (simpl; auto; lia).
  cbn [quiet maps suspended ended app].
  rewrite (fetchReturned_oldest cfg
             {| maps := st; suspended := [fetching a; fetching b];
                ended := [] |} a metaA [fetching b] eq_refl).
  cbn [maps suspended ended app]. fold tokenA.
  rewrite (fetchReturned_oldest cfg
             {| maps := withTokens st (<[a := tokenA]> (monitoredTokens st));
                suspended := [fetching b; initialising a tokenA];
                ended := [] |} b metaB [initialising a tokenA] eq_refl).
  cbn [maps suspended ended app]. fold tokenB.
  match goal with
  | |- context [step cfg ?r (statusReturned a (Some dataA) nowA)] =>
    rewrite (statusReturned_oldest cfg r a tokenA dataA nowA
               [initialising b tokenB] eq_refl)
  end.
  cbn [maps suspended ended app].
  match goal with
  | |- context [step cfg ?r (statusReturned b (Some dataB) nowB)] =>
    rewrite (statusReturned_oldest cfg r b tokenB dataB nowB [] eq_refl)
  end.
  cbn [maps suspended ended app withStatus withTokens monitoredTokens
       emitted].
  split; [reflexivity|]. split; [reflexivity|].
  split; [now rewrite <- app_assoc|].
  split; [apply lookup_insert_eq|].
  intros Hne. split.
  - assert (<[a := tokenA]> (monitoredTokens st) !! b = None) as Hb'.
    { rewrite lookup_insert_ne; [exact Hb|exact Hne]. }
    rewrite (map_size_insert_None _ _ _ Hb').
    rewrite (map_size_insert_None _ _ _ Ha). lia.
  - unfold addToken at 2. rewrite Ha.
    assert ((maxTokensToMonitor cfg
             <=? Z.of_nat (size (monitoredTokens st))) = false) as Hroom.
    { apply Z.leb_gt. lia. }
    rewrite Hroom.
    cbn [snd]. unfold addToken.
    cbn [monitoredTokens].
    assert (<[a := tokenA]> (monitoredTokens st) !! b = None) as Hb'.
    { rewrite lookup_insert_ne; [exact Hb|exact Hne]. }
    fold tokenA. rewrite Hb'.
    rewrite (map_size_insert_None _ _ _ Ha).
    assert ((maxTokensToMonitor cfg
             <=? Z.of_nat (S (size (monitoredTokens st)))) = true)
      as Hfull.
    { apply Z.leb_le. lia. }
    rewrite Hfull. reflexivity.
Qed.

Lemma addToken_in_flight_exceeds_cap_witness :
  maxTokensToMonitor Scenario.singleSlotConfig = 1
  /\ size (monitoredTokens
             (maps (schedule Scenario.singleSlotConfig (quiet initial)
                      (overlapped "0xT0" "0xT1" Scenario.meta0
                         Scenario.meta0 (Scenario.reading 15.5)
                         (Scenario.reading 15.5) 1000 1000))))
     = 2%nat
  /\ ended (schedule Scenario.singleSlotConfig (quiet initial)
              (overlapped "0xT0" "0xT1" Scenario.meta0 Scenario.meta0
                 (Scenario.reading 15.5) (Scenario.reading 15.5)
                 1000 1000))
     = [("0xT0", returned); ("0xT1", returned)].
Proof.
  split; [reflexivity|]. split; [vm_compute; reflexivity|].
  refine (proj1 (addToken_in_flight_exceeds_cap
                   Scenario.singleSlotConfig initial "0xT0" "0xT1"
                   Scenario.meta0 Scenario.meta0 (Scenario.reading 15.5)
                   (Scenario.reading 15.5) 1000 1000 _ _ _));
    reflexivity.
Defined.

(** X5. A status can be written for a token that is no longer
    monitored. When `removeToken` is called while a tick awaits the
    status of the token, the tick resumes after the removal and writes
    the status (and, when the market cap is below the threshold or the
    token is migrated, the predictive analysis) under the address that
    was just deleted from the three maps: the detector then holds a
    status for a token it does not monitor. *)
Theorem status_written_after_removal
    (cfg : MigrationDetectorConfig) (st : State) (tokenAddress : string)
    (tokenData : TokenData) (data : MarketData) (now : Z) :
  monitoredTokens st !! tokenAddress = Some tokenData ->
  let r := schedule cfg (quiet st)
             (removedDuringCheck tokenAddress data now) in
  let migrationStatus :=
    calculateMigrationStatus cfg tokenData data now in
  monitoredTokens (maps r) !! tokenAddress = None
  /\ migrationStatuses (maps r) !! tokenAddress = Some migrationStatus
  /\ (crossing cfg tokenData migrationStatus = false ->
      suspended r = []
      /\ (enablePredictiveAnalysis cfg = true ->
          predictiveAnalyses (maps r) !! tokenAddress
          = Some (performPredictiveAnalysis tokenData migrationStatus))).
Proof.
  intros Hmonitored. cbv zeta. unfold schedule, removedDuringCheck.
  simpl. rewrite Hmonitored. simpl. rewrite String.eqb_refl.
  destruct (crossing cfg tokenData
              (calculateMigrationStatus cfg tokenData data now)) eqn:E;
    simpl.
  - split; [apply lookup_delete_eq|].
    split; [apply lookup_insert_eq|discriminate].
  - split; [apply lookup_delete_eq|].
    split; [apply lookup_insert_eq|].
    intros _. split; [reflexivity|].
    intros ->. apply lookup_insert_eq.
Qed.

Lemma status_written_after_removal_witness :
  monitoredTokens ScenarioRaces.monitoring !! Scenario.tokenAddress
  = Some Scenario.token0
  /\ monitoredTokens
       (maps (schedule loadMigrationConfig
                (quiet ScenarioRaces.monitoring)
                (removedDuringCheck Scenario.tokenAddress
                   (Scenario.reading 15.5) 2000)))
     !! Scenario.tokenAddress = None
  /\ is_Some
       (migrationStatuses
          (maps (schedule loadMigrationConfig
                   (quiet ScenarioRaces.monitoring)
                   (removedDuringCheck Scenario.tokenAddress
                      (Scenario.reading 15.5) 2000)))
        !! Scenario.tokenAddress).
Proof.
  assert (monitoredTokens ScenarioRaces.monitoring !! Scenario.tokenAddress
          = Some Scenario.token0) as Hmonitored.
  { vm_compute. reflexivity. }
  split; [exact Hmonitored|].
  destruct (status_written_after_removal loadMigrationConfig
              ScenarioRaces.monitoring Scenario.tokenAddress
              Scenario.token0 (Scenario.reading 15.5) 2000 Hmonitored)
    as (Hgone & Hstatus & _).
  split; [exact Hgone|]. rewrite Hstatus. eexists. reflexivity.
Defined.

End RegistrationRaces.

Module TradeRaces.
Import JS Transition InFlightTrades MapFacts.

Lemma length_set_absent {V : Type} (m : list (string * V)) k v :
  JSMap.get m k = None -> length (JSMap.set m k v) = S (length m).
Proof.
  induction m as [|[k' v'] m IH]; simpl; [reflexivity|].
  destruct (String.eqb k' k); [discriminate|].
  intros H. simpl. now rewrite IH.
Qed.

(** A handler that is not overlapped does what [handleMigrationEvent]
    does. *)
Lemma alone_is_handleMigrationEvent cfg st migrationEvent o :
  schedule cfg (quiet st)
    [eventReceived migrationEvent; swapDataReturned (swapData o);
     buyReturned (buy o) (buyClock o)]
  = quiet (handleMigrationEvent cfg st migrationEvent o).
Proof.
  unfold schedule, handleMigrationEvent. simpl.
  destruct (maxConcurrentTrades cfg <=? JSMap.size (activePositions st));
    simpl; [reflexivity|].
  destruct (swapData o) as [liquidityBNB|]; simpl; [|reflexivity].
  destruct (insufficientLiquidity cfg liquidityBNB); simpl;
    [reflexivity|].
  destruct (strategies cfg !! defaultStrategy cfg) eqn:Hs; simpl;
    unfold quiet, executeTransitionStrategy; rewrite Hs; reflexivity.
Qed.

(** X21. `maxConcurrentTrades` is not enforced across the awaits of
    `handleMigrationEvent`. With one free slot, two migration events of
    which the second arrives before the swap data of the first both
    pass the size test, and when both buys succeed both positions are
    stored: the active map ends one above the cap. The same two events
    one after the other open one position only. *)
Theorem concurrent_trades_exceeded_in_flight
    (cfg : TransitionConfig) (st : State)
    (first second : Detector.MigrationEvent) (s : TransitionStrategy)
    (liquidity1 liquidity2 : Q) (received1 received2 : Z)
    (gas1 gas2 : option Z) (clock1 clock2 : Z) :
  strategies cfg !! defaultStrategy cfg = Some s ->
  insufficientLiquidity cfg liquidity1 = false ->
  insufficientLiquidity cfg liquidity2 = false ->
  JSMap.size (activePositions st) + 1 = maxConcurrentTrades cfg ->
  JSMap.get (activePositions st)
            (generatePositionId clock1 (positionCounter st + 1)) = None ->
  JSMap.get (activePositions st)
            (generatePositionId clock2 (positionCounter st + 1 + 1))
  = None ->
  generatePositionId clock1 (positionCounter st + 1)
  <> generatePositionId clock2 (positionCounter st + 1 + 1) ->
  let r := schedule cfg (quiet st)
             (overlapped first second liquidity1 liquidity2
                (swapSucceeds received1 gas1)
                (swapSucceeds received2 gas2) clock1 clock2) in
  let one :=
    handleMigrationEvent cfg st first
      {| swapData := Some liquidity1;
         buy := swapSucceeds received1 gas1;
         buyClock := clock1 |} in
  JSMap.size (activePositions (book r)) = maxConcurrentTrades cfg + 1
  /\ suspended r = []
  /\ JSMap.size (activePositions one) = maxConcurrentTrades cfg
  /\ handleMigrationEvent cfg one second
       {| swapData := Some liquidity2;
          buy := swapSucceeds received2 gas2;
          buyClock := clock2 |}
     = one.
Proof.
  intros Hs Hl1 Hl2 Hslot Hfresh1 Hfresh2 Hdistinct. cbv zeta.
  assert ((maxConcurrentTrades cfg <=? JSMap.size (activePositions st))
          = false) as Hroom by (apply Z.leb_gt; lia).
  assert (JSMap.size (activePositions
            (handleMigrationEvent cfg st first
               {| swapData := Some liquidity1;
                  buy := swapSucceeds received1 gas1;
                  buyClock := clock1 |}))
          = maxConcurrentTrades cfg) as Hone.
  { unfold handleMigrationEvent. rewrite Hroom.
    cbn [swapData]. rewrite Hl1. unfold executeTransitionStrategy.
    rewrite Hs. cbn [buy buyClock activePositions].
    unfold JSMap.size in *. rewrite length_set_absent by exact Hfresh1.
    lia. }
  split; [|split; [|split]].
  - unfold schedule, overlapped. cbn [fold_left].
    unfold step at 6. cbn [quiet book suspended]. rewrite Hroom.
    unfold step at 5. cbn [book suspended]. rewrite Hroom.
    unfold step at 4. cbn [book suspended app takeQuoting].
    rewrite Hl1, Hs.
    unfold step at 3. cbn [book suspended app takeQuoting].
    rewrite Hl2, Hs.
    unfold step at 2. cbn [book suspended app takeBuying].
    unfold step. cbn [book suspended app takeBuying].
    unfold executeTransitionStrategy. rewrite Hs.
    cbn [buy buyClock activePositions positionCounter].
    unfold JSMap.size in *.
    rewrite length_set_absent.
    + rewrite length_set_absent by exact Hfresh1. lia.
    + rewrite get_set_ne by exact Hdistinct. exact Hfresh2.
  - unfold schedule, overlapped. cbn [fold_left].
    unfold step at 6. cbn [quiet book suspended]. rewrite Hroom.
    unfold step at 5. cbn [book suspended]. rewrite Hroom.
    unfold step at 4. cbn [book suspended app takeQuoting].
    rewrite Hl1, Hs.
    unfold step at 3. cbn [book suspended app takeQuoting].
    rewrite Hl2, Hs.
    unfold step at 2. cbn [book suspended app takeBuying].
    unfold step. cbn [book suspended app takeBuying].
    reflexivity.
  - exact Hone.
  - apply RiskCaps.handleMigrationEvent_at_max. rewrite Hone. lia.
Qed.

Lemma concurrent_trades_exceeded_in_flight_witness :
  maxConcurrentTrades ScenarioMore.singleTradeConfig = 1
  /\ JSMap.size
       (activePositions
          (book (schedule ScenarioMore.singleTradeConfig (quiet initial)
                   (overlapped Scenario.crossed Scenario.crossed
                      18.2 18.2 (swapSucceeds 1000000 None)
                      (swapSucceeds 1000000 None) 5000 6000))))
     = 2.
Proof.
  split; [reflexivity|].
  refine (proj1 (concurrent_trades_exceeded_in_flight
                   ScenarioMore.singleTradeConfig initial Scenario.crossed
                   Scenario.crossed aggressive 18.2 18.2 1000000 1000000
                   None None 5000 6000 _ _ _ _ _ _ _));
    try (vm_compute; reflexivity).
  vm_compute. discriminate.
Defined.

End TradeRaces.
